(** * Interactive Brokers historical-data client: a shallow embedding

    This development embeds [src/python-scripts/IB/ib_historical.py] and
    proves properties of its timestamp parser, its session client
    ([MarketDataApp]), its retriever ([get_historical_data]), its formatter
    ([format_historical_data]) and its orchestration
    ([get_ib_ticks], [get_ib_ticks_multiple]).

    Conventions of the embedding:
    - Python [str] is [string]; a character is a code point below 256.
    - Python exceptions are values of [Py.exn] carried by [Py.result].
    - [time.time()] is an integer number of milliseconds.
    - [print] calls are dropped: they never feed back into the state. *)

From Stdlib Require Import ZArith String Ascii List Bool Lia.
From Stdlib Require Import Floats.SpecFloat.
From stdpp Require Import gmap strings list.

Open Scope string_scope.
Open Scope Z_scope.

(* ===================================================================== *)
(** ** The fragment of Python the module uses *)
(* ===================================================================== *)

Module Py.

(** The exception classes that the modelled code can meet. All of them
    derive from [Exception], so every [except Exception] catches them. *)
Inductive exn : Type :=
| IndexError
| ValueError
| TypeError
| KeyError (key : string).

Inductive result (A : Type) : Type :=
| Ok (a : A)
| Raise (e : exn).
Arguments Ok {A} a.
Arguments Raise {A} e.

Definition bind {A B} (r : result A) (k : A -> result B) : result B :=
  match r with
  | Ok a => k a
  | Raise e => Raise e
  end.

(** [for x in l: f x], stopping at the first exception. *)
Fixpoint mapM {A B} (f : A -> result B) (l : list A) : result (list B) :=
  match l with
  | [] => Ok []
  | x :: l' =>
      bind (f x) (fun y => bind (mapM f l') (fun ys => Ok (y :: ys)))
  end.

(** [str.isspace] on code points below 256. *)
Definition isspace (c : ascii) : bool :=
  let n := nat_of_ascii c in
  (((9 <=? n) && (n <=? 13)) || ((28 <=? n) && (n <=? 32))
   || (n =? 133) || (n =? 160))%nat.

Fixpoint lstrip (s : string) : string :=
  match s with
  | EmptyString => EmptyString
  | String c s' => if isspace c then lstrip s' else s
  end.

Fixpoint rstrip (s : string) : string :=
  match s with
  | EmptyString => EmptyString
  | String c s' =>
      match rstrip s' with
      | EmptyString => if isspace c then EmptyString else String c EmptyString
      | r => String c r
      end
  end.

(** [s.strip()] *)
Definition strip (s : string) : string := rstrip (lstrip s).

(** [s.split(sep)] for a one-character separator: empty fields are kept
    and the result is never empty. *)
Fixpoint split (sep : ascii) (s : string) : list string :=
  match s with
  | EmptyString => [EmptyString]
  | String c s' =>
      if Ascii.eqb c sep then EmptyString :: split sep s'
      else match split sep s' with
           | [] => [String c EmptyString]
           | t :: ts => String c t :: ts
           end
  end.

(** [sep.join(l)] *)
Fixpoint join (sep : ascii) (l : list string) : string :=
  match l with
  | [] => EmptyString
  | [t] => t
  | t :: l' => String.append t (String sep (join sep l'))
  end.

(** [s[i:j]] for [0 <= i <= j]: slices truncate, they never raise. *)
Definition slice (i j : nat) (s : string) : string :=
  String.substring i (j - i) s.

(** [c in s] for a one-character [c]. *)
Fixpoint contains (c : ascii) (s : string) : bool :=
  match s with
  | EmptyString => false
  | String c' s' => Ascii.eqb c' c || contains c s'
  end.

(** [l[i]] *)
Definition index {A} (l : list A) (i : nat) : result A :=
  match nth_error l i with
  | Some x => Ok x
  | None => Raise IndexError
  end.

(** [l[-1]] *)
Definition index_last {A} (l : list A) : result A :=
  match List.rev l with
  | x :: _ => Ok x
  | [] => Raise IndexError
  end.

Definition digit_val (c : ascii) : option Z :=
  let n := nat_of_ascii c in
  if ((48 <=? n) && (n <=? 57))%nat then Some (Z.of_nat (n - 48)) else None.

(** The digit part of an integer literal: decimal digits, single
    underscores allowed between two digits. *)
Fixpoint int_digits (acc : Z) (after_digit : bool) (s : string) : option Z :=
  match s with
  | EmptyString => if after_digit then Some acc else None
  | String c s' =>
      match digit_val c with
      | Some d => int_digits (10 * acc + d) true s'
      | None =>
          if Ascii.eqb c "_" && after_digit then int_digits acc false s'
          else None
      end
  end.

(** [int(s)] for a string argument, base 10: surrounding white space is
    ignored, one sign is allowed, anything else is a [ValueError]. *)
Definition int (s : string) : result Z :=
  let body := strip s in
  let signed :=
    match body with
    | String "-" r => (-1, r)
    | String "+" r => (1, r)
    | _ => (1, body)
    end in
  match int_digits 0 false (snd signed) with
  | Some n => Ok (fst signed * n)
  | None => Raise ValueError
  end.

(** [x or d] for an optional string: [None] and [""] are falsy. *)
Definition or_str (x : option string) (d : string) : string :=
  match x with
  | Some s => if String.eqb s EmptyString then d else s
  | None => d
  end.

(** [x or d] for an optional integer: [None] and [0] are falsy. *)
Definition or_int (x : option Z) (d : Z) : Z :=
  match x with
  | Some n => if n =? 0 then d else n
  | None => d
  end.

End Py.

#[global] Instance result_bind : MBind Py.result :=
  fun A B k r => Py.bind r k.
#[global] Instance result_ret : MRet Py.result := fun A a => Py.Ok a.

(* ===================================================================== *)
(** ** Timestamps *)
(* ===================================================================== *)

(** The calendar fields of a [pd.Timestamp] built from components. *)
Record Timestamp : Type := mkTimestamp {
  year : Z; month : Z; day : Z; hour : Z; minute : Z; second : Z
}.

Definition is_leap (y : Z) : bool :=
  ((y mod 4 =? 0) && negb (y mod 100 =? 0)) || (y mod 400 =? 0).

Definition days_in_month (y m : Z) : Z :=
  if m =? 2 then (if is_leap y then 29 else 28)
  else if (m =? 4) || (m =? 6) || (m =? 9) || (m =? 11) then 30
  else 31.

(** The field ranges that the component constructor accepts (those of
    [datetime]). *)
Definition fields_ok (y mo d h mi s : Z) : bool :=
  (1 <=? y) && (y <=? 9999) && (1 <=? mo) && (mo <=? 12)
  && (1 <=? d) && (d <=? days_in_month y mo)
  && (0 <=? h) && (h <=? 23) && (0 <=? mi) && (mi <=? 59)
  && (0 <=? s) && (s <=? 59).

(** [pd.Timestamp(year=.., month=.., day=.., hour=.., minute=.., second=..)] *)
Definition pd_Timestamp (y mo d h mi s : Z) : Py.result Timestamp :=
  if fields_ok y mo d h mi s then Py.Ok (mkTimestamp y mo d h mi s)
  else Py.Raise Py.ValueError.

(** Days from 1970-01-01 to the given civil date (proleptic Gregorian). *)
Definition days_from_civil (y m d : Z) : Z :=
  let y' := if m <=? 2 then y - 1 else y in
  let era := y' / 400 in
  let yoe := y' - era * 400 in
  let mp := (m + 9) mod 12 in
  let doy := (153 * mp + 2) / 5 + d - 1 in
  let doe := yoe * 365 + yoe / 4 - yoe / 100 + doy in
  era * 146097 + doe - 719468.

(** Nanoseconds since the epoch: the [int64] view of a [datetime64[ns]]
    value. Which timestamps such a value can hold, and which columns can
    be viewed this way, is decided in [pd.in_ns_range] and
    [pd.astype_int64]. *)
Definition epoch_ns (t : Timestamp) : Z :=
  (((days_from_civil (year t) (month t) (day t) * 24 + hour t) * 60
    + minute t) * 60 + second t) * 1000000000.

(* ===================================================================== *)
(** ** Timestamp parser *)
(* ===================================================================== *)

(** [parse_ib_datetime]: the handler of the [try] prints and re-raises, so
    the exception of the body is the exception of the function. *)
Definition parse_ib_datetime (date_str : string) : Py.result Timestamp :=
  let date_str := Py.strip date_str in
  let parts := Py.split " " date_str in
  let parts :=
    if (List.length parts =? 1)%nat then (parts ++ [""; "00:00:00"])%list else parts in
  date_part ← Py.index parts 0;
  time_part ← Py.index parts 2;
  year ← Py.int (Py.slice 0 4 date_part);
  month ← Py.int (Py.slice 4 6 date_part);
  day ← Py.int (Py.slice 6 8 date_part);
  hour ← Py.int (Py.slice 0 2 time_part);
  minute ← Py.int (Py.slice 3 5 time_part);
  second ← Py.int (Py.slice 6 8 time_part);
  pd_Timestamp year month day hour minute second.

Definition US_Eastern : string := "US/Eastern".

(** [parse_ib_timezone]; [parts[-1]] cannot raise since [split] never
    returns an empty list, the default below is never used. *)
Definition parse_ib_timezone (x : string) : string :=
  let parts := Py.split " " x in
  if Py.contains "-" x || Py.contains "+" x then US_Eastern
  else
    match Py.index_last parts with
    | Py.Ok last_part =>
        if (3 <=? List.length parts)%nat && Py.contains "/" last_part
        then last_part else US_Eastern
    | Py.Raise _ => US_Eastern
    end.


(* ===================================================================== *)
(** ** Tables *)
(* ===================================================================== *)

(** A cell of a table or an attribute of a bar. A missing cell is the
    float NaN, [VFloat S754_nan]. *)
Inductive Value : Type :=
| VStr (s : string)
| VInt (z : Z)
| VFloat (f : spec_float)
| VTs (t : Timestamp).

(** A Python [dict] with string keys: insertion order is iteration order,
    assigning to a present key keeps its position. *)
Definition dict (V : Type) : Type := list (string * V).

Fixpoint dict_get {V} (k : string) (d : dict V) : option V :=
  match d with
  | [] => None
  | (k', v) :: d' => if String.eqb k' k then Some v else dict_get k d'
  end.

Fixpoint dict_set {V} (k : string) (v : V) (d : dict V) : dict V :=
  match d with
  | [] => [(k, v)]
  | (k', v') :: d' =>
      if String.eqb k' k then (k', v) :: d' else (k', v') :: dict_set k v d'
  end.

(** Ascending order. *)
Fixpoint ascending (l : list Z) : bool :=
  match l with
  | [] => true
  | x :: l' =>
      match l' with
      | [] => true
      | y :: _ => (x <=? y) && ascending l'
      end
  end.

Module pd.

(** A [pandas.DataFrame], column by column. Every column is as long as
    the index. *)
Record DataFrame : Type := mkDataFrame {
  index_name : option string;
  index : list Value;
  columns : dict (list Value)
}.

(** [pd.RangeIndex(n)] *)
Definition RangeIndex (n : nat) : list Value :=
  map (fun i => VInt (Z.of_nat i)) (seq 0 n).

(** [pd.DataFrame()] *)
Definition empty_frame : DataFrame := mkDataFrame None [] [].

(** [len(df)] *)
Definition len (df : DataFrame) : nat := List.length (index df).

(** [df.empty]: some axis has length zero. *)
Definition empty (df : DataFrame) : bool :=
  ((len df =? 0) || (List.length (columns df) =? 0))%nat.

Definition NaN : Value := VFloat S754_nan.

(** Keys in order of first appearance. *)
Fixpoint union_keys (seen : list string) (ks : list string) : list string :=
  match ks with
  | [] => seen
  | k :: ks' =>
      if existsb (String.eqb k) seen then union_keys seen ks'
      else union_keys (seen ++ [k])%list ks'
  end.

(** [pd.DataFrame(records)] for a list of dicts: one row per dict, one
    column per key, a missing key gives NaN. *)
Definition from_records (records : list (dict Value)) : DataFrame :=
  let names := union_keys [] (flat_map (map fst) records) in
  mkDataFrame None (RangeIndex (List.length records))
    (map (fun name =>
            (name, map (fun r => match dict_get name r with
                                 | Some v => v
                                 | None => NaN
                                 end) records)) names).

(** [df[name]] *)
Definition getitem (name : string) (df : DataFrame) : Py.result (list Value) :=
  match dict_get name (columns df) with
  | Some col => Py.Ok col
  | None => Py.Raise (Py.KeyError name)
  end.

(** [df[name] = col], for a column as long as the frame. *)
Definition setitem (name : string) (col : list Value) (df : DataFrame) : DataFrame :=
  mkDataFrame (index_name df) (index df) (dict_set name col (columns df)).

(** [df[name] = v] for a scalar [v]. *)
Definition setitem_scalar (name : string) (v : Value) (df : DataFrame) : DataFrame :=
  setitem name (repeat v (len df)) df.

(** [df.set_index(name, inplace=True)] *)
Definition set_index (name : string) (df : DataFrame) : Py.result DataFrame :=
  col ← getitem name df;
  Py.Ok (mkDataFrame (Some name) col
           (List.filter (fun kv => negb (String.eqb (fst kv) name)) (columns df))).

Definition has_column (name : string) (df : DataFrame) : bool :=
  match dict_get name (columns df) with Some _ => true | None => false end.

(** [df.reset_index()]: the index becomes the first column, under its
    name, or under ["index"] (["level_0"] when that is taken) if it has
    none; inserting a name already present is a [ValueError]. *)
Definition reset_index (df : DataFrame) : Py.result DataFrame :=
  let name :=
    match index_name df with
    | Some n => n
    | None => if has_column "index" df then "level_0" else "index"
    end in
  if has_column name df then Py.Raise Py.ValueError
  else Py.Ok (mkDataFrame None (RangeIndex (len df))
                ((name, index df) :: columns df)).

(** [df[[n1, n2, ...]]] *)
Definition select (names : list string) (df : DataFrame) : Py.result DataFrame :=
  cols ← Py.mapM (fun n => col ← getitem n df; Py.Ok (n, col)) names;
  Py.Ok (mkDataFrame (index_name df) (index df) cols).

(** [float -> int64]: truncation towards zero; NaN and infinities raise. *)
Definition trunc_float (f : spec_float) : Py.result Z :=
  match f with
  | S754_zero _ => Py.Ok 0
  | S754_finite s m e =>
      let a := if 0 <=? e then Z.pos m * 2 ^ e else Z.pos m / 2 ^ (- e) in
      Py.Ok (if s then - a else a)
  | _ => Py.Raise Py.ValueError
  end.

(** The timestamps that [datetime64[ns]] can hold: their nanoseconds
    since the epoch fit in a signed 64-bit integer, the least one being
    kept for [NaT] (1677-09-21 00:12:44 to 2262-04-11 23:47:16 for whole
    seconds). *)
Definition in_ns_range (t : Timestamp) : bool :=
  (- 2 ^ 63 <? epoch_ns t) && (epoch_ns t <=? 2 ^ 63 - 1).

(** A column that pandas stores as [datetime64[ns]]: every cell is a
    timestamp in that range. Timestamps outside it stay Python objects,
    and the column is an object column. *)
Definition datetime64_column (col : list Value) : bool :=
  forallb (fun v => match v with VTs t => in_ns_range t | _ => false end) col.

(** [series.astype(np.int64)]: a [datetime64[ns]] column gives its
    nanoseconds since the epoch; any other column is converted cell by
    cell, and a timestamp in such a column is a [TypeError]. *)
Definition astype_int64 (col : list Value) : Py.result (list Z) :=
  if datetime64_column col then
    Py.mapM (fun v => match v with
                      | VTs t => Py.Ok (epoch_ns t)
                      | _ => Py.Raise Py.TypeError
                      end) col
  else
    Py.mapM (fun v => match v with
                      | VInt z => Py.Ok z
                      | VFloat f => trunc_float f
                      | VStr s => Py.int s
                      | VTs _ => Py.Raise Py.TypeError
                      end) col.

(** [pd.concat(frames, axis=0, ignore_index=True)]: rows of the frames
    one after the other, columns in order of first appearance, NaN where
    a frame lacks a column; an empty list is a [ValueError]. *)
Definition concat (frames : list DataFrame) : Py.result DataFrame :=
  match frames with
  | [] => Py.Raise Py.ValueError
  | _ =>
      let names :=
        union_keys [] (flat_map (fun df => map fst (columns df)) frames) in
      Py.Ok (mkDataFrame None
               (RangeIndex (List.length (flat_map index frames)))
               (map (fun name =>
                       (name,
                        flat_map (fun df =>
                                    match dict_get name (columns df) with
                                    | Some col => col
                                    | None => repeat NaN (len df)
                                    end) frames)) names))
  end.

(** Stable insertion of a keyed row number. *)
Fixpoint insert_key (x : Z * nat) (l : list (Z * nat)) : list (Z * nat) :=
  match l with
  | [] => [x]
  | y :: l' => if fst x <=? fst y then x :: l else y :: insert_key x l'
  end.

(** Row numbers in ascending key order, ties in their original order:
    one of the orders that a sort may give. *)
Definition stable_argsort (keys : list Z) : list nat :=
  map snd (fold_right insert_key []
             (combine keys (seq 0 (List.length keys)))).

(** [df.iloc[rows]] *)
Definition take {A} (rows : list nat) (col : list A) : list A :=
  flat_map (fun i => match nth_error col i with
                     | Some v => [v]
                     | None => []
                     end) rows.

(** What every sort of a column of keys gives: the row numbers, each
    once, in an order that makes the keys ascend. *)
Definition sorting (argsort : list Z -> list nat) : Prop :=
  forall keys : list Z,
    Permutation (seq 0 (List.length keys)) (argsort keys)
    /\ ascending (take (argsort keys) keys) = true.

(** [df.sort_values([name], ascending=True)] on an integer column: rows
    are permuted together with their index labels. The sort is the
    library's default one, which is not stable: [argsort] is the order of
    rows it gives for a column of keys, and the order of rows with equal
    keys is its own. Keys that are not integers are outside the model and
    reported as [TypeError]. *)
Definition sort_values (argsort : list Z -> list nat) (name : string) (df : DataFrame)
    : Py.result DataFrame :=
  col ← getitem name df;
  keys ← Py.mapM (fun v => match v with
                           | VInt z => Py.Ok z
                           | _ => Py.Raise Py.TypeError
                           end) col;
  let rows := argsort keys in
  Py.Ok (mkDataFrame (index_name df) (take rows (index df))
           (map (fun kv => (fst kv, take rows (snd kv))) (columns df))).

End pd.

(* ===================================================================== *)
(** ** Session client *)
(* ===================================================================== *)

(** A bar as the gateway library hands it to [historicalData]. *)
Module Bar.
Record t : Type := mk {
  date : string;
  open : Value; high : Value; low : Value; close : Value; volume : Value
}.
End Bar.

Module MarketDataApp.

Record t : Type := mk {
  data : gmap Z (list (dict Value));
  done : gmap Z bool;
  connected : bool;
  verbose : Z;
  show_bars : bool;
  connection_tried : bool
}.

(** [__init__] *)
Definition init (verbose : Z) (show_bars : bool) : t :=
  mk ∅ ∅ false verbose show_bars false.

Definition set_data (d : gmap Z (list (dict Value))) (self : t) : t :=
  mk d (done self) (connected self) (verbose self) (show_bars self)
     (connection_tried self).
Definition set_done (d : gmap Z bool) (self : t) : t :=
  mk (data self) d (connected self) (verbose self) (show_bars self)
     (connection_tried self).
Definition set_connected (b : bool) (self : t) : t :=
  mk (data self) (done self) b (verbose self) (show_bars self)
     (connection_tried self).
Definition set_connection_tried (b : bool) (self : t) : t :=
  mk (data self) (done self) (connected self) (verbose self)
     (show_bars self) b.

(** [x in l] for a list of integers. *)
Definition code_in (x : Z) (l : list Z) : bool := existsb (Z.eqb x) l.

Definition critical_errors : list Z := [504; 1100; 1101; 1102; 162; 200; 321].

(** The codes on which [error] clears the connected flag. *)
Definition disconnect_errors : list Z := [504; 1100; 1101; 1102].

(** [error] *)
Definition error (self : t) (reqId errorCode : Z) (errorString : string) : t :=
  if code_in errorCode critical_errors || (1 <=? verbose self) then
    if code_in errorCode [2104; 2106; 2158] then self
    else if errorCode =? 2176 then self
    else if code_in errorCode disconnect_errors
         then set_connected false self
         else self
  else self.

(** [connectAck] *)
Definition connectAck (self : t) : t := set_connection_tried true self.

(** [nextValidId] *)
Definition nextValidId (self : t) (orderId : Z) : t := set_connected true self.

(** The dict that [historicalData] appends for a bar. *)
Definition record_of_bar (bar : Bar.t) : dict Value :=
  [("Date", VStr (Bar.date bar)); ("Open", Bar.open bar);
   ("High", Bar.high bar); ("Low", Bar.low bar);
   ("Close", Bar.close bar); ("Volume", Bar.volume bar)].

(** [historicalData] *)
Definition historicalData (self : t) (reqId : Z) (bar : Bar.t) : t :=
  let self :=
    match data self !! reqId with
    | Some _ => self
    | None => set_data (<[reqId := []]> (data self)) self
    end in
  match data self !! reqId with
  | Some l => set_data (<[reqId := (l ++ [record_of_bar bar])%list]> (data self)) self
  | None => self
  end.

(** [historicalDataEnd] *)
Definition historicalDataEnd (self : t) (reqId : Z) (start_ end_ : string) : t :=
  set_done (<[reqId := true]> (done self)) self.

(** [self.done.get(reqId, False)] *)
Definition done_get (reqId : Z) (self : t) : bool :=
  match done self !! reqId with Some b => b | None => false end.

End MarketDataApp.

(** The callbacks that the receive loop of the gateway library invokes. *)
Inductive Event : Type :=
| EvError (reqId errorCode : Z) (errorString : string)
| EvConnectAck
| EvNextValidId (orderId : Z)
| EvHistoricalData (reqId : Z) (bar : Bar.t)
| EvHistoricalDataEnd (reqId : Z) (start_ end_ : string).

Definition dispatch (app : MarketDataApp.t) (ev : Event) : MarketDataApp.t :=
  match ev with
  | EvError reqId code msg => MarketDataApp.error app reqId code msg
  | EvConnectAck => MarketDataApp.connectAck app
  | EvNextValidId orderId => MarketDataApp.nextValidId app orderId
  | EvHistoricalData reqId bar => MarketDataApp.historicalData app reqId bar
  | EvHistoricalDataEnd reqId s e => MarketDataApp.historicalDataEnd app reqId s e
  end.

(** The callbacks run one at a time, in arrival order. *)
Definition deliver (evs : list Event) (app : MarketDataApp.t) : MarketDataApp.t :=
  fold_left dispatch evs app.

(* ===================================================================== *)
(** ** The caller and the receive loop *)
(* ===================================================================== *)

(** The receive loop runs on its own thread. The model lets it run at the
    scheduling points of the caller: every [time.sleep], every call into
    the gateway library, and once between a wait loop and the read of the
    shared state that follows it. What happens at one scheduling point is a
    [Batch]: the callbacks that ran and the milliseconds that passed. *)
Record Batch : Type := mkBatch { arrivals : list Event; elapsed : Z }.

(** What the caller asks of the gateway library. *)
Inductive Action : Type :=
| Connect (host : string) (port clientId : Z)
| Disconnect
| ReqHistoricalData (reqId : Z) (symbol duration barsize : string).

Record World : Type := mkWorld {
  now : Z;
  schedule : list Batch;
  actions : list Action
}.

(** A run either finishes or needs more of the schedule than was given. *)
Inductive outcome (A : Type) : Type :=
| Done (a : A)
| OutOfSchedule.
Arguments Done {A} a.
Arguments OutOfSchedule {A}.

Definition Run (A : Type) : Type := World -> outcome (A * World).

Definition ret {A} (a : A) : Run A := fun w => Done (a, w).

Definition run_bind {A B} (m : Run A) (k : A -> Run B) : Run B :=
  fun w => match m w with
           | Done (a, w') => k a w'
           | OutOfSchedule => OutOfSchedule
           end.

Notation "'let*' x ':=' m 'in' k" := (run_bind m (fun x => k))
  (at level 10, x pattern, m at level 100, k at level 200).

Definition emit (a : Action) : Run unit :=
  fun w => Done (tt, mkWorld (now w) (schedule w) (actions w ++ [a])%list).

(** [time.time()] *)
Definition clock : Run Z := fun w => Done (now w, w).

(** A scheduling point that lasts at least [min_ms]: [time.sleep(s)]
    suspends the caller for at least [s] seconds, a library call for at
    least no time at all. The clock never goes backwards. *)
Definition pause (min_ms : Z) (app : MarketDataApp.t) : Run MarketDataApp.t :=
  fun w => match schedule w with
           | [] => OutOfSchedule
           | b :: rest =>
               Done (deliver (arrivals b) app,
                     mkWorld (now w + Z.max min_ms (elapsed b)) rest (actions w))
           end.

(** [while pending(app) and time.time() - start_time < timeout:
        time.sleep(0.1)]
    Each [time.sleep(0.1)] is a scheduling point of at least 100 ms. The
    loop has no bound of its own: it ends when the condition fails, and
    the model stops with [OutOfSchedule] if the schedule ends first. *)
Fixpoint wait_loop (pending : MarketDataApp.t -> bool) (timeout start_time : Z)
    (sched : list Batch) (app : MarketDataApp.t) (now : Z)
    : outcome (MarketDataApp.t * Z * list Batch) :=
  if pending app && (now - start_time <? timeout) then
    match sched with
    | [] => OutOfSchedule
    | b :: rest =>
        wait_loop pending timeout start_time rest
          (deliver (arrivals b) app) (now + Z.max 100 (elapsed b))
    end
  else Done (app, now, sched).

Definition wait_while (pending : MarketDataApp.t -> bool) (timeout start_time : Z)
    (app : MarketDataApp.t) : Run MarketDataApp.t :=
  fun w => match wait_loop pending timeout start_time (schedule w) app (now w) with
           | Done (app', now', sched') => Done (app', mkWorld now' sched' (actions w))
           | OutOfSchedule => OutOfSchedule
           end.

(* ===================================================================== *)
(** ** Retriever *)
(* ===================================================================== *)

(** A cell that must be a [str]. *)
Definition as_str (v : Value) : Py.result string :=
  match v with
  | VStr s => Py.Ok s
  | _ => Py.Raise Py.TypeError
  end.

(** Lines 449-454: the table built from the records of one request. *)
Definition frame_of_records (records : list (dict Value)) : Py.result pd.DataFrame :=
  let df := pd.from_records records in
  dates ← pd.getitem "Date" df;
  zones ← Py.mapM (fun v => s ← as_str v; Py.Ok (VStr (parse_ib_timezone s))) dates;
  let df := pd.setitem "Timezone" zones df in
  dates ← pd.getitem "Date" df;
  stamps ← Py.mapM (fun v => s ← as_str v; t ← parse_ib_datetime s; Py.Ok (VTs t)) dates;
  let df := pd.setitem "Date" stamps df in
  pd.set_index "Date" df.

(** Lines 427-446: reset the flag, send the request, wait. *)
Definition await_request (symbol : string) (reqId : Z) (duration bar_size : string)
    (app : MarketDataApp.t) : Run MarketDataApp.t :=
  let app := MarketDataApp.set_done (<[reqId := false]> (MarketDataApp.done app)) app in
  let* _ := emit (ReqHistoricalData reqId symbol duration bar_size) in
  let* app := pause 0 app in
  let* start_time := clock in
  let* app := wait_while (fun a => negb (MarketDataApp.done_get reqId a))
                30000 start_time app in
  pause 0 app.

(** Lines 448-455: [None] when there is nothing to tabulate. *)
Definition collect (reqId : Z) (app : MarketDataApp.t) : Py.result (option pd.DataFrame) :=
  match MarketDataApp.data app !! reqId with
  | Some (r :: records) => df ← frame_of_records (r :: records); Py.Ok (Some df)
  | _ => Py.Ok None
  end.

(** The body of the [for] loop, from request number [idx] on. An
    exception leaves the loop at once: the handler returns [None]. *)
Fixpoint requests (symbol : string) (idx : nat) (timeframe_configs : list (string * string))
    (app : MarketDataApp.t) (dataframes : dict pd.DataFrame)
    : Run (MarketDataApp.t * option (dict pd.DataFrame)) :=
  match timeframe_configs with
  | [] => ret (app, Some dataframes)
  | (duration, bar_size) :: rest =>
      let reqId := Z.of_nat idx + 1 in
      let* app := await_request symbol reqId duration bar_size app in
      match collect reqId app with
      | Py.Raise _ => ret (app, None)
      | Py.Ok found =>
          let dataframes :=
            match found with
            | Some df => dict_set bar_size df dataframes
            | None => dataframes
            end in
          let* app := pause 1000 app in
          requests symbol (S idx) rest app dataframes
      end
  end.

(** [get_historical_data] *)
Definition get_historical_data (symbol : string)
    (timeframe_configs : list (string * string)) (app : MarketDataApp.t)
    : Run (MarketDataApp.t * option (dict pd.DataFrame)) :=
  requests symbol 0 timeframe_configs app [].

(* ===================================================================== *)
(** ** Formatter *)
(* ===================================================================== *)

Definition output_columns : list string :=
  ["Ticker"; "Timeframe"; "Timestamp"; "Date"; "Timezone";
   "Open"; "High"; "Low"; "Close"; "Volume"].

(** Lines 231-250: one table, reindexed, tagged and projected. *)
Definition format_frame (symbol timeframe : string) (df : pd.DataFrame)
    : Py.result pd.DataFrame :=
  df ← pd.reset_index df;
  dates ← pd.getitem "Date" df;
  ns ← pd.astype_int64 dates;
  let df := pd.setitem "Timestamp" (map (fun n => VInt (n / 10 ^ 6)) ns) df in
  let df := pd.setitem_scalar "Ticker" (VStr symbol) df in
  let df := pd.setitem_scalar "Timeframe" (VStr timeframe) df in
  pd.select output_columns df.

(** Lines 223-255: the loop over [dfs.items()]. *)
Fixpoint format_loop (symbol : string) (items : dict (option pd.DataFrame))
    (formatted_dfs : list pd.DataFrame) : Py.result (list pd.DataFrame) :=
  match items with
  | [] => Py.Ok formatted_dfs
  | (timeframe, Some df) :: rest =>
      if negb (pd.empty df) then
        df' ← format_frame symbol timeframe df;
        format_loop symbol rest (formatted_dfs ++ [df'])%list
      else format_loop symbol rest formatted_dfs
  | (timeframe, None) :: rest => format_loop symbol rest formatted_dfs
  end.

(** The body of the [try]. *)
Definition format_body (dfs : dict (option pd.DataFrame)) (symbol : string)
    : Py.result pd.DataFrame :=
  formatted_dfs ← format_loop symbol dfs [];
  match formatted_dfs with
  | [] => Py.Ok pd.empty_frame
  | _ => pd.concat formatted_dfs
  end.

(** [format_historical_data]: the handler returns [pd.DataFrame()]. *)
Definition format_historical_data (dfs : dict (option pd.DataFrame))
    (symbol selected_timeframe : string) (verbose : Z) : pd.DataFrame :=
  match format_body dfs symbol with
  | Py.Ok df => df
  | Py.Raise _ => pd.empty_frame
  end.

(** [add_index] *)
Definition add_index (df : pd.DataFrame) : pd.DataFrame :=
  pd.setitem "Index" (map (fun i => VInt (Z.of_nat i)) (seq 1 (pd.len df))) df.

(* ===================================================================== *)
(** ** Orchestrator *)
(* ===================================================================== *)

(** [os.environ], restricted to the three variables that the module reads. *)
Record Environ : Type := mkEnviron {
  env_IB_HOST : option string;
  env_IB_PORT : option string;
  env_IB_CLIENT_ID : option string
}.

(** [os.getenv(name, default)] on an already selected variable. *)
Definition getenv (var : option string) (default : string) : string :=
  match var with
  | Some s => s
  | None => default
  end.

Definition DEFAULT_IB_HOST : string := "127.0.0.1".
Definition DEFAULT_IB_PORT : string := "4001".
Definition DEFAULT_IB_CLIENT_ID : string := "123".

(** The module-level constants, computed when the module is imported. *)
Record Config : Type := mkConfig {
  IB_HOST : string;
  IB_PORT : Z;
  IB_CLIENT_ID : Z
}.

(** Lines 62-64, on the environment as it is at import time, after
    [load_dotenv]. An exception here makes the import fail. *)
Definition import_module (environ : Environ) : Py.result Config :=
  let host := getenv (env_IB_HOST environ) DEFAULT_IB_HOST in
  port ← Py.int (getenv (env_IB_PORT environ) DEFAULT_IB_PORT);
  client_id ← Py.int (getenv (env_IB_CLIENT_ID environ) DEFAULT_IB_CLIENT_ID);
  Py.Ok (mkConfig host port client_id).

(** Lines 559-582: what is returned once the connection is up. *)
Definition tabulate (dfs : option (dict pd.DataFrame)) (symbol barsize : string)
    (verbose : Z) : option pd.DataFrame :=
  match dfs with
  | Some ((k, d) :: more) =>
      let df := format_historical_data
                  (map (fun kv => (fst kv, Some (snd kv))) ((k, d) :: more))
                  symbol barsize verbose in
      let df := add_index df in
      if negb (pd.empty df) then Some df else None
  | _ => None
  end.

(** [get_ib_ticks]. Nothing in the [try] raises in the model, and the
    [finally] disconnects on every path. *)
Definition get_ib_ticks (cfg : Config) (symbol duration barsize : string)
    (verbose : Z) (show_bars : bool)
    (host : option string) (port client_id : option Z)
    : Run (option pd.DataFrame) :=
  let host := Py.or_str host (IB_HOST cfg) in
  let port := Py.or_int port (IB_PORT cfg) in
  let client_id := Py.or_int client_id (IB_CLIENT_ID cfg) in
  let timeframe_configs := [(duration, barsize)] in
  let app := MarketDataApp.init verbose show_bars in
  let* _ := emit (Connect host port client_id) in
  let* app := pause 0 app in
  let* start_time := clock in
  let* app := wait_while (fun a => negb (MarketDataApp.connected a))
                10000 start_time app in
  let* app := pause 0 app in
  let* result :=
    if negb (MarketDataApp.connected app) then ret None
    else
      let* (app, dfs) := get_historical_data symbol timeframe_configs app in
      ret (tabulate dfs symbol barsize verbose) in
  let* _ := emit Disconnect in
  ret result.

(** Lines 621-630: the defaults are read from the environment of the
    call, and only when [verbose >= 1]; otherwise [None] is passed on. *)
Definition resolve_defaults (environ : Environ) (verbose : Z)
    (host : option string) (port client_id : option Z)
    : Py.result (option string * option Z * option Z) :=
  let host :=
    match host with
    | None => if 1 <=? verbose
              then Some (getenv (env_IB_HOST environ) DEFAULT_IB_HOST)
              else None
    | Some _ => host
    end in
  port ←
    match port with
    | None => if 1 <=? verbose
              then p ← Py.int (getenv (env_IB_PORT environ) DEFAULT_IB_PORT);
                   Py.Ok (Some p)
              else Py.Ok None
    | Some _ => Py.Ok port
    end;
  client_id ←
    match client_id with
    | None => if 1 <=? verbose
              then c ← Py.int (getenv (env_IB_CLIENT_ID environ) DEFAULT_IB_CLIENT_ID);
                   Py.Ok (Some c)
              else Py.Ok None
    | Some _ => Py.Ok client_id
    end;
  Py.Ok (host, port, client_id).

(** The inner [for] of lines 636-659. *)
Fixpoint ticks_for_symbol (cfg : Config) (symbol : string)
    (timeframes : list (string * string)) (verbose : Z) (show_bars : bool)
    (host : option string) (port client_id : option Z)
    (all_dfs : list pd.DataFrame) : Run (list pd.DataFrame) :=
  match timeframes with
  | [] => ret all_dfs
  | (duration, barsize) :: rest =>
      let* df := get_ib_ticks cfg symbol duration barsize verbose show_bars
                   host port client_id in
      let all_dfs :=
        match df with
        | Some df => (all_dfs ++ [df])%list
        | None => all_dfs
        end in
      ticks_for_symbol cfg symbol rest verbose show_bars host port client_id all_dfs
  end.

(** The outer [for]. *)
Fixpoint ticks_for_symbols (cfg : Config) (symbols : list string)
    (timeframes : list (string * string)) (verbose : Z) (show_bars : bool)
    (host : option string) (port client_id : option Z)
    (all_dfs : list pd.DataFrame) : Run (list pd.DataFrame) :=
  match symbols with
  | [] => ret all_dfs
  | symbol :: rest =>
      let* all_dfs := ticks_for_symbol cfg symbol timeframes verbose show_bars
                        host port client_id all_dfs in
      ticks_for_symbols cfg rest timeframes verbose show_bars host port client_id all_dfs
  end.

(** Lines 661-686: an exception of [concat] or [sort_values] is caught. *)
Definition combine_all (argsort : list Z -> list nat) (all_dfs : list pd.DataFrame)
    : option pd.DataFrame :=
  match all_dfs with
  | [] => None
  | _ =>
      match (final_df ← pd.concat all_dfs; pd.sort_values argsort "Timestamp" final_df) with
      | Py.Ok df => Some df
      | Py.Raise _ => None
      end
  end.

(** [get_ib_ticks_multiple]: [cfg] holds the constants of the import,
    [environ] is the environment at the time of the call. The defaults are
    resolved before the [try], so their exception reaches the caller. The
    [results] dict of the source is written and never read. [argsort] is
    the row order of the library's sort, see [pd.sort_values]. *)
Definition get_ib_ticks_multiple (argsort : list Z -> list nat)
    (cfg : Config) (environ : Environ)
    (symbols : list string) (timeframes : list (string * string))
    (verbose : Z) (show_bars : bool)
    (host : option string) (port client_id : option Z)
    : Run (Py.result (option pd.DataFrame)) :=
  match resolve_defaults environ verbose host port client_id with
  | Py.Raise e => ret (Py.Raise e)
  | Py.Ok (host, port, client_id) =>
      let* all_dfs := ticks_for_symbols cfg symbols timeframes verbose show_bars
                        host port client_id [] in
      ret (Py.Ok (combine_all argsort all_dfs))
  end.

(* ===================================================================== *)
(** ** Vocabulary of the statements *)
(* ===================================================================== *)

(** The bars that a sequence of callbacks carries for one request, in
    arrival order. *)
Fixpoint bars_for (reqId : Z) (evs : list Event) : list Bar.t :=
  match evs with
  | [] => []
  | EvHistoricalData r bar :: evs' =>
      if r =? reqId then bar :: bars_for reqId evs' else bars_for reqId evs'
  | _ :: evs' => bars_for reqId evs'
  end.

(** Whether the end-of-stream callback of a request is among the callbacks. *)
Definition ends (reqId : Z) (evs : list Event) : bool :=
  existsb (fun ev => match ev with
                     | EvHistoricalDataEnd r _ _ => r =? reqId
                     | _ => false
                     end) evs.

(** The callbacks of consecutive scheduling points. *)
Definition arrived (batches : list Batch) : list Event := flat_map arrivals batches.

(** The time that consecutive polls of a wait loop take. *)
Fixpoint napping (polls : list Batch) : Z :=
  match polls with
  | [] => 0
  | b :: polls' => Z.max 100 (elapsed b) + napping polls'
  end.

(** The time that consecutive library calls take. *)
Definition lasting (b : Batch) : Z := Z.max 0 (elapsed b).

(** The bar store of the session holds, for every request, exactly the
    bars that the callbacks [hist] carried for it. *)
Definition reflects (app : MarketDataApp.t) (hist : list Event) : Prop :=
  forall id : Z,
    MarketDataApp.data app !! id =
    match bars_for id hist with
    | [] => None
    | bars => Some (map MarketDataApp.record_of_bar bars)
    end.

(** The raw table of a sequence of bars: one row per bar, in order,
    indexed by the parsed date. *)
Definition frame_of_bars (bars : list Bar.t) : Py.result pd.DataFrame :=
  stamps ← Py.mapM (fun b => parse_ib_datetime (Bar.date b)) bars;
  Py.Ok (pd.mkDataFrame (Some "Date") (map VTs stamps)
           [("Open", map Bar.open bars); ("High", map Bar.high bars);
            ("Low", map Bar.low bars); ("Close", map Bar.close bars);
            ("Volume", map Bar.volume bars);
            ("Timezone", map (fun b => VStr (parse_ib_timezone (Bar.date b))) bars)]).

Definition table_of_bars (bars : list Bar.t) : Py.result (option pd.DataFrame) :=
  match bars with
  | [] => Py.Ok None
  | _ => df ← frame_of_bars bars; Py.Ok (Some df)
  end.

(** What [get_historical_data] keeps of a request. *)
Definition keep (bar_size : string) (found : option pd.DataFrame)
    (dataframes : dict pd.DataFrame) : dict pd.DataFrame :=
  match found with
  | Some df => dict_set bar_size df dataframes
  | None => dataframes
  end.

(** The keys of the dict that [historicalData] stores for a bar. *)
Definition bar_keys : list string :=
  ["Date"; "Open"; "High"; "Low"; "Close"; "Volume"].

(** The cells of a column, none if the table has no such column. *)
Definition column (name : string) (df : pd.DataFrame) : list Value :=
  match dict_get name (pd.columns df) with
  | Some col => col
  | None => []
  end.

Definition column_ok (name : string) (df : pd.DataFrame) : bool :=
  match dict_get name (pd.columns df) with
  | Some col => (List.length col =? pd.len df)%nat
  | None => false
  end.

(** A non-empty raw table as the retriever produces it, with dates that
    [datetime64[ns]] can hold: indexed by parsed dates under the name
    ["Date"], with the bar columns and the timezone column, each as long
    as the index. *)
Definition raw_table (df : pd.DataFrame) : bool :=
  match pd.index_name df with
  | Some n => String.eqb n "Date"
  | None => false
  end
  && pd.datetime64_column (pd.index df)
  && negb (pd.has_column "Date" df)
  && forallb (fun c => column_ok c df)
       ["Timezone"; "Open"; "High"; "Low"; "Close"; "Volume"]
  && negb (pd.empty df).

(** The epoch milliseconds of a date cell. *)
Definition epoch_ms (v : Value) : Value :=
  match v with
  | VTs t => VInt (epoch_ns t / 10 ^ 6)
  | _ => v
  end.

(** The formatted table of one raw table. *)
Definition formatted (symbol timeframe : string) (df : pd.DataFrame) : pd.DataFrame :=
  pd.mkDataFrame None (pd.RangeIndex (pd.len df))
    [("Ticker", repeat (VStr symbol) (pd.len df));
     ("Timeframe", repeat (VStr timeframe) (pd.len df));
     ("Timestamp", map epoch_ms (pd.index df));
     ("Date", pd.index df);
     ("Timezone", column "Timezone" df);
     ("Open", column "Open" df); ("High", column "High" df);
     ("Low", column "Low" df); ("Close", column "Close" df);
     ("Volume", column "Volume" df)].

(** The mapping that [get_ib_ticks] hands to the formatter. *)
Definition as_items (tables : dict pd.DataFrame) : dict (option pd.DataFrame) :=
  map (fun kv => (fst kv, Some (snd kv))) tables.

(** The same session state under another verbosity level. *)
Definition reverb (v : Z) (app : MarketDataApp.t) : MarketDataApp.t :=
  MarketDataApp.mk (MarketDataApp.data app) (MarketDataApp.done app)
    (MarketDataApp.connected app) v (MarketDataApp.show_bars app)
    (MarketDataApp.connection_tried app).

(** The result of a run on a session, seen under another verbosity level. *)
Definition reverb_run {B} (v : Z) (r : outcome (MarketDataApp.t * B))
    : outcome (MarketDataApp.t * B) :=
  match r with
  | Done (a, b) => Done (reverb v a, b)
  | OutOfSchedule => OutOfSchedule
  end.

(** A run that finishes on every schedule of at least [cost] scheduling
    points, uses at most that many, and whose result and requests to the
    gateway satisfy [post]. *)
Definition within (cost : nat) {A} (m : Run A) (post : A -> list Action -> Prop) : Prop :=
  forall w : World,
    (cost <= List.length (schedule w))%nat ->
    exists (a : A) (w' : World) (acts : list Action),
      m w = Done (a, w')
      /\ actions w' = (actions w ++ acts)%list
      /\ (List.length (schedule w) <= List.length (schedule w') + cost)%nat
      /\ post a acts.

(** The requests of one retrieval: a connection is opened, used for at
    most the one request of the retrieval, and closed. *)
Definition session_of (host : string) (port client_id : Z) (symbol : string)
    (timeframe : string * string) (acts : list Action) : Prop :=
  acts = [Connect host port client_id; Disconnect]
  \/ acts = [Connect host port client_id;
             ReqHistoricalData 1 symbol (fst timeframe) (snd timeframe);
             Disconnect].

(** The retrievals of [get_ib_ticks_multiple], in the order of its loops. *)
Definition retrievals (symbols : list string) (timeframes : list (string * string))
    : list (string * (string * string)) :=
  flat_map (fun symbol => map (fun tf => (symbol, tf)) timeframes) symbols.

(** The number of connections that a sequence of requests opens. *)
Definition connections (acts : list Action) : nat :=
  List.length (List.filter (fun a => match a with Connect _ _ _ => true | _ => false end) acts).

(** A step that asks nothing of the gateway. *)
Definition silent {A} : A -> list Action -> Prop := fun _ acts => acts = [].

(** What a finished run has asked of the gateway. *)
Definition requested {A} (r : outcome (A * World)) : list Action :=
  match r with
  | Done (_, w) => actions w
  | OutOfSchedule => []
  end.

(** A string of eight characters, the shape of a daily date. *)
Definition date8 (c1 c2 c3 c4 c5 c6 c7 c8 : ascii) : string :=
  String c1 (String c2 (String c3 (String c4
    (String c5 (String c6 (String c7 (String c8 EmptyString))))))).

(* ===================================================================== *)
(** ** Further vocabulary *)
(* ===================================================================== *)

(** A time of eight characters: two digits, a separator, two digits, a
    separator, two digits. *)
Definition time8 (h1 h2 x m1 m2 y s1 s2 : ascii) : string :=
  String h1 (String h2 (String x (String m1
    (String m2 (String y (String s1 (String s2 EmptyString))))))).

(** Whether the connection handshake completes among the callbacks. *)
Definition validates (evs : list Event) : bool :=
  existsb (fun ev => match ev with EvNextValidId _ => true | _ => false end) evs.

(** The session state has been built by callbacks alone: its bar store
    holds the bars of some sequence of callbacks. *)
Definition tracked (app : MarketDataApp.t) : Prop := exists hist, reflects app hist.

(** A table that [format_historical_data] skips. *)
Definition skipped (item : string * option pd.DataFrame) : bool :=
  match snd item with
  | Some df => pd.empty df
  | None => true
  end.

(** The integers of a column of integer cells. *)
Definition ints (col : list Value) : list Z :=
  flat_map (fun v => match v with VInt z => [z] | _ => [] end) col.

(** The requests of [get_historical_data] for a list of configs, from
    position [idx] on: the ID of a request is its position plus one. *)
Fixpoint request_actions (symbol : string) (idx : nat)
    (timeframe_configs : list (string * string)) : list Action :=
  match timeframe_configs with
  | [] => []
  | (duration, bar_size) :: rest =>
      ReqHistoricalData (Z.of_nat idx + 1) symbol duration bar_size
      :: request_actions symbol (S idx) rest
  end.

(** The table of a sequence of bars whose dates parse to [stamps]: one
    row per bar, in the order of the bars, labelled by the parsed date,
    with the five bar columns and the timezone read from the date. *)
Definition bars_frame (bars : list Bar.t) (stamps : list Timestamp) : pd.DataFrame :=
  pd.mkDataFrame (Some "Date") (map VTs stamps)
    [("Open", map Bar.open bars); ("High", map Bar.high bars);
     ("Low", map Bar.low bars); ("Close", map Bar.close bars);
     ("Volume", map Bar.volume bars);
     ("Timezone", map (fun b => VStr (parse_ib_timezone (Bar.date b))) bars)].

(** What a request with these bars gives: no table without bars. *)
Definition bars_table (bars : list Bar.t) (stamps : list Timestamp)
    : option pd.DataFrame :=
  match bars with
  | [] => None
  | _ => Some (bars_frame bars stamps)
  end.

(** What a finished run returns. *)
Definition returned {A} (r : outcome (A * World)) : option A :=
  match r with
  | Done (a, _) => Some a
  | OutOfSchedule => None
  end.

(** The tokens of a string in the sense of the specification of
    [parse_ib_timezone], which speaks of a split on whitespace: the
    maximal runs of characters that are not whitespace, as [str.split()]
    without a separator gives them. This definition follows the wording of
    the specification; the source splits on the space character
    ([Py.split]). *)
Fixpoint tokens_after (cur : option string) (s : string) : list string :=
  match s with
  | EmptyString =>
      match cur with
      | Some t => [t]
      | None => []
      end
  | String c s' =>
      if Py.isspace c then
        match cur with
        | Some t => t :: tokens_after None s'
        | None => tokens_after None s'
        end
      else
        tokens_after
          (Some (match cur with
                 | Some t => t ++ String c EmptyString
                 | None => String c EmptyString
                 end)) s'
  end.

Definition whitespace_tokens (s : string) : list string := tokens_after None s.

(* ===================================================================== *)
(** * Properties *)
(* ===================================================================== *)

(** ** Strings *)

Lemma contains_In (c : ascii) (s : string) :
  Py.contains c s = true <-> In c (list_ascii_of_string s).
Proof.
  induction s as [|c' s IH]; simpl.
  - split; [discriminate | tauto].
  - rewrite orb_true_iff, IH, Ascii.eqb_eq. tauto.
Qed.

Lemma contains_not_In (c : ascii) (s : string) :
  Py.contains c s = false <-> ~ In c (list_ascii_of_string s).
Proof.
  rewrite <- contains_In. destruct (Py.contains c s); split; intros H;
    try reflexivity; try discriminate; try (intros H'; discriminate).
  exfalso; apply H; reflexivity.
Qed.

Lemma split_nonempty (sep : ascii) (s : string) : Py.split sep s <> [].
Proof.
  destruct s as [|c s]; simpl; [discriminate|].
  destruct (Ascii.eqb c sep); [discriminate|].
  destruct (Py.split sep s); discriminate.
Qed.

Lemma join_cons (sep : ascii) (t : string) (l : list string) :
  l <> [] -> Py.join sep (t :: l) = String.append t (String sep (Py.join sep l)).
Proof. destruct l; [congruence | reflexivity]. Qed.

(** Splitting loses nothing: joining the fields gives the string back. *)
Lemma join_split (sep : ascii) (s : string) : Py.join sep (Py.split sep s) = s.
Proof.
  induction s as [|c s IH]; [reflexivity|].
  pose proof (split_nonempty sep s) as Hne.
  cbn [Py.split]. destruct (Ascii.eqb c sep) eqn:E.
  - apply Ascii.eqb_eq in E. subst c.
    rewrite join_cons by assumption. now rewrite IH.
  - destruct (Py.split sep s) as [|t ts]; [congruence|].
    destruct ts as [|t' ts].
    + cbn in *. now rewrite IH.
    + rewrite join_cons by discriminate.
      rewrite join_cons in IH by discriminate.
      rewrite <- IH. reflexivity.
Qed.

(** No field contains the separator. *)
Lemma split_fields_clean (sep : ascii) (s : string) :
  Forall (fun t => Py.contains sep t = false) (Py.split sep s).
Proof.
  induction s as [|c s IH]; simpl.
  - constructor; [reflexivity | constructor].
  - destruct (Ascii.eqb c sep) eqn:E.
    + constructor; [reflexivity | exact IH].
    + destruct (Py.split sep s) as [|t ts]; simpl.
      * constructor; [simpl; now rewrite E | constructor].
      * inversion IH; subst. constructor; [simpl; now rewrite E | assumption].
Qed.

Lemma index_last_last {A} (l : list A) (d : A) :
  l <> [] -> Py.index_last l = Py.Ok (List.last l d).
Proof.
  intros Hne. unfold Py.index_last.
  destruct (exists_last Hne) as [l' [x ->]].
  rewrite rev_app_distr. simpl. now rewrite last_last.
Qed.

(** ** Timestamp parser *)

(** A decimal digit is neither white space nor a sign nor an underscore,
    and its value is its offset from ["0"]. *)
Lemma digit_val_char (c : ascii) (d : Z) :
  Py.digit_val c = Some d ->
  Py.isspace c = false /\ Ascii.eqb c " " = false /\ 0 <= d <= 9
  /\ c <> "-"%char /\ c <> "+"%char.
Proof.
  destruct c as [[] [] [] [] [] [] [] []]; vm_compute; intros H;
    try discriminate H; injection H as <-;
    repeat split; try discriminate; try reflexivity.
Qed.

Lemma rstrip_digit (c : ascii) (d : Z) (r : string) :
  Py.digit_val c = Some d -> Py.rstrip r = r -> Py.rstrip (String c r) = String c r.
Proof.
  intros Hd Hr. simpl. rewrite Hr.
  destruct (digit_val_char c d Hd) as [Hs _].
  destruct r; [now rewrite Hs | reflexivity].
Qed.

Section DateOnly.

Variables c1 c2 c3 c4 c5 c6 c7 c8 : ascii.
Variables d1 d2 d3 d4 d5 d6 d7 d8 : Z.
Hypothesis H1 : Py.digit_val c1 = Some d1.
Hypothesis H2 : Py.digit_val c2 = Some d2.
Hypothesis H3 : Py.digit_val c3 = Some d3.
Hypothesis H4 : Py.digit_val c4 = Some d4.
Hypothesis H5 : Py.digit_val c5 = Some d5.
Hypothesis H6 : Py.digit_val c6 = Some d6.
Hypothesis H7 : Py.digit_val c7 = Some d7.
Hypothesis H8 : Py.digit_val c8 = Some d8.

Lemma int_two_digits (a b : ascii) (x y : Z) :
  Py.digit_val a = Some x -> Py.digit_val b = Some y ->
  Py.int (String a (String b EmptyString)) = Py.Ok (10 * x + y).
Proof.
  intros Ha Hb. unfold Py.int, Py.strip.
  destruct (digit_val_char a x Ha) as (Hsa & _ & _ & Hma & Hpa).
  destruct (digit_val_char b y Hb) as (Hsb & _ & _ & _ & _).
  assert (Hstrip : Py.rstrip (Py.lstrip (String a (String b ""))) = String a (String b "")).
  { simpl Py.lstrip. rewrite Hsa.
    apply (rstrip_digit a x); [assumption|].
    now apply (rstrip_digit b y). }
  rewrite Hstrip.
  assert (Hsign : match String a (String b "") with
                  | String "-" r => (-1, r)
                  | String "+" r => (1, r)
                  | _ => (1, String a (String b ""))
                  end = (1, String a (String b ""))).
  { destruct a as [[] [] [] [] [] [] [] []]; try reflexivity;
      exfalso; (apply Hma; reflexivity) || (apply Hpa; reflexivity). }
  rewrite Hsign. simpl. rewrite Ha, Hb. f_equal. lia.
Qed.

Lemma int_four_digits :
  Py.int (String c1 (String c2 (String c3 (String c4 EmptyString))))
  = Py.Ok (1000 * d1 + 100 * d2 + 10 * d3 + d4).
Proof.
  unfold Py.int, Py.strip.
  destruct (digit_val_char c1 d1 H1) as (Hs1 & _ & _ & Hm1 & Hp1).
  set (s := String c1 (String c2 (String c3 (String c4 "")))).
  assert (Hstrip : Py.rstrip (Py.lstrip s) = s).
  { unfold s. simpl Py.lstrip. rewrite Hs1.
    apply (rstrip_digit c1 d1); [assumption|].
    apply (rstrip_digit c2 d2); [assumption|].
    apply (rstrip_digit c3 d3); [assumption|].
    now apply (rstrip_digit c4 d4). }
  rewrite Hstrip.
  assert (Hsign : match s with
                  | String "-" r => (-1, r)
                  | String "+" r => (1, r)
                  | _ => (1, s)
                  end = (1, s)).
  { unfold s. destruct c1 as [[] [] [] [] [] [] [] []]; try reflexivity;
      exfalso; (apply Hm1; reflexivity) || (apply Hp1; reflexivity). }
  rewrite Hsign. unfold s. simpl. rewrite H1, H2, H3, H4. f_equal. lia.
Qed.

(** X1. A date of eight digits parses to midnight of that date, with the
    fields read off the fixed positions, whenever the fields form a date
    that the timestamp constructor accepts. *)
Lemma parse_ib_datetime_date_only :
  parse_ib_datetime (date8 c1 c2 c3 c4 c5 c6 c7 c8)
  = pd_Timestamp (1000 * d1 + 100 * d2 + 10 * d3 + d4)
      (10 * d5 + d6) (10 * d7 + d8) 0 0 0.
Proof.
  set (date := date8 c1 c2 c3 c4 c5 c6 c7 c8).
  unfold parse_ib_datetime.
  destruct (digit_val_char c1 d1 H1) as (Hs1 & Hb1 & _).
  destruct (digit_val_char c2 d2 H2) as (Hs2 & Hb2 & _).
  destruct (digit_val_char c3 d3 H3) as (Hs3 & Hb3 & _).
  destruct (digit_val_char c4 d4 H4) as (Hs4 & Hb4 & _).
  destruct (digit_val_char c5 d5 H5) as (Hs5 & Hb5 & _).
  destruct (digit_val_char c6 d6 H6) as (Hs6 & Hb6 & _).
  destruct (digit_val_char c7 d7 H7) as (Hs7 & Hb7 & _).
  destruct (digit_val_char c8 d8 H8) as (Hs8 & Hb8 & _).
  assert (Hstrip : Py.strip date = date).
  { unfold Py.strip, date, date8. simpl Py.lstrip. rewrite Hs1.
    apply (rstrip_digit c1 d1); [assumption|].
    apply (rstrip_digit c2 d2); [assumption|].
    apply (rstrip_digit c3 d3); [assumption|].
    apply (rstrip_digit c4 d4); [assumption|].
    apply (rstrip_digit c5 d5); [assumption|].
    apply (rstrip_digit c6 d6); [assumption|].
    apply (rstrip_digit c7 d7); [assumption|].
    now apply (rstrip_digit c8 d8). }
  rewrite Hstrip.
  assert (Hsplit : Py.split " " date = [date]).
  { unfold date, date8. simpl. now rewrite Hb1, Hb2, Hb3, Hb4, Hb5, Hb6, Hb7, Hb8. }
  rewrite Hsplit.
  change ((List.length [date] =? 1)%nat) with true. cbv iota.
  change (Py.index ([date] ++ [""; "00:00:00"])%list 0) with (Py.Ok date).
  change (Py.index ([date] ++ [""; "00:00:00"])%list 2) with (Py.Ok "00:00:00").
  unfold mbind, result_bind, Py.bind at 1 2.
  change (Py.slice 0 4 date) with (String c1 (String c2 (String c3 (String c4 "")))).
  change (Py.slice 4 6 date) with (String c5 (String c6 "")).
  change (Py.slice 6 8 date) with (String c7 (String c8 "")).
  rewrite int_four_digits.
  rewrite (int_two_digits c5 c6 d5 d6 H5 H6).
  rewrite (int_two_digits c7 c8 d7 d8 H7 H8).
  reflexivity.
Qed.

End DateOnly.

(** A date and a time separated by two spaces: the split has an empty
    second field, and the third field is the time. This is the shape that
    the code serves. *)
Example parse_ib_datetime_two_spaces :
  parse_ib_datetime "20241024  15:30:00" = Py.Ok (mkTimestamp 2024 10 24 15 30 0).
Proof. reflexivity. Qed.

(** With a zone name after the time, the third field is the zone. *)
Example parse_ib_datetime_zone_suffix :
  parse_ib_datetime "20241024 15:30:00 US/Eastern" = Py.Raise Py.ValueError.
Proof. reflexivity. Qed.

Example parse_ib_datetime_daily :
  parse_ib_datetime "20231124" = Py.Ok (mkTimestamp 2023 11 24 0 0 0).
Proof. reflexivity. Qed.

(** X3. Whatever the characters, an input of exactly two space-separated
    fields has no third field to read the time from. *)
Lemma parse_ib_datetime_two_fields (s : string) :
  List.length (Py.split " " (Py.strip s)) = 2%nat ->
  parse_ib_datetime s = Py.Raise Py.IndexError.
Proof.
  intros Hlen. unfold parse_ib_datetime.
  destruct (Py.split " " (Py.strip s)) as [|a [|b [|c l]]]; try discriminate Hlen.
  reflexivity.
Qed.

(** C1. On the documented intraday shape, a date and a time separated by
    one space, [parse_ib_datetime] raises [IndexError] instead of
    returning year 2024, month 10, day 24, hour 15, minute 30, second 0:
    the time is read from the third field of the split and there are only
    two. *)
Theorem parse_ib_datetime_single_space_raises :
  parse_ib_datetime "20241024 15:30:00" = Py.Raise Py.IndexError.
Proof. reflexivity. Qed.

(** C2, as the code has it. [parse_ib_timezone] returns the market
    default as soon as the input contains a minus or a plus sign, whatever
    follows; without either sign it returns the last field when the split
    on the space character gives at least three fields and the last one
    contains a slash; in every other case it returns the market default.
    The fields are those of [split(" ")]: every single space separates, so
    the empty fields at a leading, a trailing or a doubled space count. *)
Theorem parse_ib_timezone_cases (x : string) :
  let chars := list_ascii_of_string x in
  let parts := Py.split " " x in
  let last_part := List.last parts EmptyString in
  ((In "-"%char chars \/ In "+"%char chars) ->
     parse_ib_timezone x = "US/Eastern")
  /\ (~ In "-"%char chars -> ~ In "+"%char chars ->
      (3 <= List.length parts)%nat ->
      In "/"%char (list_ascii_of_string last_part) ->
      parse_ib_timezone x = last_part)
  /\ (~ In "-"%char chars -> ~ In "+"%char chars ->
      ~ ((3 <= List.length parts)%nat
         /\ In "/"%char (list_ascii_of_string last_part)) ->
      parse_ib_timezone x = "US/Eastern").
Proof.
  intros chars parts last_part. unfold parse_ib_timezone.
  fold parts. rewrite (index_last_last parts EmptyString (split_nonempty _ _)).
  fold last_part. repeat split.
  - intros [H | H]; apply contains_In in H; rewrite H; [reflexivity|].
    now rewrite orb_true_r.
  - intros Hm Hp Hlen Hslash.
    apply contains_not_In in Hm, Hp. rewrite Hm, Hp. cbn [orb].
    apply contains_In in Hslash. rewrite Hslash.
    apply Nat.leb_le in Hlen. now rewrite Hlen.
  - intros Hm Hp Hno.
    apply contains_not_In in Hm, Hp. rewrite Hm, Hp. cbn [orb].
    destruct (3 <=? List.length parts)%nat eqn:Hlen; [|reflexivity].
    destruct (Py.contains "/" last_part) eqn:Hslash; [|reflexivity].
    exfalso. apply Hno. split.
    + now apply Nat.leb_le.
    + now apply contains_In.
Qed.

Ltac absent_char :=
  let H := fresh in
  simpl; intros H;
  repeat (destruct H as [H | H]; [discriminate H|]); exact H.

Lemma parse_ib_timezone_cases_witness :
  parse_ib_timezone "20241024 15:30:00-04:00 Europe/Paris" = "US/Eastern"
  /\ parse_ib_timezone "20241024 15:30:00 Europe/Paris" = "Europe/Paris"
  /\ parse_ib_timezone "20241024 15:30:00" = "US/Eastern".
Proof.
  split; [|split].
  - apply (proj1 (parse_ib_timezone_cases "20241024 15:30:00-04:00 Europe/Paris")).
    left. simpl. do 17 right. left. reflexivity.
  - apply (proj1 (proj2 (parse_ib_timezone_cases "20241024 15:30:00 Europe/Paris"))).
    + absent_char.
    + absent_char.
    + simpl. lia.
    + simpl. do 6 right. left. reflexivity.
  - apply (proj2 (proj2 (parse_ib_timezone_cases "20241024 15:30:00"))).
    + absent_char.
    + absent_char.
    + simpl. intros [Hlen _]. lia.
Defined.

(** C2, as stated, fails, for the tokens of a split on whitespace are
    not the fields that the code counts. With a space at the end the last
    field is empty: three tokens, the last one a zone name, no sign, and
    the market default is returned. With a doubled space the empty field
    in the middle is counted: two tokens only, and the zone name is
    returned. *)
Lemma whitespace_tokens_do_not_decide_zone :
  let trailing := "20241024 15:30:00 Europe/Paris " in
  let doubled := "20241024  Europe/Paris" in
  (whitespace_tokens trailing = ["20241024"; "15:30:00"; "Europe/Paris"]
   /\ Py.contains "+" trailing = false /\ Py.contains "-" trailing = false
   /\ Py.contains "/" "Europe/Paris" = true
   /\ Py.split " " trailing = ["20241024"; "15:30:00"; "Europe/Paris"; EmptyString]
   /\ parse_ib_timezone trailing = "US/Eastern")
  /\ (whitespace_tokens doubled = ["20241024"; "Europe/Paris"]
      /\ Py.contains "+" doubled = false /\ Py.contains "-" doubled = false
      /\ Py.split " " doubled = ["20241024"; EmptyString; "Europe/Paris"]
      /\ parse_ib_timezone doubled = "Europe/Paris").
Proof. vm_compute. repeat split; reflexivity. Qed.

(** ** Session client *)

Lemma disconnect_errors_critical (code : Z) :
  MarketDataApp.code_in code MarketDataApp.disconnect_errors = true ->
  MarketDataApp.code_in code MarketDataApp.critical_errors = true.
Proof.
  unfold MarketDataApp.code_in. simpl.
  destruct (code =? 504), (code =? 1100), (code =? 1101), (code =? 1102);
    simpl; intros H; (reflexivity || discriminate H).
Qed.

Lemma code_in_In (code : Z) (l : list Z) :
  In code l -> MarketDataApp.code_in code l = true.
Proof.
  intros H. unfold MarketDataApp.code_in. apply existsb_exists.
  exists code. split; [assumption | apply Z.eqb_refl].
Qed.

(** C3, as the code has it. The codes 504, 1100, 1101 and 1102 clear
    the connected flag at every verbosity level; the other codes of the
    critical list, 162, 200 and 321, leave the session state, the
    connected flag included, as it was. *)
Theorem error_clears_connected (app : MarketDataApp.t) (reqId code : Z) (msg : string) :
  (In code [504; 1100; 1101; 1102] ->
     MarketDataApp.connected (MarketDataApp.error app reqId code msg) = false)
  /\ (In code [162; 200; 321] -> MarketDataApp.error app reqId code msg = app).
Proof.
  split; intros Hin.
  - unfold MarketDataApp.error.
    rewrite (disconnect_errors_critical code (code_in_In _ _ Hin)). simpl.
    simpl in Hin. decompose [or] Hin; subst; try contradiction; reflexivity.
  - unfold MarketDataApp.error.
    simpl in Hin. decompose [or] Hin; subst; try contradiction; simpl;
      reflexivity.
Qed.

Lemma error_clears_connected_witness :
  MarketDataApp.connected
    (MarketDataApp.error (MarketDataApp.mk ∅ ∅ true 0 false false) 1 504 "Not connected")
  = false
  /\ MarketDataApp.error (MarketDataApp.mk ∅ ∅ true 0 false false) 1 162 "No data"
     = MarketDataApp.mk ∅ ∅ true 0 false false.
Proof.
  split.
  - apply (proj1 (error_clears_connected _ 1 504 "Not connected")).
    simpl. left. reflexivity.
  - apply (proj2 (error_clears_connected _ 1 162 "No data")).
    simpl. left. reflexivity.
Defined.

(** C3, as stated, fails: 162 is in the critical list, and the callback
    leaves a connected session connected at verbosity 0. *)
Lemma critical_162_keeps_connected :
  ~ (forall (app : MarketDataApp.t) (reqId code : Z) (msg : string),
       In code MarketDataApp.critical_errors ->
       In (MarketDataApp.verbose app) [0; 1; 2] ->
       MarketDataApp.connected (MarketDataApp.error app reqId code msg) = false).
Proof.
  intros H.
  specialize (H (MarketDataApp.mk ∅ ∅ true 0 false false) 1 162 "No data").
  simpl in H. discriminate H; tauto.
Qed.

(** ** Bar store and completion flags *)

Lemma bars_for_app (id : Z) (l1 l2 : list Event) :
  bars_for id (l1 ++ l2) = (bars_for id l1 ++ bars_for id l2)%list.
Proof.
  induction l1 as [|ev l1 IH]; [reflexivity|].
  destruct ev; simpl; try exact IH.
  destruct (reqId =? id); simpl; now rewrite IH.
Qed.

Lemma ends_app (id : Z) (l1 l2 : list Event) :
  ends id (l1 ++ l2) = ends id l1 || ends id l2.
Proof. unfold ends. apply existsb_app. Qed.

Lemma arrived_app (l1 l2 : list Batch) :
  arrived (l1 ++ l2) = (arrived l1 ++ arrived l2)%list.
Proof. unfold arrived. apply flat_map_app. Qed.

Lemma deliver_app (l1 l2 : list Event) (app : MarketDataApp.t) :
  deliver (l1 ++ l2) app = deliver l2 (deliver l1 app).
Proof. unfold deliver. apply fold_left_app. Qed.

Lemma reflects_init (verbose : Z) (show_bars : bool) :
  reflects (MarketDataApp.init verbose show_bars) [].
Proof. intros id. simpl. apply lookup_empty. Qed.

Lemma reflects_set_done (app : MarketDataApp.t) (hist : list Event) (d : gmap Z bool) :
  reflects app hist -> reflects (MarketDataApp.set_done d app) hist.
Proof. intros H id. exact (H id). Qed.

Lemma reflects_dispatch (app : MarketDataApp.t) (hist : list Event) (ev : Event) :
  reflects app hist -> reflects (dispatch app ev) (hist ++ [ev]).
Proof.
  intros H id. rewrite bars_for_app. specialize (H id).
  destruct ev as [r c m | | o | r bar | r s e]; simpl;
    try (rewrite app_nil_r; try exact H).
  - unfold MarketDataApp.error.
    repeat match goal with |- context [if ?b then _ else _] => destruct b end;
      exact H.
  - unfold MarketDataApp.historicalData.
    destruct (Z.eqb_spec r id) as [-> | Hne].
    + destruct (MarketDataApp.data app !! id) as [l|] eqn:E; simpl.
      * rewrite E. simpl. rewrite lookup_insert_eq.
        destruct (bars_for id hist) as [|b bs]; [discriminate H|].
        injection H as ->. now rewrite <- map_cons, <- map_last.
      * rewrite lookup_insert_eq. simpl. rewrite lookup_insert_eq.
        destruct (bars_for id hist) as [|b bs]; [reflexivity | discriminate H].
    + rewrite app_nil_r.
      destruct (MarketDataApp.data app !! r) as [l|] eqn:E; simpl.
      * rewrite E. simpl. now rewrite lookup_insert_ne.
      * rewrite lookup_insert_eq. simpl.
        rewrite lookup_insert_ne by assumption.
        now rewrite lookup_insert_ne.
Qed.

Lemma reflects_deliver (evs : list Event) (app : MarketDataApp.t) (hist : list Event) :
  reflects app hist -> reflects (deliver evs app) (hist ++ evs).
Proof.
  revert app hist. induction evs as [|ev evs IH]; intros app hist H.
  - now rewrite app_nil_r.
  - change (ev :: evs) with ([ev] ++ evs)%list.
    rewrite deliver_app, app_assoc. apply IH.
    change (deliver [ev] app) with (dispatch app ev).
    now apply reflects_dispatch.
Qed.

Lemma done_get_dispatch (id : Z) (app : MarketDataApp.t) (ev : Event) :
  MarketDataApp.done_get id (dispatch app ev)
  = MarketDataApp.done_get id app || ends id [ev].
Proof.
  destruct ev as [r c m | | o | r bar | r s e]; simpl;
    try (now rewrite orb_false_r).
  - unfold MarketDataApp.error.
    repeat match goal with |- context [if ?b then _ else _] => destruct b end;
      now rewrite orb_false_r.
  - unfold MarketDataApp.historicalData, MarketDataApp.done_get.
    destruct (MarketDataApp.data app !! r); simpl.
    + destruct (MarketDataApp.data app !! r); simpl; now rewrite orb_false_r.
    + rewrite lookup_insert_eq. simpl. now rewrite orb_false_r.
  - unfold MarketDataApp.done_get, MarketDataApp.historicalDataEnd. simpl.
    rewrite orb_false_r.
    destruct (Z.eqb_spec r id) as [-> | Hne].
    + rewrite lookup_insert_eq. now rewrite orb_true_r.
    + rewrite lookup_insert_ne by assumption. now rewrite orb_false_r.
Qed.

(** Only the end-of-stream callback sets a completion flag, and no
    callback clears one. *)
Lemma done_get_deliver (id : Z) (evs : list Event) (app : MarketDataApp.t) :
  MarketDataApp.done_get id (deliver evs app)
  = MarketDataApp.done_get id app || ends id evs.
Proof.
  revert app. induction evs as [|ev evs IH]; intros app.
  - simpl. now rewrite orb_false_r.
  - change (ev :: evs) with ([ev] ++ evs)%list.
    rewrite deliver_app, IH.
    change (deliver [ev] app) with (dispatch app ev).
    rewrite done_get_dispatch, ends_app.
    now rewrite orb_assoc.
Qed.

Lemma done_get_reset (id : Z) (app : MarketDataApp.t) :
  MarketDataApp.done_get id
    (MarketDataApp.set_done (<[id := false]> (MarketDataApp.done app)) app) = false.
Proof. unfold MarketDataApp.done_get. simpl. now rewrite lookup_insert_eq. Qed.

(** ** The wait loop *)

Lemma napping_app (l1 l2 : list Batch) : napping (l1 ++ l2) = napping l1 + napping l2.
Proof. induction l1 as [|b l1 IH]; simpl; lia. Qed.

Lemma napping_length (l : list Batch) : 100 * Z.of_nat (List.length l) <= napping l.
Proof. induction l as [|b l IH]; simpl List.length; simpl napping; lia. Qed.

Section WaitLoop.

Variable pending : MarketDataApp.t -> bool.
Variables timeout start_time : Z.

(** As long as the condition holds at the checks before them, the polls
    are taken one after the other. *)
Lemma wait_loop_run (polls rest : list Batch) (app : MarketDataApp.t) (now : Z) :
  (forall n, (n < List.length polls)%nat ->
     pending (deliver (arrived (firstn n polls)) app) = true
     /\ now + napping (firstn n polls) - start_time < timeout) ->
  wait_loop pending timeout start_time (polls ++ rest) app now
  = wait_loop pending timeout start_time rest
      (deliver (arrived polls) app) (now + napping polls).
Proof.
  revert app now. induction polls as [|b polls IH]; intros app now H.
  - simpl. now rewrite Z.add_0_r.
  - destruct (H 0%nat) as [Hp Ht]; [simpl; lia|].
    simpl in Hp, Ht. rewrite Z.add_0_r in Ht.
    rewrite <- app_comm_cons. cbn [wait_loop]. rewrite Hp.
    assert (Hlt : (now - start_time <? timeout) = true) by (apply Z.ltb_lt; lia).
    rewrite Hlt. cbn [andb].
    rewrite IH.
    + unfold arrived. simpl flat_map. fold (arrived polls).
      rewrite deliver_app. simpl napping. f_equal. lia.
    + intros n Hn. destruct (H (S n)) as [Hp' Ht']; [simpl; lia|].
      simpl firstn in Hp', Ht'. unfold arrived in Hp'. simpl flat_map in Hp'.
      fold (arrived (firstn n polls)) in Hp'. rewrite deliver_app in Hp'.
      simpl napping in Ht'. split; [exact Hp' | lia].
Qed.

(** What a finished wait has done. *)
Lemma wait_loop_inv (sched : list Batch) (app : MarketDataApp.t) (now : Z)
    (app' : MarketDataApp.t) (now' : Z) (sched' : list Batch) :
  wait_loop pending timeout start_time sched app now = Done (app', now', sched') ->
  exists polls,
    sched = (polls ++ sched')%list
    /\ app' = deliver (arrived polls) app
    /\ now' = now + napping polls
    /\ (forall n, (n < List.length polls)%nat ->
          pending (deliver (arrived (firstn n polls)) app) = true
          /\ now + napping (firstn n polls) - start_time < timeout)
    /\ (pending app' = false \/ timeout <= now' - start_time).
Proof.
  revert app now. induction sched as [|b sched IH]; intros app now H.
  - cbn [wait_loop] in H.
    destruct (pending app && (now - start_time <? timeout)) eqn:E;
      [discriminate H|]. injection H as <- <- <-.
    exists []. simpl. repeat split; try lia.
    apply andb_false_iff in E. destruct E as [E | E]; [now left|].
    right. apply Z.ltb_ge in E. lia.
  - cbn [wait_loop] in H.
    destruct (pending app && (now - start_time <? timeout)) eqn:E.
    + apply IH in H. destruct H as (polls & -> & -> & -> & Hbefore & Hstop).
      exists (b :: polls). unfold arrived. simpl flat_map. fold (arrived polls).
      rewrite deliver_app. simpl napping.
      repeat split; try reflexivity; try lia.
      * destruct n as [|n]; simpl.
        -- apply andb_true_iff in E. tauto.
        -- unfold arrived. simpl flat_map. fold (arrived (firstn n polls)).
           rewrite deliver_app. apply Hbefore. simpl in H. lia.
      * destruct n as [|n]; simpl.
        -- apply andb_true_iff in E. destruct E as [_ E].
           apply Z.ltb_lt in E. lia.
        -- destruct (Hbefore n) as [_ Ht]; [simpl in H; lia|]. lia.
      * destruct Hstop as [Hstop | Hstop]; [now left | right; lia].
    + injection H as <- <- <-.
      exists []. simpl. repeat split; try lia.
      apply andb_false_iff in E. destruct E as [E | E]; [now left|].
      right. apply Z.ltb_ge in E. lia.
Qed.

(** The wait always finishes on a schedule that is long enough: every
    poll takes a tenth of a second at least. *)
Lemma wait_loop_total (sched : list Batch) (app : MarketDataApp.t) (now : Z) :
  timeout - (now - start_time) <= 100 * Z.of_nat (List.length sched) ->
  exists app' now' sched',
    wait_loop pending timeout start_time sched app now = Done (app', now', sched').
Proof.
  revert app now. induction sched as [|b sched IH]; intros app now H.
  - cbn [wait_loop]. simpl in H.
    assert (E : (now - start_time <? timeout) = false) by (apply Z.ltb_ge; lia).
    rewrite E, andb_false_r. eauto.
  - cbn [wait_loop].
    destruct (pending app && (now - start_time <? timeout)); [|eauto].
    apply IH. simpl List.length in H. lia.
Qed.

End WaitLoop.

(** ** From records to tables *)

Lemma union_keys_absorb (seen ks : list string) :
  (forall k, In k ks -> existsb (String.eqb k) seen = true) ->
  pd.union_keys seen ks = seen.
Proof.
  induction ks as [|k ks IH]; intros H; [reflexivity|].
  simpl. rewrite (H k) by (left; reflexivity).
  apply IH. intros k' Hk'. apply H. now right.
Qed.

Lemma keys_of_bars (bars : list Bar.t) :
  bars <> [] ->
  pd.union_keys [] (flat_map (map fst) (map MarketDataApp.record_of_bar bars)) = bar_keys.
Proof.
  destruct bars as [|b bars]; [congruence|]. intros _.
  simpl map. simpl flat_map.
  change (pd.union_keys []
            ("Date" :: "Open" :: "High" :: "Low" :: "Close" :: "Volume"
             :: flat_map (map fst) (map MarketDataApp.record_of_bar bars))
          = bar_keys).
  do 6 (cbn [pd.union_keys existsb String.eqb Ascii.eqb Bool.eqb orb List.app]).
  apply union_keys_absorb.
  intros k Hk. apply in_flat_map in Hk. destruct Hk as (r & Hr & Hk).
  apply in_map_iff in Hr. destruct Hr as (b' & <- & _).
  simpl in Hk. decompose [or] Hk; subst; try contradiction; reflexivity.
Qed.

Lemma from_records_bars (bars : list Bar.t) :
  bars <> [] ->
  pd.from_records (map MarketDataApp.record_of_bar bars)
  = pd.mkDataFrame None (pd.RangeIndex (List.length bars))
      [("Date", map (fun b => VStr (Bar.date b)) bars);
       ("Open", map Bar.open bars); ("High", map Bar.high bars);
       ("Low", map Bar.low bars); ("Close", map Bar.close bars);
       ("Volume", map Bar.volume bars)].
Proof.
  intros Hne. unfold pd.from_records.
  rewrite (keys_of_bars bars Hne), length_map.
  unfold bar_keys. cbn [map]. rewrite !map_map. reflexivity.
Qed.

Lemma mapM_zones (bars : list Bar.t) :
  Py.mapM (fun v => s ← as_str v; Py.Ok (VStr (parse_ib_timezone s)))
    (map (fun b => VStr (Bar.date b)) bars)
  = Py.Ok (map (fun b => VStr (parse_ib_timezone (Bar.date b))) bars).
Proof.
  induction bars as [|b bars IH]; [reflexivity|].
  cbn [map Py.mapM]. rewrite IH. reflexivity.
Qed.

Lemma mapM_stamps (bars : list Bar.t) :
  Py.mapM (fun v => s ← as_str v; t ← parse_ib_datetime s; Py.Ok (VTs t))
    (map (fun b => VStr (Bar.date b)) bars)
  = (stamps ← Py.mapM (fun b => parse_ib_datetime (Bar.date b)) bars;
     Py.Ok (map VTs stamps)).
Proof.
  induction bars as [|b bars IH]; [reflexivity|].
  cbn [map Py.mapM]. rewrite IH.
  unfold mbind, result_bind. cbn [as_str Py.bind].
  destruct (parse_ib_datetime (Bar.date b)); [|reflexivity].
  cbn [Py.bind].
  destruct (Py.mapM (fun b0 => parse_ib_datetime (Bar.date b0)) bars); reflexivity.
Qed.

(** The table that the retriever builds from the stored records of a
    request is the raw table of the bars. *)
Lemma frame_of_records_bars (bars : list Bar.t) :
  bars <> [] ->
  frame_of_records (map MarketDataApp.record_of_bar bars) = frame_of_bars bars.
Proof.
  intros Hne. unfold frame_of_records, frame_of_bars.
  rewrite (from_records_bars bars Hne).
  pose proof (mapM_zones bars) as Hz. pose proof (mapM_stamps bars) as Hs.
  unfold mbind, result_bind in *.
  cbn [Py.bind pd.getitem pd.columns dict_get String.eqb Ascii.eqb Bool.eqb].
  rewrite Hz.
  cbn [Py.bind pd.getitem pd.setitem pd.columns pd.index pd.index_name
       dict_get dict_set String.eqb Ascii.eqb Bool.eqb].
  rewrite Hs.
  destruct (Py.mapM (fun b => parse_ib_datetime (Bar.date b)) bars) as [stamps|e];
    reflexivity.
Qed.

Lemma collect_reflects (reqId : Z) (app : MarketDataApp.t) (hist : list Event) :
  reflects app hist -> collect reqId app = table_of_bars (bars_for reqId hist).
Proof.
  intros H. unfold collect, table_of_bars. rewrite (H reqId).
  destruct (bars_for reqId hist) as [|b bars] eqn:E; [reflexivity|].
  cbn [map]. rewrite <- map_cons.
  rewrite frame_of_records_bars by discriminate. reflexivity.
Qed.

(** When every date parses, the raw table has one row per bar. *)
Lemma frame_of_bars_len (bars : list Bar.t) (df : pd.DataFrame) :
  frame_of_bars bars = Py.Ok df -> pd.len df = List.length bars.
Proof.
  unfold frame_of_bars, mbind, result_bind.
  assert (Hlen : forall l stamps,
             Py.mapM (fun b => parse_ib_datetime (Bar.date b)) l = Py.Ok stamps ->
             List.length stamps = List.length l).
  { induction l as [|b l IH]; intros stamps H.
    - injection H as <-. reflexivity.
    - cbn [Py.mapM] in H.
      destruct (parse_ib_datetime (Bar.date b)); [|discriminate H].
      cbn [Py.bind] in H.
      destruct (Py.mapM (fun b0 => parse_ib_datetime (Bar.date b0)) l);
        [|discriminate H].
      injection H as <-. simpl. f_equal. now apply IH. }
  destruct (Py.mapM (fun b => parse_ib_datetime (Bar.date b)) bars) as [stamps|e] eqn:E;
    [|discriminate].
  cbn [Py.bind]. intros H. injection H as <-.
  unfold pd.len. cbn [pd.index]. rewrite length_map. now apply Hlen.
Qed.

(** ** Retriever *)

(** The state on which the wait of a request starts: the flag is reset,
    the request is sent, and the callbacks of that call have run. *)
Lemma await_request_unfold (symbol : string) (reqId : Z) (duration bar_size : string)
    (app : MarketDataApp.t) (w : World) (sent : Batch) (sched : list Batch) :
  schedule w = sent :: sched ->
  let app1 := deliver (arrivals sent)
                (MarketDataApp.set_done (<[reqId := false]> (MarketDataApp.done app)) app) in
  let t0 := now w + lasting sent in
  await_request symbol reqId duration bar_size app w =
  match wait_loop (fun a => negb (MarketDataApp.done_get reqId a)) 30000 t0 sched app1 t0 with
  | Done (app2, t2, settle :: rest) =>
      Done (deliver (arrivals settle) app2,
            mkWorld (t2 + lasting settle) rest
              (actions w ++ [ReqHistoricalData reqId symbol duration bar_size])%list)
  | Done (_, _, []) => OutOfSchedule
  | OutOfSchedule => OutOfSchedule
  end.
Proof.
  intros Hs app1 t0.
  unfold await_request, run_bind, emit, pause, clock, wait_while.
  cbn [schedule now actions]. rewrite Hs.
  fold app1. unfold lasting in t0. fold t0. cbn [schedule now actions].
  destruct (wait_loop _ 30000 t0 sched app1 t0) as [[[app2 t2] [|settle rest]]|];
    reflexivity.
Qed.

Lemma requests_unfold (symbol : string) (idx : nat) (duration bar_size : string)
    (more : list (string * string)) (app : MarketDataApp.t)
    (dataframes : dict pd.DataFrame) (w : World) :
  requests symbol idx ((duration, bar_size) :: more) app dataframes w =
  match await_request symbol (Z.of_nat idx + 1) duration bar_size app w with
  | Done (app', w') =>
      match collect (Z.of_nat idx + 1) app' with
      | Py.Raise _ => Done ((app', None), w')
      | Py.Ok found =>
          (let* app'' := pause 1000 app' in
           requests symbol (S idx) more app'' (keep bar_size found dataframes)) w'
      end
  | OutOfSchedule => OutOfSchedule
  end.
Proof.
  cbn [requests]. unfold run_bind at 1.
  destruct (await_request symbol (Z.of_nat idx + 1) duration bar_size app w)
    as [[app' w']|]; [|reflexivity].
  destruct (collect (Z.of_nat idx + 1) app'); reflexivity.
Qed.

Lemma pending_after_reset (reqId : Z) (app : MarketDataApp.t) (evs : list Event) :
  negb (MarketDataApp.done_get reqId
          (deliver evs
             (MarketDataApp.set_done (<[reqId := false]> (MarketDataApp.done app)) app)))
  = negb (ends reqId evs).
Proof. now rewrite done_get_deliver, done_get_reset. Qed.

(** A request whose end-of-stream callback runs while the timeout has
    not elapsed: the retriever takes exactly the polls up to the check at
    which the flag is up, and tabulates the bars that the callbacks
    appended for the request ID. When a date does not parse, the handler
    returns [None]. *)
Lemma complete_request_collects
    (symbol : string) (idx : nat) (duration bar_size : string)
    (more : list (string * string)) (dataframes : dict pd.DataFrame)
    (app : MarketDataApp.t) (hist : list Event) (w : World)
    (sent : Batch) (polls : list Batch) (settle : Batch) (rest : list Batch) :
  let reqId := Z.of_nat idx + 1 in
  let seen := (hist ++ arrived (sent :: polls ++ [settle]))%list in
  reflects app hist ->
  schedule w = sent :: (polls ++ settle :: rest)%list ->
  (forall n, (n < List.length polls)%nat ->
     ends reqId (arrivals sent ++ arrived (firstn n polls)) = false
     /\ napping (firstn n polls) < 30000) ->
  ends reqId (arrivals sent ++ arrived polls) = true ->
  exists app' w',
    await_request symbol reqId duration bar_size app w = Done (app', w')
    /\ schedule w' = rest
    /\ reflects app' seen
    /\ collect reqId app' = table_of_bars (bars_for reqId seen)
    /\ requests symbol idx ((duration, bar_size) :: more) app dataframes w =
       match table_of_bars (bars_for reqId seen) with
       | Py.Raise _ => Done ((app', None), w')
       | Py.Ok found =>
           (let* app'' := pause 1000 app' in
            requests symbol (S idx) more app'' (keep bar_size found dataframes)) w'
       end.
Proof.
  intros reqId seen Hrefl Hsched Hbefore Hend.
  pose proof (await_request_unfold symbol reqId duration bar_size app w sent _ Hsched)
    as Hun. cbv zeta in Hun.
  set (app0 := MarketDataApp.set_done (<[reqId := false]> (MarketDataApp.done app)) app) in *.
  set (app1 := deliver (arrivals sent) app0) in *.
  set (t0 := now w + lasting sent) in *.
  rewrite wait_loop_run in Hun.
  2:{ intros n Hn. destruct (Hbefore n Hn) as [He Ht]. split; [|lia].
      unfold app1, app0. rewrite <- deliver_app, pending_after_reset.
      now rewrite He. }
  assert (Hstop : negb (MarketDataApp.done_get reqId (deliver (arrived polls) app1)) = false).
  { unfold app1, app0. rewrite <- deliver_app, pending_after_reset. now rewrite Hend. }
  cbn [wait_loop] in Hun. rewrite Hstop in Hun. cbn [andb] in Hun.
  eexists _, _. split; [exact Hun|].
  assert (Hseen : reflects (deliver (arrivals settle) (deliver (arrived polls) app1)) seen).
  { unfold seen, app1, app0. rewrite <- !deliver_app.
    replace (arrived (sent :: (polls ++ [settle])%list))
      with (arrivals sent ++ arrived polls ++ arrivals settle)%list.
    - apply reflects_deliver. now apply reflects_set_done.
    - unfold arrived. simpl flat_map. rewrite flat_map_app. simpl.
      now rewrite app_nil_r. }
  split; [reflexivity|]. split; [exact Hseen|].
  pose proof (collect_reflects reqId _ _ Hseen) as Hcol.
  split; [exact Hcol|].
  rewrite requests_unfold. fold reqId. rewrite Hun, Hcol. reflexivity.
Qed.

(** A request whose end-of-stream callback never runs, on a schedule
    long enough for the polls of 30 s: the wait ends at the first check at
    which 30 s have passed, after 300 polls at most, and the retriever
    tabulates the bars appended up to then. When a date does not parse,
    the handler returns [None]. *)
Lemma timed_out_request_collects
    (symbol : string) (idx : nat) (duration bar_size : string)
    (more : list (string * string)) (dataframes : dict pd.DataFrame)
    (app : MarketDataApp.t) (hist : list Event) (w : World) :
  let reqId := Z.of_nat idx + 1 in
  reflects app hist ->
  ends reqId (arrived (schedule w)) = false ->
  (302 <= List.length (schedule w))%nat ->
  exists app' w' sent polls settle,
    let seen := (hist ++ arrived (sent :: polls ++ [settle]))%list in
    await_request symbol reqId duration bar_size app w = Done (app', w')
    /\ schedule w = sent :: (polls ++ settle :: schedule w')%list
    /\ (forall n, (n < List.length polls)%nat -> napping (firstn n polls) < 30000)
    /\ 30000 <= napping polls
    /\ (List.length polls <= 300)%nat
    /\ MarketDataApp.done_get reqId app' = false
    /\ collect reqId app' = table_of_bars (bars_for reqId seen)
    /\ (bars_for reqId seen = [] -> collect reqId app' = Py.Ok None)
    /\ requests symbol idx ((duration, bar_size) :: more) app dataframes w =
       match table_of_bars (bars_for reqId seen) with
       | Py.Raise _ => Done ((app', None), w')
       | Py.Ok found =>
           (let* app'' := pause 1000 app' in
            requests symbol (S idx) more app'' (keep bar_size found dataframes)) w'
       end.
Proof.
  intros reqId Hrefl Hnever Hlen.
  destruct (schedule w) as [|sent sched] eqn:Hsched; [simpl in Hlen; lia|].
  pose proof (await_request_unfold symbol reqId duration bar_size app w sent _ Hsched)
    as Hun. cbv zeta in Hun.
  set (app0 := MarketDataApp.set_done (<[reqId := false]> (MarketDataApp.done app)) app) in *.
  set (app1 := deliver (arrivals sent) app0) in *.
  set (t0 := now w + lasting sent) in *.
  set (pending := fun a => negb (MarketDataApp.done_get reqId a)) in *.
  destruct (wait_loop_total pending 30000 t0 sched app1 t0) as (app2 & t2 & sched2 & Hw).
  { simpl in Hlen. lia. }
  rewrite Hw in Hun.
  destruct (wait_loop_inv pending 30000 t0 sched app1 t0 app2 t2 sched2 Hw)
    as (polls & Hsplit & Happ2 & Ht2 & Hbefore & Hstop).
  unfold arrived in Hnever. simpl flat_map in Hnever. fold (arrived sched) in Hnever.
  rewrite Hsplit, arrived_app, !ends_app in Hnever.
  apply orb_false_iff in Hnever. destruct Hnever as [Hsent Hnever].
  apply orb_false_iff in Hnever. destruct Hnever as [Hpolls Hrest].
  assert (Hdone2 : MarketDataApp.done_get reqId app2 = false).
  { rewrite Happ2. unfold app1, app0.
    rewrite <- deliver_app, done_get_deliver, done_get_reset, ends_app.
    now rewrite Hsent, Hpolls. }
  assert (Hlate : 30000 <= napping polls).
  { destruct Hstop as [Hstop | Hstop]; [|lia].
    unfold pending in Hstop. rewrite Hdone2 in Hstop. discriminate Hstop. }
  assert (Hfew : (List.length polls <= 300)%nat).
  { destruct polls as [|b polls']; [simpl; lia|].
    destruct (Hbefore (List.length polls')) as [_ Ht]; [simpl; lia|].
    pose proof (napping_length (firstn (List.length polls') (b :: polls'))) as Hn.
    rewrite length_firstn in Hn. simpl List.length in *. lia. }
  assert (Hmore : exists settle rest, sched2 = settle :: rest).
  { destruct sched2 as [|settle rest]; [|eauto].
    rewrite Hsplit, app_nil_r in Hlen. simpl in Hlen. lia. }
  destruct Hmore as (settle & rest & ->).
  assert (Hseen : reflects (deliver (arrivals settle) app2)
                    (hist ++ arrived (sent :: (polls ++ [settle])%list))).
  { rewrite Happ2. unfold app1, app0. rewrite <- !deliver_app.
    replace (arrived (sent :: (polls ++ [settle])%list))
      with (arrivals sent ++ arrived polls ++ arrivals settle)%list.
    - apply reflects_deliver. now apply reflects_set_done.
    - unfold arrived. simpl flat_map. rewrite flat_map_app. simpl.
      now rewrite app_nil_r. }
  pose proof (collect_reflects reqId _ _ Hseen) as Hcol.
  eexists _, _, sent, polls, settle. cbv zeta.
  split; [exact Hun|]. cbn [schedule].
  split; [now rewrite Hsplit|].
  split; [intros n Hn; destruct (Hbefore n Hn); lia|].
  split; [exact Hlate|]. split; [exact Hfew|].
  split.
  { rewrite done_get_deliver, Hdone2.
    unfold arrived in Hrest. simpl in Hrest. rewrite ends_app in Hrest.
    apply orb_false_iff in Hrest. now rewrite (proj1 Hrest). }
  split; [exact Hcol|].
  split; [intros Hnone; now rewrite Hcol, Hnone|].
  rewrite requests_unfold. fold reqId. rewrite Hun, Hcol. reflexivity.
Qed.

Lemma table_of_bars_stamps (bars : list Bar.t) (stamps : list Timestamp) :
  Py.mapM (fun b => parse_ib_datetime (Bar.date b)) bars = Py.Ok stamps ->
  table_of_bars bars = Py.Ok (bars_table bars stamps).
Proof.
  intros H. unfold table_of_bars, bars_table, frame_of_bars, bars_frame.
  destruct bars as [|b bars]; [reflexivity|].
  rewrite H. reflexivity.
Qed.

(** C4, as the code has it. A request whose end-of-stream callback runs
    while the timeout has not elapsed: at every check before the last the
    flag is still down and less than 30 s have passed, at the last check
    the flag is up. The retriever then takes exactly those polls and no
    further one. Provided the date of every bar that the callbacks
    appended for the request ID parses, what the retriever keeps for the
    request is the table of those bars, one row per bar in arrival order,
    and it goes on with the next config. *)
Theorem complete_request_returns_bars
    (symbol : string) (idx : nat) (duration bar_size : string)
    (more : list (string * string)) (dataframes : dict pd.DataFrame)
    (app : MarketDataApp.t) (hist : list Event) (w : World)
    (sent : Batch) (polls : list Batch) (settle : Batch) (rest : list Batch)
    (stamps : list Timestamp) :
  let reqId := Z.of_nat idx + 1 in
  let seen := (hist ++ arrived (sent :: polls ++ [settle]))%list in
  let bars := bars_for reqId seen in
  reflects app hist ->
  schedule w = sent :: (polls ++ settle :: rest)%list ->
  (forall n, (n < List.length polls)%nat ->
     ends reqId (arrivals sent ++ arrived (firstn n polls)) = false
     /\ napping (firstn n polls) < 30000) ->
  ends reqId (arrivals sent ++ arrived polls) = true ->
  Py.mapM (fun b => parse_ib_datetime (Bar.date b)) bars = Py.Ok stamps ->
  exists app' w',
    await_request symbol reqId duration bar_size app w = Done (app', w')
    /\ schedule w' = rest
    /\ reflects app' seen
    /\ collect reqId app' = Py.Ok (bars_table bars stamps)
    /\ requests symbol idx ((duration, bar_size) :: more) app dataframes w =
       (let* app'' := pause 1000 app' in
        requests symbol (S idx) more app''
          (keep bar_size (bars_table bars stamps) dataframes)) w'.
Proof.
  intros reqId seen bars Hrefl Hsched Hbefore Hend Hstamps.
  destruct (complete_request_collects symbol idx duration bar_size more dataframes
              app hist w sent polls settle rest Hrefl Hsched Hbefore Hend)
    as (app' & w' & Hrun & Hrest & Hseen & Hcol & Hreq).
  fold reqId seen bars in Hrun, Hseen, Hcol, Hreq.
  rewrite (table_of_bars_stamps bars stamps Hstamps) in Hcol, Hreq.
  exists app', w'.
  split; [exact Hrun|]. split; [exact Hrest|]. split; [exact Hseen|].
  split; [exact Hcol | exact Hreq].
Qed.

(** C5, as the code has it. A request whose end-of-stream callback never
    runs, on a schedule long enough for the polls of 30 s: the wait ends
    at the first check at which 30 s have passed, after 300 polls at most,
    with the flag still down, and no exception leaves the retriever.
    Provided the date of every bar that the callbacks appended for the
    request ID up to then parses, what the retriever keeps for the request
    is the table of those bars, one row per bar in arrival order, and it
    goes on with the next config; no bar at all gives no table and no
    error. *)
Theorem timed_out_request_returns_bars
    (symbol : string) (idx : nat) (duration bar_size : string)
    (more : list (string * string)) (dataframes : dict pd.DataFrame)
    (app : MarketDataApp.t) (hist : list Event) (w : World) :
  let reqId := Z.of_nat idx + 1 in
  reflects app hist ->
  ends reqId (arrived (schedule w)) = false ->
  (302 <= List.length (schedule w))%nat ->
  exists app' w' sent polls settle,
    let seen := (hist ++ arrived (sent :: polls ++ [settle]))%list in
    let bars := bars_for reqId seen in
    await_request symbol reqId duration bar_size app w = Done (app', w')
    /\ schedule w = sent :: (polls ++ settle :: schedule w')%list
    /\ (forall n, (n < List.length polls)%nat -> napping (firstn n polls) < 30000)
    /\ 30000 <= napping polls
    /\ (List.length polls <= 300)%nat
    /\ MarketDataApp.done_get reqId app' = false
    /\ (bars = [] ->
        collect reqId app' = Py.Ok None
        /\ requests symbol idx ((duration, bar_size) :: more) app dataframes w =
           (let* app'' := pause 1000 app' in
            requests symbol (S idx) more app'' dataframes) w')
    /\ (forall stamps,
          Py.mapM (fun b => parse_ib_datetime (Bar.date b)) bars = Py.Ok stamps ->
          collect reqId app' = Py.Ok (bars_table bars stamps)
          /\ requests symbol idx ((duration, bar_size) :: more) app dataframes w =
             (let* app'' := pause 1000 app' in
              requests symbol (S idx) more app''
                (keep bar_size (bars_table bars stamps) dataframes)) w').
Proof.
  intros reqId Hrefl Hnever Hlen.
  destruct (timed_out_request_collects symbol idx duration bar_size more dataframes
              app hist w Hrefl Hnever Hlen)
    as (app' & w' & sent & polls & settle
        & Hrun & Hsched & Hbefore & Hlate & Hfew & Hdone & Hcol & _ & Hreq).
  exists app', w', sent, polls, settle. cbv zeta.
  fold reqId in Hrun, Hdone, Hcol, Hreq |- *.
  set (bars := bars_for reqId (hist ++ arrived (sent :: (polls ++ [settle])%list))) in *.
  split; [exact Hrun|]. split; [exact Hsched|]. split; [exact Hbefore|].
  split; [exact Hlate|]. split; [exact Hfew|]. split; [exact Hdone|].
  split.
  - intros Hnone. rewrite Hnone in Hcol, Hreq.
    split; [exact Hcol | exact Hreq].
  - intros stamps Hstamps.
    rewrite (table_of_bars_stamps bars stamps Hstamps) in Hcol, Hreq.
    split; [exact Hcol | exact Hreq].
Qed.


(** ** Formatter *)

Lemma dict_get_set_eq {V} (k : string) (v : V) (d : dict V) :
  dict_get k (dict_set k v d) = Some v.
Proof.
  induction d as [|[k' v'] d IH]; simpl.
  - now rewrite String.eqb_refl.
  - destruct (String.eqb k' k) eqn:E; simpl; rewrite E; [reflexivity | exact IH].
Qed.

Lemma dict_get_set_ne {V} (k k' : string) (v : V) (d : dict V) :
  String.eqb k k' = false -> dict_get k' (dict_set k v d) = dict_get k' d.
Proof.
  intros Hne. induction d as [|[k0 v0] d IH]; simpl.
  - now rewrite Hne.
  - destruct (String.eqb k0 k) eqn:E; simpl.
    + apply String.eqb_eq in E. subst k0. now rewrite Hne.
    + now rewrite IH.
Qed.

Lemma length_RangeIndex (n : nat) : List.length (pd.RangeIndex n) = n.
Proof. unfold pd.RangeIndex. now rewrite length_map, length_seq. Qed.

Lemma astype_int64_stamps (col : list Value) :
  pd.datetime64_column col = true ->
  (ns ← pd.astype_int64 col; Py.Ok (map (fun n => VInt (n / 10 ^ 6)) ns))
  = Py.Ok (map epoch_ms col).
Proof.
  intros Hall. unfold pd.astype_int64. rewrite Hall.
  unfold mbind, result_bind, pd.datetime64_column in *.
  induction col as [|v col IH]; [reflexivity|].
  cbn [forallb] in Hall. destruct v; try discriminate Hall.
  apply andb_true_iff in Hall. destruct Hall as [_ Hall].
  specialize (IH Hall). cbn [Py.mapM Py.bind map epoch_ms].
  destruct (Py.mapM _ col) as [ns|e]; cbn [Py.bind] in *; [|discriminate IH].
  injection IH as IH. now rewrite <- IH.
Qed.

Lemma column_ok_get (name : string) (df : pd.DataFrame) :
  column_ok name df = true ->
  dict_get name (pd.columns df) = Some (column name df)
  /\ List.length (column name df) = pd.len df.
Proof.
  unfold column_ok, column.
  destruct (dict_get name (pd.columns df)); [|discriminate].
  intros H. apply Nat.eqb_eq in H. now split.
Qed.

(** On a raw table no step of the formatting raises, and the result is
    the tagged projection of the table. *)
Lemma format_frame_raw (symbol timeframe : string) (df : pd.DataFrame) :
  raw_table df = true ->
  format_frame symbol timeframe df = Py.Ok (formatted symbol timeframe df).
Proof.
  unfold raw_table. rewrite !andb_true_iff.
  intros [[[[Hname Hstamps] Hdate] Hcols] _].
  destruct (pd.index_name df) as [n|] eqn:En; [|discriminate Hname].
  apply String.eqb_eq in Hname. subst n.
  apply negb_true_iff in Hdate.
  cbn [forallb] in Hcols. rewrite !andb_true_iff in Hcols.
  destruct Hcols as (Htz & Ho & Hh & Hl & Hc & Hv & _).
  apply column_ok_get in Htz, Ho, Hh, Hl, Hc, Hv.
  destruct Htz as [Htz _], Ho as [Ho _], Hh as [Hh _], Hl as [Hl _],
           Hc as [Hc _], Hv as [Hv _].
  unfold format_frame, pd.reset_index. rewrite En, Hdate.
  pose proof (astype_int64_stamps (pd.index df) Hstamps) as Hns.
  unfold mbind, result_bind in *.
  cbn [Py.bind pd.getitem pd.columns dict_get String.eqb Ascii.eqb Bool.eqb].
  destruct (pd.astype_int64 (pd.index df)) as [ns|e]; [|discriminate Hns].
  cbn [Py.bind] in *. injection Hns as Hns. rewrite Hns.
  unfold pd.select, pd.setitem_scalar, pd.setitem, pd.getitem, pd.len, output_columns.
  cbn [pd.columns pd.index pd.index_name Py.mapM].
  unfold mbind, result_bind. rewrite length_RangeIndex.
  repeat (first
    [ rewrite dict_get_set_eq
    | rewrite dict_get_set_ne by reflexivity ]).
  cbn [dict_get String.eqb Ascii.eqb Bool.eqb].
  rewrite Htz, Ho, Hh, Hl, Hc, Hv.
  reflexivity.
Qed.

Lemma raw_table_not_empty (df : pd.DataFrame) :
  raw_table df = true -> pd.empty df = false.
Proof.
  unfold raw_table. rewrite !andb_true_iff. intros [_ H].
  now apply negb_true_iff in H.
Qed.

Lemma format_loop_raw (symbol : string) (tables : dict pd.DataFrame)
    (formatted_dfs : list pd.DataFrame) :
  Forall (fun kv => raw_table (snd kv) = true) tables ->
  format_loop symbol (as_items tables) formatted_dfs
  = Py.Ok (formatted_dfs
           ++ map (fun kv => formatted symbol (fst kv) (snd kv)) tables)%list.
Proof.
  revert formatted_dfs.
  induction tables as [|[tf df] tables IH]; intros acc Hraw.
  - simpl. now rewrite app_nil_r.
  - inversion Hraw as [|? ? Hdf Hrest]; subst. cbn [snd] in Hdf.
    cbn [as_items map fst snd format_loop].
    rewrite (raw_table_not_empty df Hdf). cbn [negb].
    rewrite (format_frame_raw symbol tf df Hdf).
    unfold mbind, result_bind. cbn [Py.bind].
    fold (as_items tables). rewrite (IH _ Hrest).
    now rewrite <- app_assoc.
Qed.

Lemma flat_map_map {A B C} (f : B -> list C) (g : A -> B) (l : list A) :
  flat_map f (map g l) = flat_map (fun x => f (g x)) l.
Proof. induction l as [|x l IH]; simpl; [reflexivity | now rewrite IH]. Qed.

Lemma length_flat_map_sum {A B} (f : A -> list B) (l : list A) :
  List.length (flat_map f l) = list_sum (map (fun x => List.length (f x)) l).
Proof.
  induction l as [|x l IH]; simpl; [reflexivity|].
  now rewrite length_app, IH.
Qed.

Lemma concat_nonempty (frames : list pd.DataFrame) :
  frames <> [] ->
  pd.concat frames
  = Py.Ok (pd.mkDataFrame None
             (pd.RangeIndex (List.length (flat_map pd.index frames)))
             (map (fun name =>
                     (name,
                      flat_map (fun df =>
                                  match dict_get name (pd.columns df) with
                                  | Some col => col
                                  | None => repeat pd.NaN (pd.len df)
                                  end) frames))
                (pd.union_keys []
                   (flat_map (fun df => map fst (pd.columns df)) frames)))).
Proof. destruct frames; [congruence | reflexivity]. Qed.

(** The concatenation of formatted tables keeps the output columns and
    stacks the tables in the order of the list. *)
Lemma concat_formatted (symbol : string) (tables : dict pd.DataFrame) :
  tables <> [] ->
  pd.concat (map (fun kv => formatted symbol (fst kv) (snd kv)) tables)
  = Py.Ok
      (pd.mkDataFrame None
         (pd.RangeIndex (list_sum (map (fun kv => pd.len (snd kv)) tables)))
         [("Ticker", flat_map (fun kv => repeat (VStr symbol) (pd.len (snd kv))) tables);
          ("Timeframe", flat_map (fun kv => repeat (VStr (fst kv)) (pd.len (snd kv))) tables);
          ("Timestamp", flat_map (fun kv => map epoch_ms (pd.index (snd kv))) tables);
          ("Date", flat_map (fun kv => pd.index (snd kv)) tables);
          ("Timezone", flat_map (fun kv => column "Timezone" (snd kv)) tables);
          ("Open", flat_map (fun kv => column "Open" (snd kv)) tables);
          ("High", flat_map (fun kv => column "High" (snd kv)) tables);
          ("Low", flat_map (fun kv => column "Low" (snd kv)) tables);
          ("Close", flat_map (fun kv => column "Close" (snd kv)) tables);
          ("Volume", flat_map (fun kv => column "Volume" (snd kv)) tables)]).
Proof.
  intros Hne. destruct tables as [|[tf df] tables]; [congruence|].
  set (all := (tf, df) :: tables).
  assert (Hkeys :
    pd.union_keys []
      (flat_map (fun d => map fst (pd.columns d))
         (map (fun kv => formatted symbol (fst kv) (snd kv)) all))
    = output_columns).
  { unfold all. cbn [map flat_map formatted pd.columns fst snd].
    change (pd.union_keys []
              ("Ticker" :: "Timeframe" :: "Timestamp" :: "Date" :: "Timezone"
               :: "Open" :: "High" :: "Low" :: "Close" :: "Volume"
               :: flat_map (fun d => map fst (pd.columns d))
                    (map (fun kv => formatted symbol (fst kv) (snd kv)) tables))
            = output_columns).
    do 10 (cbn [pd.union_keys existsb String.eqb Ascii.eqb Bool.eqb orb List.app]).
    apply union_keys_absorb.
    intros k Hk. apply in_flat_map in Hk. destruct Hk as (d & Hd & Hk).
    apply in_map_iff in Hd. destruct Hd as (kv & <- & _).
    simpl in Hk. decompose [or] Hk; subst; try contradiction; reflexivity. }
  rewrite concat_nonempty by (unfold all; discriminate).
  rewrite Hkeys. f_equal.
  unfold output_columns. cbn [map].
  rewrite !flat_map_map, length_flat_map_sum.
  cbn [formatted pd.index pd.columns dict_get String.eqb Ascii.eqb Bool.eqb].
  f_equal. f_equal. f_equal. apply map_ext. intros kv. apply length_RangeIndex.
Qed.

(** C6, as the code has it. On a mapping of at least two non-empty raw
    tables whose dates are all ones that [datetime64[ns]] can hold (from
    1677-09-21 00:12:44 to 2262-04-11 23:47:16), the formatter returns one
    table whose row count is the sum of the row counts, whose
    [Ticker] cells all hold the symbol, whose [Timeframe] cells hold, row
    for row, the label of the table the row comes from, and whose other
    columns are the columns of the tables stacked in the order of the
    mapping, rows in their original order. *)
Theorem format_stacks_tagged_tables
    (tables : dict pd.DataFrame) (symbol selected_timeframe : string) (verbose : Z) :
  (2 <= List.length tables)%nat ->
  Forall (fun kv => raw_table (snd kv) = true) tables ->
  let out := format_historical_data (as_items tables) symbol selected_timeframe verbose in
  pd.len out = list_sum (map (fun kv => pd.len (snd kv)) tables)
  /\ pd.getitem "Ticker" out
     = Py.Ok (flat_map (fun kv => repeat (VStr symbol) (pd.len (snd kv))) tables)
  /\ pd.getitem "Timeframe" out
     = Py.Ok (flat_map (fun kv => repeat (VStr (fst kv)) (pd.len (snd kv))) tables)
  /\ pd.getitem "Date" out = Py.Ok (flat_map (fun kv => pd.index (snd kv)) tables)
  /\ (forall c, In c ["Timezone"; "Open"; "High"; "Low"; "Close"; "Volume"] ->
        pd.getitem c out = Py.Ok (flat_map (fun kv => column c (snd kv)) tables))
  /\ map fst (pd.columns out) = output_columns.
Proof.
  intros Hlen Hraw out.
  assert (Hne : tables <> []) by (destruct tables; [simpl in Hlen; lia | discriminate]).
  assert (Hout : out = pd.mkDataFrame None
         (pd.RangeIndex (list_sum (map (fun kv => pd.len (snd kv)) tables)))
         [("Ticker", flat_map (fun kv => repeat (VStr symbol) (pd.len (snd kv))) tables);
          ("Timeframe", flat_map (fun kv => repeat (VStr (fst kv)) (pd.len (snd kv))) tables);
          ("Timestamp", flat_map (fun kv => map epoch_ms (pd.index (snd kv))) tables);
          ("Date", flat_map (fun kv => pd.index (snd kv)) tables);
          ("Timezone", flat_map (fun kv => column "Timezone" (snd kv)) tables);
          ("Open", flat_map (fun kv => column "Open" (snd kv)) tables);
          ("High", flat_map (fun kv => column "High" (snd kv)) tables);
          ("Low", flat_map (fun kv => column "Low" (snd kv)) tables);
          ("Close", flat_map (fun kv => column "Close" (snd kv)) tables);
          ("Volume", flat_map (fun kv => column "Volume" (snd kv)) tables)]).
  { unfold out, format_historical_data, format_body.
    rewrite (format_loop_raw symbol tables [] Hraw). cbn [List.app].
    unfold mbind, result_bind. cbn [Py.bind].
    pose proof (concat_formatted symbol tables Hne) as Hc.
    destruct tables as [|kv tables']; [congruence|].
    cbn [map] in Hc |- *. rewrite Hc. reflexivity. }
  rewrite Hout. unfold pd.len, pd.getitem. cbn [pd.index pd.columns].
  rewrite length_RangeIndex.
  repeat split; try reflexivity.
  intros c Hc. simpl in Hc. decompose [or] Hc; subst; try contradiction; reflexivity.
Qed.

Lemma mapM_length {A B} (f : A -> Py.result B) (l : list A) (out : list B) :
  Py.mapM f l = Py.Ok out -> List.length out = List.length l.
Proof.
  revert out. induction l as [|x l IH]; intros out H.
  - injection H as <-. reflexivity.
  - cbn [Py.mapM] in H. destruct (f x); [|discriminate H]. cbn [Py.bind] in H.
    destruct (Py.mapM f l); [|discriminate H].
    injection H as <-. simpl. f_equal. now apply IH.
Qed.

(** The tables that the retriever stores are raw tables, when their
    dates are ones that [datetime64[ns]] can hold. *)
Lemma frame_of_bars_raw (bars : list Bar.t) (df : pd.DataFrame) :
  bars <> [] -> frame_of_bars bars = Py.Ok df ->
  pd.datetime64_column (pd.index df) = true ->
  raw_table df = true.
Proof.
  intros Hne. unfold frame_of_bars, mbind, result_bind.
  destruct (Py.mapM (fun b => parse_ib_datetime (Bar.date b)) bars) as [stamps|e] eqn:E;
    [|discriminate].
  cbn [Py.bind]. intros H. injection H as <-.
  apply mapM_length in E.
  unfold raw_table, column_ok, pd.has_column, pd.empty, pd.len.
  cbn [pd.index_name pd.index pd.columns dict_get String.eqb Ascii.eqb Bool.eqb
       forallb negb andb].
  intros ->.
  rewrite !length_map, E, !Nat.eqb_refl.
  destruct bars; [congruence | reflexivity].
Qed.

(** A stored table with a date that [datetime64[ns]] cannot hold is not
    empty, and its formatting raises. *)
Lemma frame_of_bars_object (symbol timeframe : string)
    (bars : list Bar.t) (df : pd.DataFrame) :
  bars <> [] -> frame_of_bars bars = Py.Ok df ->
  pd.datetime64_column (pd.index df) = false ->
  pd.empty df = false
  /\ format_frame symbol timeframe df = Py.Raise Py.TypeError.
Proof.
  intros Hne. unfold frame_of_bars, mbind, result_bind.
  destruct (Py.mapM (fun b => parse_ib_datetime (Bar.date b)) bars) as [stamps|e] eqn:E;
    [|discriminate].
  cbn [Py.bind]. intros H. injection H as <-.
  apply mapM_length in E. cbn [pd.index]. intros Hobj.
  destruct stamps as [|t stamps].
  { destruct bars; [congruence | discriminate E]. }
  split; [reflexivity|].
  unfold format_frame, pd.reset_index, pd.has_column.
  cbn [pd.index_name pd.index pd.columns dict_get String.eqb Ascii.eqb Bool.eqb].
  unfold mbind, result_bind.
  cbn [Py.bind pd.getitem pd.columns dict_get String.eqb Ascii.eqb Bool.eqb].
  unfold pd.astype_int64. rewrite Hobj. reflexivity.
Qed.

Lemma format_loop_raises (symbol timeframe : string) (df : pd.DataFrame) (e : Py.exn)
    (items : dict (option pd.DataFrame)) (formatted_dfs : list pd.DataFrame) :
  In (timeframe, Some df) items ->
  pd.empty df = false ->
  format_frame symbol timeframe df = Py.Raise e ->
  exists e', format_loop symbol items formatted_dfs = Py.Raise e'.
Proof.
  intros Hin Hne Hraise. revert formatted_dfs.
  induction items as [|[tf o] items IH]; intros acc; [contradiction|].
  destruct Hin as [Heq | Hin].
  - injection Heq as -> ->. cbn [format_loop]. rewrite Hne. cbn [negb].
    rewrite Hraise. eexists. reflexivity.
  - cbn [format_loop]. destruct o as [d|]; [|now apply IH].
    destruct (negb (pd.empty d)); [|now apply IH].
    destruct (format_frame symbol tf d) as [d'|e'].
    + unfold mbind, result_bind. cbn [Py.bind]. now apply IH.
    + eexists. reflexivity.
Qed.

(** C7. Whenever the body of the formatter raises, in particular
    whenever the formatting of one of the non-empty tables raises, the
    formatter returns the empty table: nothing reaches the caller. *)
Theorem format_swallows_exceptions
    (dfs : dict (option pd.DataFrame)) (symbol selected_timeframe : string) (verbose : Z) :
  (exists e, format_body dfs symbol = Py.Raise e)
  \/ (exists timeframe df e,
        In (timeframe, Some df) dfs /\ pd.empty df = false
        /\ format_frame symbol timeframe df = Py.Raise e) ->
  format_historical_data dfs symbol selected_timeframe verbose = pd.empty_frame.
Proof.
  intros [[e He] | (tf & df & e & Hin & Hne & Hraise)];
    unfold format_historical_data.
  - now rewrite He.
  - destruct (format_loop_raises symbol tf df e dfs [] Hin Hne Hraise) as [e' He'].
    unfold format_body. rewrite He'. reflexivity.
Qed.

Lemma format_swallows_exceptions_witness :
  format_historical_data
    [("1 day", Some (pd.mkDataFrame (Some "Date") [VTs (mkTimestamp 2024 10 24 0 0 0)]
                       [("Open", [VInt 1])]))]
    "SPY" "1 day" 1
  = pd.empty_frame.
Proof.
  apply format_swallows_exceptions. right.
  exists "1 day",
    (pd.mkDataFrame (Some "Date") [VTs (mkTimestamp 2024 10 24 0 0 0)] [("Open", [VInt 1])]),
    (Py.KeyError "Timezone").
  split; [left; reflexivity|]. split; reflexivity.
Defined.

Lemma format_stacks_tagged_tables_witness :
  let day := pd.mkDataFrame (Some "Date")
               [VTs (mkTimestamp 2024 10 23 0 0 0); VTs (mkTimestamp 2024 10 24 0 0 0)]
               [("Open", [VInt 1; VInt 2]); ("High", [VInt 3; VInt 4]);
                ("Low", [VInt 0; VInt 1]); ("Close", [VInt 2; VInt 3]);
                ("Volume", [VInt 10; VInt 20]);
                ("Timezone", [VStr "US/Eastern"; VStr "US/Eastern"])] in
  let week := pd.mkDataFrame (Some "Date")
               [VTs (mkTimestamp 2024 10 18 0 0 0)]
               [("Open", [VInt 5]); ("High", [VInt 6]); ("Low", [VInt 4]);
                ("Close", [VInt 5]); ("Volume", [VInt 70]);
                ("Timezone", [VStr "US/Eastern"])] in
  let out := format_historical_data (as_items [("1 day", day); ("1 week", week)])
               "SPY" "1 week" 1 in
  pd.len out = 3%nat
  /\ pd.getitem "Ticker" out = Py.Ok [VStr "SPY"; VStr "SPY"; VStr "SPY"]
  /\ pd.getitem "Timeframe" out = Py.Ok [VStr "1 day"; VStr "1 day"; VStr "1 week"].
Proof.
  intros day week out.
  destruct (format_stacks_tagged_tables [("1 day", day); ("1 week", week)]
              "SPY" "1 week" 1) as (Hlen & Hticker & Hframe & _).
  - simpl. lia.
  - repeat constructor.
  - split; [exact Hlen | split; [exact Hticker | exact Hframe]].
Defined.

(** C6, as stated, fails: the retriever yields a table for a bar dated
    in the year 2300, whose timestamp no [datetime64[ns]] holds. Its
    dates stay objects, their conversion to integers raises, and of two
    non-empty raw tables with one row each the formatter returns the
    empty table. *)
Lemma format_drops_rows_dated_2300 :
  let near := pd.mkDataFrame (Some "Date") [VTs (mkTimestamp 2024 10 24 0 0 0)]
                [("Open", [VInt 1]); ("High", [VInt 2]); ("Low", [VInt 0]);
                 ("Close", [VInt 1]); ("Volume", [VInt 100]);
                 ("Timezone", [VStr "US/Eastern"])] in
  let far := pd.mkDataFrame (Some "Date") [VTs (mkTimestamp 2300 1 1 0 0 0)]
               [("Open", [VInt 5]); ("High", [VInt 6]); ("Low", [VInt 4]);
                ("Close", [VInt 5]); ("Volume", [VInt 70]);
                ("Timezone", [VStr "US/Eastern"])] in
  let out := format_historical_data [("1 day", Some near); ("1 month", Some far)]
               "SPY" "1 day" 0 in
  frame_of_records
    [MarketDataApp.record_of_bar
       (Bar.mk "20241024" (VInt 1) (VInt 2) (VInt 0) (VInt 1) (VInt 100))]
  = Py.Ok near
  /\ frame_of_records
       [MarketDataApp.record_of_bar
          (Bar.mk "23000101" (VInt 5) (VInt 6) (VInt 4) (VInt 5) (VInt 70))]
     = Py.Ok far
  /\ pd.len near = 1%nat /\ pd.len far = 1%nat
  /\ epoch_ns (mkTimestamp 2300 1 1 0 0 0) = 10413792000000000000
  /\ 2 ^ 63 - 1 < epoch_ns (mkTimestamp 2300 1 1 0 0 0)
  /\ format_frame "SPY" "1 month" far = Py.Raise Py.TypeError
  /\ out = pd.empty_frame
  /\ pd.len out = 0%nat.
Proof. vm_compute. repeat split; reflexivity. Qed.

Lemma complete_request_returns_bars_witness :
  let first := Bar.mk "20241023" (VInt 1) (VInt 2) (VInt 0) (VInt 1) (VInt 100) in
  let second := Bar.mk "20241024" (VInt 1) (VInt 3) (VInt 1) (VInt 2) (VInt 120) in
  let sent := mkBatch [] 5 in
  let polls := [mkBatch [EvHistoricalData 1 first] 120;
                mkBatch [EvHistoricalData 1 second; EvHistoricalDataEnd 1 "" ""] 100] in
  let settle := mkBatch [] 0 in
  let w := mkWorld 0 (sent :: polls ++ [settle])%list [] in
  exists app' w',
    await_request "SPY" 1 "1 M" "1 day" (MarketDataApp.init 0 false) w = Done (app', w')
    /\ schedule w' = []
    /\ collect 1 app'
       = Py.Ok (Some (pd.mkDataFrame (Some "Date")
                        [VTs (mkTimestamp 2024 10 23 0 0 0);
                         VTs (mkTimestamp 2024 10 24 0 0 0)]
                        [("Open", [VInt 1; VInt 1]); ("High", [VInt 2; VInt 3]);
                         ("Low", [VInt 0; VInt 1]); ("Close", [VInt 1; VInt 2]);
                         ("Volume", [VInt 100; VInt 120]);
                         ("Timezone", [VStr "US/Eastern"; VStr "US/Eastern"])])).
Proof.
  intros first second sent polls settle w.
  destruct (complete_request_returns_bars "SPY" 0 "1 M" "1 day" [] []
              (MarketDataApp.init 0 false) [] w sent polls settle []
              [mkTimestamp 2024 10 23 0 0 0; mkTimestamp 2024 10 24 0 0 0])
    as (app' & w' & Hrun & Hrest & _ & Hcol & _).
  - apply reflects_init.
  - reflexivity.
  - intros n Hn. destruct n as [|[|n]]; [split; reflexivity | split; reflexivity|].
    simpl in Hn. lia.
  - reflexivity.
  - vm_compute. reflexivity.
  - exists app', w'. split; [exact Hrun | split; [exact Hrest | exact Hcol]].
Defined.

(** C4, as stated, fails: the end-of-stream callback runs at the first
    check, 100 ms after the request, and the callbacks have appended one
    bar for the request ID, dated as the gateway dates an intraday bar.
    The date does not parse, and the retriever returns [None] instead of
    the bar. *)
Lemma complete_request_loses_bars :
  let bar := Bar.mk "20241024 15:30:00" (VInt 1) (VInt 2) (VInt 0) (VInt 1) (VInt 100) in
  let sent := mkBatch [] 5 in
  let polls := [mkBatch [EvHistoricalData 1 bar; EvHistoricalDataEnd 1 "" ""] 100] in
  let settle := mkBatch [] 0 in
  let w := mkWorld 0 (sent :: polls ++ [settle])%list [] in
  let run := get_historical_data "SPY" [("1 D", "30 mins")] (MarketDataApp.init 0 false) w in
  ends 1 (arrivals sent) = false
  /\ ends 1 (arrivals sent ++ arrived polls) = true
  /\ napping polls < 30000
  /\ bars_for 1 (arrived (sent :: polls ++ [settle])) = [bar]
  /\ parse_ib_datetime (Bar.date bar) = Py.Raise Py.IndexError
  /\ option_map snd (returned run) = Some None
  /\ requested run = [ReqHistoricalData 1 "SPY" "1 D" "30 mins"].
Proof. vm_compute. repeat split; reflexivity. Qed.

Lemma timed_out_request_returns_bars_witness :
  let bar := Bar.mk "20241024" (VInt 1) (VInt 2) (VInt 0) (VInt 1) (VInt 100) in
  let w := mkWorld 0 (mkBatch [EvHistoricalData 1 bar] 5 :: repeat (mkBatch [] 0) 301) [] in
  exists app' w',
    await_request "SPY" 1 "1 M" "1 day" (MarketDataApp.init 0 false) w = Done (app', w')
    /\ 30000 <= now w' - now w
    /\ MarketDataApp.done_get 1 app' = false
    /\ collect 1 app'
       = Py.Ok (Some (pd.mkDataFrame (Some "Date")
                        [VTs (mkTimestamp 2024 10 24 0 0 0)]
                        [("Open", [VInt 1]); ("High", [VInt 2]);
                         ("Low", [VInt 0]); ("Close", [VInt 1]);
                         ("Volume", [VInt 100]);
                         ("Timezone", [VStr "US/Eastern"])])).
Proof.
  intros bar w.
  destruct (timed_out_request_returns_bars "SPY" 0 "1 M" "1 day" [] []
              (MarketDataApp.init 0 false) [] w)
    as (app' & w' & sent & polls & settle
        & Hrun & Hsched & _ & _ & _ & Hdone & _ & Hstamps).
  - apply reflects_init.
  - vm_compute. reflexivity.
  - apply Nat.leb_le. vm_compute. reflexivity.
  - assert (Hw' : schedule w' = [] /\ now w' = 30005).
    { pose proof Hrun as Hc. vm_compute in Hc. injection Hc as _ <-.
      split; reflexivity. }
    destruct Hw' as [Hw' Hnow].
    rewrite Hw' in Hsched. cbn [List.app] in Hstamps.
    rewrite <- Hsched in Hstamps.
    destruct (Hstamps [mkTimestamp 2024 10 24 0 0 0]) as [Hcol _];
      [vm_compute; reflexivity|].
    exists app', w'. split; [exact Hrun|].
    split; [rewrite Hnow; vm_compute; discriminate|].
    split; [exact Hdone|].
    etransitivity; [exact Hcol|]. vm_compute. reflexivity.
Defined.

(** C5, as stated, fails: no end-of-stream callback runs, the callbacks
    have appended one bar for the request ID, dated as the gateway dates
    an intraday bar with its zone, and 30 s of polls pass. The date does
    not parse, and the retriever returns [None] instead of the bar. *)
Lemma timed_out_request_loses_bars :
  let bar := Bar.mk "20241024 15:30:00 US/Eastern"
               (VInt 1) (VInt 2) (VInt 0) (VInt 1) (VInt 100) in
  let polls := repeat (mkBatch [] 0) 300 in
  let w := mkWorld 0 (mkBatch [EvHistoricalData 1 bar] 5 :: polls ++ [mkBatch [] 0])%list
             [] in
  let run := get_historical_data "SPY" [("1 D", "30 mins")] (MarketDataApp.init 0 false) w in
  ends 1 (arrived (schedule w)) = false
  /\ napping polls = 30000
  /\ bars_for 1 (arrived (schedule w)) = [bar]
  /\ parse_ib_datetime (Bar.date bar) = Py.Raise Py.ValueError
  /\ option_map snd (returned run) = Some None
  /\ requested run = [ReqHistoricalData 1 "SPY" "1 D" "30 mins"].
Proof. vm_compute. repeat split; reflexivity. Qed.


(** ** Verbosity *)

Lemma error_reverb (v : Z) (app : MarketDataApp.t) (reqId code : Z) (msg : string) :
  MarketDataApp.error (reverb v app) reqId code msg
  = reverb v (MarketDataApp.error app reqId code msg).
Proof.
  unfold MarketDataApp.error. cbn [reverb MarketDataApp.verbose].
  destruct (MarketDataApp.code_in code MarketDataApp.disconnect_errors) eqn:Ed.
  - rewrite (disconnect_errors_critical code Ed). cbn [orb].
    destruct (MarketDataApp.code_in code [2104; 2106; 2158]); [reflexivity|].
    destruct (code =? 2176); reflexivity.
  - destruct (MarketDataApp.code_in code MarketDataApp.critical_errors || (1 <=? v)),
      (MarketDataApp.code_in code MarketDataApp.critical_errors
       || (1 <=? MarketDataApp.verbose app));
      try reflexivity;
      destruct (MarketDataApp.code_in code [2104; 2106; 2158]); try reflexivity;
      destruct (code =? 2176); reflexivity.
Qed.

(** No callback looks at the verbosity level for anything but printing. *)
Lemma dispatch_reverb (v : Z) (app : MarketDataApp.t) (ev : Event) :
  dispatch (reverb v app) ev = reverb v (dispatch app ev).
Proof.
  destruct ev as [r c m | | o | r bar | r s e]; cbn [dispatch];
    try reflexivity.
  - apply error_reverb.
  - unfold MarketDataApp.historicalData. cbn [reverb MarketDataApp.data].
    destruct (MarketDataApp.data app !! r) as [l|] eqn:E; cbn.
    + rewrite E. reflexivity.
    + rewrite lookup_insert_eq. reflexivity.
Qed.

Lemma deliver_reverb (v : Z) (evs : list Event) (app : MarketDataApp.t) :
  deliver evs (reverb v app) = reverb v (deliver evs app).
Proof.
  revert app. induction evs as [|ev evs IH]; intros app; [reflexivity|].
  cbn [deliver fold_left]. rewrite dispatch_reverb. apply IH.
Qed.

Lemma pause_reverb (v ms : Z) (app : MarketDataApp.t) (w : World) :
  pause ms (reverb v app) w = reverb_run v (pause ms app w).
Proof.
  unfold pause. destruct (schedule w); [reflexivity|].
  cbn [reverb_run]. now rewrite deliver_reverb.
Qed.

Lemma wait_loop_reverb (v : Z) (pending : MarketDataApp.t -> bool) (timeout start_time : Z)
    (sched : list Batch) (app : MarketDataApp.t) (now : Z) :
  (forall a, pending (reverb v a) = pending a) ->
  wait_loop pending timeout start_time sched (reverb v app) now
  = match wait_loop pending timeout start_time sched app now with
    | Done (a, n, r) => Done (reverb v a, n, r)
    | OutOfSchedule => OutOfSchedule
    end.
Proof.
  intros Hp. revert app now. induction sched as [|b sched IH]; intros app now;
    cbn [wait_loop]; rewrite Hp;
    destruct (pending app && (now - start_time <? timeout)); try reflexivity.
  rewrite deliver_reverb. apply IH.
Qed.

Lemma wait_while_reverb (v : Z) (pending : MarketDataApp.t -> bool) (timeout start_time : Z)
    (app : MarketDataApp.t) (w : World) :
  (forall a, pending (reverb v a) = pending a) ->
  wait_while pending timeout start_time (reverb v app) w
  = reverb_run v (wait_while pending timeout start_time app w).
Proof.
  intros Hp. unfold wait_while. rewrite (wait_loop_reverb v pending _ _ _ _ _ Hp).
  destruct (wait_loop pending timeout start_time (schedule w) app (now w))
    as [[[a n] r]|]; reflexivity.
Qed.

Lemma await_request_reverb (v : Z) (symbol : string) (reqId : Z) (duration bar_size : string)
    (app : MarketDataApp.t) (w : World) :
  await_request symbol reqId duration bar_size (reverb v app) w
  = reverb_run v (await_request symbol reqId duration bar_size app w).
Proof.
  unfold await_request.
  change (MarketDataApp.set_done
            (<[reqId:=false]> (MarketDataApp.done (reverb v app))) (reverb v app))
    with (reverb v (MarketDataApp.set_done (<[reqId:=false]> (MarketDataApp.done app)) app)).
  unfold run_bind, emit, clock.
  rewrite pause_reverb.
  destruct (pause 0 _ _) as [[a1 w1]|]; [|reflexivity]. cbn [reverb_run].
  rewrite wait_while_reverb by reflexivity.
  destruct (wait_while _ _ _ a1 w1) as [[a2 w2]|]; [|reflexivity]. cbn [reverb_run].
  apply pause_reverb.
Qed.

Lemma requests_reverb (v : Z) (symbol : string) (timeframe_configs : list (string * string))
    (idx : nat) (app : MarketDataApp.t) (dataframes : dict pd.DataFrame) (w : World) :
  requests symbol idx timeframe_configs (reverb v app) dataframes w
  = match requests symbol idx timeframe_configs app dataframes w with
    | Done ((a, r), w') => Done ((reverb v a, r), w')
    | OutOfSchedule => OutOfSchedule
    end.
Proof.
  revert idx app dataframes w.
  induction timeframe_configs as [|[duration bar_size] more IH];
    intros idx app dataframes w; [reflexivity|].
  rewrite !requests_unfold, await_request_reverb.
  destruct (await_request symbol _ duration bar_size app w) as [[a1 w1]|];
    [|reflexivity].
  cbn [reverb_run].
  change (collect (Z.of_nat idx + 1) (reverb v a1)) with (collect (Z.of_nat idx + 1) a1).
  destruct (collect (Z.of_nat idx + 1) a1) as [found|e]; [|reflexivity].
  unfold run_bind. rewrite pause_reverb.
  destruct (pause 1000 a1 w1) as [[a2 w2]|]; [|reflexivity]. cbn [reverb_run].
  apply IH.
Qed.

Lemma tabulate_verbose (dfs : option (dict pd.DataFrame)) (symbol barsize : string)
    (v1 v2 : Z) :
  tabulate dfs symbol barsize v1 = tabulate dfs symbol barsize v2.
Proof. reflexivity. Qed.

(** A single retrieval does the same under every verbosity level: the
    same result, the same requests to the gateway, the same schedule
    consumed. *)
Lemma get_ib_ticks_verbose (cfg : Config) (symbol duration barsize : string)
    (v1 v2 : Z) (show_bars : bool) (host : option string) (port client_id : option Z)
    (w : World) :
  get_ib_ticks cfg symbol duration barsize v1 show_bars host port client_id w
  = get_ib_ticks cfg symbol duration barsize v2 show_bars host port client_id w.
Proof.
  unfold get_ib_ticks, get_historical_data, run_bind, emit, clock.
  change (MarketDataApp.init v1 show_bars)
    with (reverb v1 (MarketDataApp.init v2 show_bars)).
  cbn [now schedule actions].
  rewrite pause_reverb.
  destruct (pause 0 (MarketDataApp.init v2 show_bars) _) as [[a1 w1]|]; [|reflexivity].
  cbn [reverb_run].
  rewrite wait_while_reverb by reflexivity.
  destruct (wait_while _ _ _ a1 w1) as [[a2 w2]|]; [|reflexivity]. cbn [reverb_run].
  rewrite pause_reverb.
  destruct (pause 0 a2 w2) as [[a3 w3]|]; [|reflexivity]. cbn [reverb_run].
  change (MarketDataApp.connected (reverb v1 a3)) with (MarketDataApp.connected a3).
  destruct (MarketDataApp.connected a3); cbn [negb]; [|reflexivity].
  rewrite requests_reverb.
  destruct (requests symbol 0 [(duration, barsize)] a3 [] w3) as [[[a4 r] w4]|];
    reflexivity.
Qed.

Lemma ticks_for_symbol_verbose (cfg : Config) (symbol : string)
    (timeframes : list (string * string)) (v1 v2 : Z) (show_bars : bool)
    (host : option string) (port client_id : option Z)
    (all_dfs : list pd.DataFrame) (w : World) :
  ticks_for_symbol cfg symbol timeframes v1 show_bars host port client_id all_dfs w
  = ticks_for_symbol cfg symbol timeframes v2 show_bars host port client_id all_dfs w.
Proof.
  revert all_dfs w. induction timeframes as [|[duration barsize] rest IH];
    intros all_dfs w; [reflexivity|].
  cbn [ticks_for_symbol]. unfold run_bind.
  rewrite (get_ib_ticks_verbose cfg symbol duration barsize v1 v2).
  destruct (get_ib_ticks cfg symbol duration barsize v2 show_bars host port client_id w)
    as [[df w1]|]; [|reflexivity].
  apply IH.
Qed.

Lemma ticks_for_symbols_verbose (cfg : Config) (symbols : list string)
    (timeframes : list (string * string)) (v1 v2 : Z) (show_bars : bool)
    (host : option string) (port client_id : option Z)
    (all_dfs : list pd.DataFrame) (w : World) :
  ticks_for_symbols cfg symbols timeframes v1 show_bars host port client_id all_dfs w
  = ticks_for_symbols cfg symbols timeframes v2 show_bars host port client_id all_dfs w.
Proof.
  revert all_dfs w. induction symbols as [|symbol rest IH];
    intros all_dfs w; [reflexivity|].
  cbn [ticks_for_symbols]. unfold run_bind.
  rewrite (ticks_for_symbol_verbose cfg symbol timeframes v1 v2).
  destruct (ticks_for_symbol cfg symbol timeframes v2 show_bars host port client_id all_dfs w)
    as [[dfs w1]|]; [|reflexivity].
  apply IH.
Qed.

(** Only the effective connection parameters matter to a retrieval. *)
Lemma get_ib_ticks_params (cfg : Config) (symbol duration barsize : string)
    (v : Z) (show_bars : bool) (h h' : option string) (p p' c c' : option Z) :
  Py.or_str h (IB_HOST cfg) = Py.or_str h' (IB_HOST cfg) ->
  Py.or_int p (IB_PORT cfg) = Py.or_int p' (IB_PORT cfg) ->
  Py.or_int c (IB_CLIENT_ID cfg) = Py.or_int c' (IB_CLIENT_ID cfg) ->
  get_ib_ticks cfg symbol duration barsize v show_bars h p c
  = get_ib_ticks cfg symbol duration barsize v show_bars h' p' c'.
Proof. intros Hh Hp Hc. unfold get_ib_ticks. now rewrite Hh, Hp, Hc. Qed.

Lemma ticks_for_symbol_params (cfg : Config) (symbol : string)
    (timeframes : list (string * string)) (v : Z) (show_bars : bool)
    (h h' : option string) (p p' c c' : option Z) (all_dfs : list pd.DataFrame)
    (w : World) :
  Py.or_str h (IB_HOST cfg) = Py.or_str h' (IB_HOST cfg) ->
  Py.or_int p (IB_PORT cfg) = Py.or_int p' (IB_PORT cfg) ->
  Py.or_int c (IB_CLIENT_ID cfg) = Py.or_int c' (IB_CLIENT_ID cfg) ->
  ticks_for_symbol cfg symbol timeframes v show_bars h p c all_dfs w
  = ticks_for_symbol cfg symbol timeframes v show_bars h' p' c' all_dfs w.
Proof.
  intros Hh Hp Hc. revert all_dfs w.
  induction timeframes as [|[duration barsize] rest IH]; intros all_dfs w;
    [reflexivity|].
  cbn [ticks_for_symbol]. unfold run_bind.
  rewrite (get_ib_ticks_params cfg symbol duration barsize v show_bars h h' p p' c c'
             Hh Hp Hc).
  destruct (get_ib_ticks cfg symbol duration barsize v show_bars h' p' c' w)
    as [[df w1]|]; [|reflexivity].
  apply IH.
Qed.

Lemma ticks_for_symbols_params (cfg : Config) (symbols : list string)
    (timeframes : list (string * string)) (v : Z) (show_bars : bool)
    (h h' : option string) (p p' c c' : option Z) (all_dfs : list pd.DataFrame)
    (w : World) :
  Py.or_str h (IB_HOST cfg) = Py.or_str h' (IB_HOST cfg) ->
  Py.or_int p (IB_PORT cfg) = Py.or_int p' (IB_PORT cfg) ->
  Py.or_int c (IB_CLIENT_ID cfg) = Py.or_int c' (IB_CLIENT_ID cfg) ->
  ticks_for_symbols cfg symbols timeframes v show_bars h p c all_dfs w
  = ticks_for_symbols cfg symbols timeframes v show_bars h' p' c' all_dfs w.
Proof.
  intros Hh Hp Hc. revert all_dfs w.
  induction symbols as [|symbol rest IH]; intros all_dfs w; [reflexivity|].
  cbn [ticks_for_symbols]. unfold run_bind.
  rewrite (ticks_for_symbol_params cfg symbol timeframes v show_bars h h' p p' c c'
             all_dfs w Hh Hp Hc).
  destruct (ticks_for_symbol cfg symbol timeframes v show_bars h' p' c' all_dfs w)
    as [[dfs w1]|]; [|reflexivity].
  apply IH.
Qed.

Lemma or_str_same (d : string) : Py.or_str (Some d) d = d.
Proof. unfold Py.or_str. now destruct (String.eqb d ""). Qed.

Lemma or_int_same (d : Z) : Py.or_int (Some d) d = d.
Proof. unfold Py.or_int. now destruct (d =? 0). Qed.

(** When the environment of the call is the one the module was imported
    under, the defaults resolved under any verbosity level are the
    constants of the module. *)
Lemma resolve_defaults_import (cfg : Config) (environ : Environ) (v : Z)
    (host : option string) (port client_id : option Z) :
  import_module environ = Py.Ok cfg ->
  exists h p c,
    resolve_defaults environ v host port client_id = Py.Ok (h, p, c)
    /\ Py.or_str h (IB_HOST cfg) = Py.or_str host (IB_HOST cfg)
    /\ Py.or_int p (IB_PORT cfg) = Py.or_int port (IB_PORT cfg)
    /\ Py.or_int c (IB_CLIENT_ID cfg) = Py.or_int client_id (IB_CLIENT_ID cfg).
Proof.
  unfold import_module, resolve_defaults, mbind, result_bind.
  destruct (Py.int (getenv (env_IB_PORT environ) DEFAULT_IB_PORT)) as [P|e];
    [|discriminate].
  cbn [Py.bind].
  destruct (Py.int (getenv (env_IB_CLIENT_ID environ) DEFAULT_IB_CLIENT_ID)) as [C|e];
    [|discriminate].
  cbn [Py.bind]. intros H. injection H as <-. cbn [IB_HOST IB_PORT IB_CLIENT_ID].
  destruct host as [h|], port as [p|], client_id as [c|], (1 <=? v);
    cbn [Py.bind]; eexists _, _, _; (split; [reflexivity|]);
    repeat split; try reflexivity;
    try apply or_str_same; try apply or_int_same.
Qed.

(** C8, as the code has it. With the environment variables as they were
    when the module was imported, two runs that differ only in the
    verbosity level and meet the same schedule of gateway callbacks end in
    the same outcome: the same returned table, the same connection
    parameters and requests, the same moment. *)
Theorem verbosity_does_not_change_results
    (argsort : list Z -> list nat) (cfg : Config) (environ : Environ)
    (symbols : list string) (timeframes : list (string * string))
    (symbol duration barsize : string) (show_bars : bool)
    (host : option string) (port client_id : option Z) (v1 v2 : Z) (w : World) :
  import_module environ = Py.Ok cfg ->
  get_ib_ticks cfg symbol duration barsize v1 show_bars host port client_id w
  = get_ib_ticks cfg symbol duration barsize v2 show_bars host port client_id w
  /\ get_ib_ticks_multiple argsort cfg environ symbols timeframes v1 show_bars
       host port client_id w
     = get_ib_ticks_multiple argsort cfg environ symbols timeframes v2 show_bars
         host port client_id w.
Proof.
  intros Himp. split; [apply get_ib_ticks_verbose|].
  unfold get_ib_ticks_multiple.
  destruct (resolve_defaults_import cfg environ v1 host port client_id Himp)
    as (h1 & p1 & c1 & -> & Hh1 & Hp1 & Hc1).
  destruct (resolve_defaults_import cfg environ v2 host port client_id Himp)
    as (h2 & p2 & c2 & -> & Hh2 & Hp2 & Hc2).
  unfold run_bind.
  rewrite (ticks_for_symbols_params cfg symbols timeframes v1 show_bars
             h1 h2 p1 p2 c1 c2 [] w) by congruence.
  rewrite (ticks_for_symbols_verbose cfg symbols timeframes v1 v2).
  reflexivity.
Qed.

Lemma verbosity_does_not_change_results_witness :
  let cfg := mkConfig "127.0.0.1" 4001 123 in
  let environ := mkEnviron None None None in
  let w := mkWorld 0 [mkBatch [] 0; mkBatch [] 10000; mkBatch [] 0] [] in
  get_ib_ticks cfg "SPY" "1 M" "1 day" 0 false None None None w
  = get_ib_ticks cfg "SPY" "1 M" "1 day" 2 false None None None w
  /\ get_ib_ticks_multiple pd.stable_argsort cfg environ ["SPY"] [("1 M", "1 day")]
       0 false None None None w
     = get_ib_ticks_multiple pd.stable_argsort cfg environ ["SPY"] [("1 M", "1 day")]
       2 false None None None w.
Proof.
  intros cfg environ w.
  apply (verbosity_does_not_change_results pd.stable_argsort cfg environ).
  reflexivity.
Defined.

(** C8, as stated, fails once the environment has changed between the
    import of the module and the call: at verbosity 0 the connection uses
    the port read at import time, at verbosity 1 the port read at the time
    of the call. *)
Lemma verbosity_changes_port_after_environ_change :
  let cfg := mkConfig "127.0.0.1" 4001 123 in
  let environ := mkEnviron None (Some "4002") None in
  let w := mkWorld 0 [mkBatch [] 0; mkBatch [] 10000; mkBatch [] 0] [] in
  import_module (mkEnviron None None None) = Py.Ok cfg
  /\ get_ib_ticks_multiple pd.stable_argsort cfg environ ["SPY"] [("1 M", "1 day")]
       0 false None None None w
     = Done (Py.Ok None,
             mkWorld 10000 [] [Connect "127.0.0.1" 4001 123; Disconnect])
  /\ get_ib_ticks_multiple pd.stable_argsort cfg environ ["SPY"] [("1 M", "1 day")]
       1 false None None None w
     = Done (Py.Ok None,
             mkWorld 10000 [] [Connect "127.0.0.1" 4002 123; Disconnect])
  /\ get_ib_ticks_multiple pd.stable_argsort cfg environ ["SPY"] [("1 M", "1 day")]
       0 false None None None w
     <> get_ib_ticks_multiple pd.stable_argsort cfg environ ["SPY"] [("1 M", "1 day")]
       1 false None None None w.
Proof.
  intros cfg environ w.
  assert (H0 : get_ib_ticks_multiple pd.stable_argsort cfg environ
                 ["SPY"] [("1 M", "1 day")] 0 false None None None w
               = Done (Py.Ok None,
                       mkWorld 10000 [] [Connect "127.0.0.1" 4001 123; Disconnect]))
    by (vm_compute; reflexivity).
  assert (H1 : get_ib_ticks_multiple pd.stable_argsort cfg environ
                 ["SPY"] [("1 M", "1 day")] 1 false None None None w
               = Done (Py.Ok None,
                       mkWorld 10000 [] [Connect "127.0.0.1" 4002 123; Disconnect]))
    by (vm_compute; reflexivity).
  repeat split; try assumption; try reflexivity.
  rewrite H0, H1. intros H. discriminate H.
Qed.

(** ** Connections *)

Lemma within_ret {A} (a : A) : within 0 (ret a) (fun x acts => x = a /\ acts = []).
Proof.
  intros w _. exists a, w, []. rewrite app_nil_r.
  repeat split; try reflexivity. apply Nat.le_add_r.
Qed.

Lemma within_emit (act : Action) : within 0 (emit act) (fun _ acts => acts = [act]).
Proof.
  intros w _. eexists tt, _, [act]. unfold emit. cbn [actions schedule].
  repeat split; try reflexivity. apply Nat.le_add_r.
Qed.

Lemma within_pause (ms : Z) (app : MarketDataApp.t) :
  within 1 (pause ms app) (fun _ acts => acts = []).
Proof.
  intros w Hlen. unfold pause.
  destruct (schedule w) as [|b rest] eqn:E; [simpl in Hlen; lia|].
  eexists _, _, []. cbn [actions schedule]. rewrite app_nil_r.
  repeat split; try reflexivity. simpl. lia.
Qed.

Lemma within_weaken {A} (c c' : nat) (m : Run A) (P Q : A -> list Action -> Prop) :
  (c <= c')%nat -> (forall a acts, P a acts -> Q a acts) ->
  within c m P -> within c' m Q.
Proof.
  intros Hc HPQ H w Hlen.
  destruct (H w ltac:(lia)) as (a & w' & acts & Hrun & Hacts & Hcost & HP).
  exists a, w', acts. repeat split; auto. lia.
Qed.

Lemma within_bind {A B} (c1 c2 : nat) (m : Run A) (k : A -> Run B)
    (P : A -> list Action -> Prop) (Q : B -> list Action -> Prop) :
  within c1 m P ->
  (forall a acts, P a acts -> within c2 (k a) Q) ->
  within (c1 + c2) (run_bind m k)
    (fun b acts => exists a acts1 acts2,
         acts = (acts1 ++ acts2)%list /\ P a acts1 /\ Q b acts2).
Proof.
  intros Hm Hk w Hlen.
  destruct (Hm w ltac:(lia)) as (a & w1 & acts1 & Hrun1 & Hacts1 & Hcost1 & HP).
  destruct (Hk a acts1 HP w1 ltac:(lia)) as (b & w2 & acts2 & Hrun2 & Hacts2 & Hcost2 & HQ).
  exists b, w2, (acts1 ++ acts2)%list. unfold run_bind. rewrite Hrun1.
  repeat split.
  - exact Hrun2.
  - now rewrite Hacts2, Hacts1, app_assoc.
  - lia.
  - exists a, acts1, acts2. auto.
Qed.

(** A wait of [timeout] milliseconds takes at most [timeout / 100] polls. *)
Lemma wait_loop_bounded (pending : MarketDataApp.t -> bool) (timeout start_time : Z)
    (n : nat) (sched : list Batch) (app : MarketDataApp.t) (now : Z) :
  timeout - (now - start_time) <= 100 * Z.of_nat n ->
  (n <= List.length sched)%nat ->
  exists app' now' sched',
    wait_loop pending timeout start_time sched app now = Done (app', now', sched')
    /\ (List.length sched <= List.length sched' + n)%nat.
Proof.
  revert sched app now. induction n as [|n IH]; intros sched app now Ht Hlen.
  - exists app, now, sched.
    assert (E : (now - start_time <? timeout) = false) by (apply Z.ltb_ge; lia).
    destruct sched; cbn [wait_loop]; rewrite E, andb_false_r; split;
      (reflexivity || lia).
  - destruct sched as [|b rest]; [simpl in Hlen; lia|].
    cbn [wait_loop].
    destruct (pending app && (now - start_time <? timeout)).
    + destruct (IH rest (deliver (arrivals b) app) (now + Z.max 100 (elapsed b)))
        as (app' & now' & sched' & Hrun & Hcost).
      * lia.
      * simpl in Hlen. lia.
      * exists app', now', sched'. split; [exact Hrun | simpl; lia].
    + exists app, now, (b :: rest). split; [reflexivity | lia].
Qed.

Lemma within_wait (pending : MarketDataApp.t -> bool) (timeout : Z) (n : nat)
    (app : MarketDataApp.t) :
  timeout <= 100 * Z.of_nat n ->
  within n (let* start_time := clock in wait_while pending timeout start_time app)
    (fun _ acts => acts = []).
Proof.
  intros Ht w Hlen. unfold run_bind, clock, wait_while.
  destruct (wait_loop_bounded pending timeout (now w) n (schedule w) app (now w))
    as (app' & now' & sched' & Hrun & Hcost); [lia | exact Hlen|].
  rewrite Hrun. eexists _, _, []. cbn [actions schedule]. rewrite app_nil_r.
  repeat split; try reflexivity. exact Hcost.
Qed.

Lemma within_seq {A B} (c1 c2 c : nat) (m : Run A) (k : A -> Run B)
    (P : A -> list Action -> Prop) (Q R : B -> list Action -> Prop) :
  (c1 + c2 <= c)%nat ->
  within c1 m P ->
  (forall a acts, P a acts -> within c2 (k a) Q) ->
  (forall a acts1 b acts2, P a acts1 -> Q b acts2 -> R b (acts1 ++ acts2)%list) ->
  within c (run_bind m k) R.
Proof.
  intros Hc Hm Hk HR.
  eapply within_weaken; [exact Hc | | exact (within_bind c1 c2 m k P Q Hm Hk)].
  intros b acts (a & acts1 & acts2 & -> & HP & HQ). eauto.
Qed.

Lemma within_ext {A} (c : nat) (m m' : Run A) (P : A -> list Action -> Prop) :
  (forall w, m w = m' w) -> within c m P -> within c m' P.
Proof. intros He H w Hlen. rewrite <- He. now apply H. Qed.

Lemma run_bind_assoc {A B C} (m : Run A) (f : A -> Run B) (g : B -> Run C) (w : World) :
  run_bind (run_bind m f) g w = run_bind m (fun a => run_bind (f a) g) w.
Proof. unfold run_bind. destruct (m w) as [[a w']|]; reflexivity. Qed.

Lemma within_await_request (symbol : string) (reqId : Z) (duration bar_size : string)
    (app : MarketDataApp.t) :
  within 302 (await_request symbol reqId duration bar_size app)
    (fun _ acts => acts = [ReqHistoricalData reqId symbol duration bar_size]).
Proof.
  unfold await_request.
  apply (within_seq 0 302 302 _ _
           (fun _ acts => acts = [ReqHistoricalData reqId symbol duration bar_size])
           silent);
    [lia | apply within_emit | | intros ? ? ? ? -> ->; reflexivity].
  intros _ _ _.
  apply (within_seq 1 301 302 _ _ silent silent);
    [lia | apply within_pause | | intros ? ? ? ? -> ->; reflexivity].
  intros app1 _ _.
  eapply within_ext; [intros w; apply run_bind_assoc|].
  apply (within_seq 300 1 301 _ _ silent silent);
    [lia | apply (within_wait _ 30000 300); lia | | intros ? ? ? ? -> ->; reflexivity].
  intros app2 _ _. apply within_pause.
Qed.

Lemma within_requests_single (symbol duration bar_size : string)
    (app : MarketDataApp.t) (dataframes : dict pd.DataFrame) :
  within 303 (requests symbol 0 [(duration, bar_size)] app dataframes)
    (fun _ acts => acts = [ReqHistoricalData 1 symbol duration bar_size]).
Proof.
  cbn [requests].
  apply (within_seq 302 1 303 _ _
           (fun _ acts => acts = [ReqHistoricalData 1 symbol duration bar_size])
           silent);
    [lia | apply within_await_request | | intros ? ? ? ? -> ->; reflexivity].
  intros app1 _ _.
  destruct (collect (Z.of_nat 0 + 1) app1) as [found|e].
  - apply (within_seq 1 0 1 _ _ silent silent);
      [lia | apply within_pause | | intros ? ? ? ? -> ->; reflexivity].
    intros app2 _ _.
    eapply within_weaken; [| | apply within_ret]; [lia|].
    intros a acts [_ ->]. reflexivity.
  - eapply within_weaken; [| | apply within_ret]; [lia|].
    intros a acts [_ ->]. reflexivity.
Qed.

(** A retrieval finishes within 405 scheduling points, whatever the
    gateway does, and what it asks of the gateway is one session. *)
Lemma within_get_ib_ticks (cfg : Config) (symbol duration barsize : string)
    (verbose : Z) (show_bars : bool) (host : option string) (port client_id : option Z) :
  within 405
    (get_ib_ticks cfg symbol duration barsize verbose show_bars host port client_id)
    (fun _ acts =>
       session_of (Py.or_str host (IB_HOST cfg)) (Py.or_int port (IB_PORT cfg))
         (Py.or_int client_id (IB_CLIENT_ID cfg)) symbol (duration, barsize) acts).
Proof.
  unfold get_ib_ticks.
  set (H := Py.or_str host (IB_HOST cfg)).
  set (P := Py.or_int port (IB_PORT cfg)).
  set (C := Py.or_int client_id (IB_CLIENT_ID cfg)).
  set (rest := fun (_ : option pd.DataFrame) (acts : list Action) =>
                 acts = [Disconnect]
                 \/ acts = [ReqHistoricalData 1 symbol duration barsize; Disconnect]).
  apply (within_seq 0 405 405 _ _ (fun _ acts => acts = [Connect H P C]) rest);
    [lia | apply within_emit | |
     intros ? ? ? ? -> [-> | ->]; [left | right]; reflexivity].
  intros _ _ _.
  apply (within_seq 1 404 405 _ _ silent rest);
    [lia | apply within_pause | | intros ? ? ? ? -> Hr; exact Hr].
  intros app1 _ _.
  eapply within_ext; [intros w; apply run_bind_assoc|].
  apply (within_seq 100 304 404 _ _ silent rest);
    [lia | apply (within_wait _ 10000 100); lia | | intros ? ? ? ? -> Hr; exact Hr].
  intros app2 _ _.
  apply (within_seq 1 303 304 _ _ silent rest);
    [lia | apply within_pause | | intros ? ? ? ? -> Hr; exact Hr].
  intros app3 _ _.
  apply (within_seq 303 0 303 _ _
           (fun _ acts => acts = []
                          \/ acts = [ReqHistoricalData 1 symbol duration barsize])
           (fun _ acts => acts = [Disconnect]));
    [lia | | | intros ? ? ? ? [-> | ->] ->; [left | right]; reflexivity].
  - destruct (negb (MarketDataApp.connected app3)).
    + eapply within_weaken; [| | apply within_ret]; [lia|].
      intros a acts [_ ->]. now left.
    + unfold get_historical_data.
      apply (within_seq 303 0 303 _ _
               (fun _ acts => acts = [ReqHistoricalData 1 symbol duration barsize])
               silent);
        [lia | apply within_requests_single | |
         intros ? ? ? ? -> ->; right; reflexivity].
      intros [app4 dfs] _ _.
      eapply within_weaken; [| | apply within_ret]; [lia|].
      intros a acts [_ ->]. reflexivity.
  - intros result _ _.
    apply (within_seq 0 0 0 _ _ (fun _ acts => acts = [Disconnect]) silent);
      [lia | apply within_emit | | intros ? ? ? ? -> ->; reflexivity].
    intros _ _ _.
    eapply within_weaken; [| | apply within_ret]; [lia|].
    intros a acts [_ ->]. reflexivity.
Qed.

Lemma within_ticks_for_symbol (cfg : Config) (symbol : string)
    (timeframes : list (string * string)) (verbose : Z) (show_bars : bool)
    (host : option string) (port client_id : option Z) (all_dfs : list pd.DataFrame) :
  within (405 * List.length timeframes)
    (ticks_for_symbol cfg symbol timeframes verbose show_bars host port client_id all_dfs)
    (fun _ acts =>
       exists sessions,
         acts = concat sessions
         /\ Forall2 (fun tf sess =>
                      session_of (Py.or_str host (IB_HOST cfg))
                        (Py.or_int port (IB_PORT cfg))
                        (Py.or_int client_id (IB_CLIENT_ID cfg)) symbol tf sess)
              timeframes sessions).
Proof.
  revert all_dfs. induction timeframes as [|[duration barsize] rest IH]; intros all_dfs.
  - cbn [ticks_for_symbol].
    eapply within_weaken; [| | apply within_ret]; [simpl; lia|].
    intros a acts [_ ->]. exists []. split; [reflexivity | constructor].
  - cbn [ticks_for_symbol].
    apply (within_seq 405 (405 * List.length rest) _ _ _
             (fun _ acts =>
                session_of (Py.or_str host (IB_HOST cfg)) (Py.or_int port (IB_PORT cfg))
                  (Py.or_int client_id (IB_CLIENT_ID cfg)) symbol (duration, barsize) acts)
             (fun _ acts =>
                exists sessions,
                  acts = concat sessions
                  /\ Forall2 (fun tf sess =>
                               session_of (Py.or_str host (IB_HOST cfg))
                                 (Py.or_int port (IB_PORT cfg))
                                 (Py.or_int client_id (IB_CLIENT_ID cfg)) symbol tf sess)
                       rest sessions)).
    + simpl List.length. lia.
    + apply within_get_ib_ticks.
    + intros df acts _. apply IH.
    + intros df acts1 b acts2 Hs (sessions & -> & Hall).
      exists (acts1 :: sessions). split; [reflexivity|].
      constructor; assumption.
Qed.

Lemma Forall2_map_pair {A B C} (R : A * B -> C -> Prop) (a : A) (l : list B) (l' : list C) :
  Forall2 (fun b c => R (a, b) c) l l' -> Forall2 R (map (fun b => (a, b)) l) l'.
Proof. induction 1; simpl; constructor; assumption. Qed.

Lemma within_ticks_for_symbols (cfg : Config) (symbols : list string)
    (timeframes : list (string * string)) (verbose : Z) (show_bars : bool)
    (host : option string) (port client_id : option Z) (all_dfs : list pd.DataFrame) :
  within (405 * (List.length symbols * List.length timeframes))
    (ticks_for_symbols cfg symbols timeframes verbose show_bars host port client_id all_dfs)
    (fun _ acts =>
       exists sessions,
         acts = concat sessions
         /\ Forall2 (fun st sess =>
                      session_of (Py.or_str host (IB_HOST cfg))
                        (Py.or_int port (IB_PORT cfg))
                        (Py.or_int client_id (IB_CLIENT_ID cfg))
                        (fst st) (snd st) sess)
              (retrievals symbols timeframes) sessions).
Proof.
  revert all_dfs. induction symbols as [|symbol rest IH]; intros all_dfs.
  - cbn [ticks_for_symbols].
    eapply within_weaken; [| | apply within_ret]; [simpl; lia|].
    intros a acts [_ ->]. exists []. split; [reflexivity | constructor].
  - cbn [ticks_for_symbols].
    apply (within_seq (405 * List.length timeframes)
             (405 * (List.length rest * List.length timeframes)) _ _ _
             (fun _ acts =>
                exists sessions,
                  acts = concat sessions
                  /\ Forall2 (fun tf sess =>
                               session_of (Py.or_str host (IB_HOST cfg))
                                 (Py.or_int port (IB_PORT cfg))
                                 (Py.or_int client_id (IB_CLIENT_ID cfg)) symbol tf sess)
                       timeframes sessions)
             (fun _ acts =>
                exists sessions,
                  acts = concat sessions
                  /\ Forall2 (fun st sess =>
                               session_of (Py.or_str host (IB_HOST cfg))
                                 (Py.or_int port (IB_PORT cfg))
                                 (Py.or_int client_id (IB_CLIENT_ID cfg))
                                 (fst st) (snd st) sess)
                       (retrievals rest timeframes) sessions)).
    + simpl List.length. lia.
    + apply within_ticks_for_symbol.
    + intros dfs acts _. apply IH.
    + intros dfs acts1 b acts2 (s1 & -> & H1) (s2 & -> & H2).
      exists (s1 ++ s2)%list. split; [now rewrite concat_app|].
      unfold retrievals. simpl flat_map. apply Forall2_app; [|exact H2].
      apply (Forall2_map_pair
               (fun st sess =>
                  session_of (Py.or_str host (IB_HOST cfg))
                    (Py.or_int port (IB_PORT cfg))
                    (Py.or_int client_id (IB_CLIENT_ID cfg)) (fst st) (snd st) sess)).
      exact H1.
Qed.

Lemma connections_app (l1 l2 : list Action) :
  connections (l1 ++ l2) = (connections l1 + connections l2)%nat.
Proof. unfold connections. now rewrite List.filter_app, length_app. Qed.

Lemma session_connections (host : string) (port client_id : Z) (symbol : string)
    (timeframe : string * string) (acts : list Action) :
  session_of host port client_id symbol timeframe acts -> connections acts = 1%nat.
Proof. intros [-> | ->]; reflexivity. Qed.

Lemma sessions_connections {A} (R : A -> list Action -> Prop)
    (l : list A) (sessions : list (list Action)) :
  (forall x acts, R x acts -> connections acts = 1%nat) ->
  Forall2 R l sessions -> connections (concat sessions) = List.length l.
Proof.
  intros HR. induction 1 as [|x acts l sessions Hx _ IH]; [reflexivity|].
  simpl concat. rewrite connections_app, (HR x acts Hx), IH. reflexivity.
Qed.

Lemma length_retrievals (symbols : list string) (timeframes : list (string * string)) :
  List.length (retrievals symbols timeframes)
  = (List.length symbols * List.length timeframes)%nat.
Proof.
  unfold retrievals. induction symbols as [|s rest IH]; [reflexivity|].
  simpl flat_map. rewrite length_app, length_map, IH. reflexivity.
Qed.

(** Once the defaults are resolved, a run that is given enough of the
    schedule finishes, and what it asks of the gateway is one session per
    pair of a symbol and a timeframe config, in the order of the loops. *)
Lemma sessions_of_retrievals
    (argsort : list Z -> list nat) (cfg : Config) (environ : Environ)
    (symbols : list string) (timeframes : list (string * string))
    (verbose : Z) (show_bars : bool)
    (host h : option string) (port client_id p c : option Z) (w : World) :
  resolve_defaults environ verbose host port client_id = Py.Ok (h, p, c) ->
  (405 * (List.length symbols * List.length timeframes)
   <= List.length (schedule w))%nat ->
  exists r w' sessions,
    get_ib_ticks_multiple argsort cfg environ symbols timeframes verbose show_bars
      host port client_id w = Done (Py.Ok r, w')
    /\ actions w' = (actions w ++ concat sessions)%list
    /\ Forall2 (fun st sess =>
                 session_of (Py.or_str h (IB_HOST cfg)) (Py.or_int p (IB_PORT cfg))
                   (Py.or_int c (IB_CLIENT_ID cfg)) (fst st) (snd st) sess)
         (retrievals symbols timeframes) sessions
    /\ connections (concat sessions)
       = (List.length symbols * List.length timeframes)%nat.
Proof.
  intros Hres Hlen. unfold get_ib_ticks_multiple. rewrite Hres.
  destruct (within_ticks_for_symbols cfg symbols timeframes verbose show_bars h p c []
              w Hlen)
    as (all_dfs & w' & acts & Hrun & Hacts & _ & sessions & -> & Hall).
  exists (combine_all argsort all_dfs), w', sessions.
  unfold run_bind, ret. rewrite Hrun.
  split; [reflexivity|]. split; [exact Hacts|]. split; [exact Hall|].
  rewrite <- length_retrievals.
  apply (sessions_connections _ _ _ (fun st acts Hs => session_connections _ _ _ _ _ _ Hs) Hall).
Qed.

(** The defaults are read without an exception below verbosity 1. *)
Lemma resolve_defaults_quiet (environ : Environ) (verbose : Z)
    (host : option string) (port client_id : option Z) (e : Py.exn) :
  resolve_defaults environ verbose host port client_id = Py.Raise e -> 1 <= verbose.
Proof.
  unfold resolve_defaults. destruct (1 <=? verbose) eqn:E.
  - intros _. now apply Z.leb_le.
  - destruct host, port, client_id; discriminate.
Qed.

(** C9, as the code has it. Every run of [get_ib_ticks_multiple] that is
    given enough of the schedule finishes. If reading the defaults raises,
    which needs verbosity 1 or more, the exception reaches the caller and
    nothing is asked of the gateway: no connection is opened. Otherwise a
    table or [None] is returned, and what the run asks of the gateway is
    one session per pair of a symbol and a timeframe config, in the order
    of the loops: each session opens a connection with the effective
    parameters, sends at most the one request of its pair on it, and
    closes it before the next session opens. The run then opens as many
    connections as there are pairs. *)
Theorem one_connection_per_retrieval
    (argsort : list Z -> list nat) (cfg : Config) (environ : Environ)
    (symbols : list string) (timeframes : list (string * string))
    (verbose : Z) (show_bars : bool)
    (host : option string) (port client_id : option Z) (w : World) :
  (405 * (List.length symbols * List.length timeframes)
   <= List.length (schedule w))%nat ->
  exists r w' sessions,
    get_ib_ticks_multiple argsort cfg environ symbols timeframes verbose show_bars
      host port client_id w = Done (r, w')
    /\ actions w' = (actions w ++ concat sessions)%list
    /\ match resolve_defaults environ verbose host port client_id with
       | Py.Raise e =>
           1 <= verbose /\ r = Py.Raise e /\ w' = w /\ sessions = []
           /\ connections (concat sessions) = 0%nat
       | Py.Ok (h, p, c) =>
           (exists table, r = Py.Ok table)
           /\ Forall2 (fun st sess =>
                        session_of (Py.or_str h (IB_HOST cfg))
                          (Py.or_int p (IB_PORT cfg))
                          (Py.or_int c (IB_CLIENT_ID cfg)) (fst st) (snd st) sess)
                (retrievals symbols timeframes) sessions
           /\ connections (concat sessions)
              = (List.length symbols * List.length timeframes)%nat
       end.
Proof.
  intros Hlen.
  destruct (resolve_defaults environ verbose host port client_id)
    as [[[h p] c]|e] eqn:Hres.
  - destruct (sessions_of_retrievals argsort cfg environ symbols timeframes verbose
                show_bars host h port client_id p c w Hres Hlen)
      as (r & w' & sessions & Hrun & Hacts & Hall & Hconn).
    exists (Py.Ok r), w', sessions.
    split; [exact Hrun|]. split; [exact Hacts|].
    split; [now exists r|]. split; [exact Hall | exact Hconn].
  - exists (Py.Raise e), w, [].
    unfold get_ib_ticks_multiple. rewrite Hres.
    split; [reflexivity|]. split; [now rewrite app_nil_r|].
    split; [exact (resolve_defaults_quiet _ _ _ _ _ _ Hres)|].
    repeat split; reflexivity.
Qed.

Lemma one_connection_per_retrieval_witness :
  let cfg := mkConfig "127.0.0.1" 4001 123 in
  let w := mkWorld 0 (repeat (mkBatch [] 0) 810) [] in
  (exists r w' sessions,
     get_ib_ticks_multiple pd.stable_argsort cfg (mkEnviron None None None)
       ["SPY"; "QQQ"] [("1 M", "1 day")] 0 false None None None w = Done (r, w')
     /\ actions w' = concat sessions
     /\ connections (concat sessions) = 2%nat)
  /\ (exists w' sessions,
        get_ib_ticks_multiple pd.stable_argsort cfg (mkEnviron None (Some "n/a") None)
          ["SPY"; "QQQ"] [("1 M", "1 day")] 1 false None None None w
        = Done (Py.Raise Py.ValueError, w')
        /\ actions w' = concat sessions
        /\ connections (concat sessions) = 0%nat).
Proof.
  intros cfg w. split.
  - destruct (one_connection_per_retrieval pd.stable_argsort cfg
                (mkEnviron None None None)
                ["SPY"; "QQQ"] [("1 M", "1 day")] 0 false None None None w)
      as (r & w' & sessions & Hrun & Hacts & Hcase).
    + apply Nat.leb_le. vm_compute. reflexivity.
    + change (resolve_defaults (mkEnviron None None None) 0 None None None)
        with (@Py.Ok (option string * option Z * option Z) (None, None, None))
        in Hcase.
      destruct Hcase as (_ & _ & Hconn).
      exists r, w', sessions. split; [exact Hrun|]. split; [exact Hacts | exact Hconn].
  - destruct (one_connection_per_retrieval pd.stable_argsort cfg
                (mkEnviron None (Some "n/a") None)
                ["SPY"; "QQQ"] [("1 M", "1 day")] 1 false None None None w)
      as (r & w' & sessions & Hrun & Hacts & Hcase).
    + apply Nat.leb_le. vm_compute. reflexivity.
    + change (resolve_defaults (mkEnviron None (Some "n/a") None) 1 None None None)
        with (@Py.Raise (option string * option Z * option Z) Py.ValueError)
        in Hcase.
      destruct Hcase as (_ & -> & _ & _ & Hconn).
      exists w', sessions. split; [exact Hrun|]. split; [exact Hacts | exact Hconn].
Defined.

(** C9, as stated, fails: for one symbol and two timeframe configs the
    run opens two connections, one per config, and each carries a single
    request. *)
Lemma two_connections_for_one_symbol :
  let bar := Bar.mk "20241024" (VInt 1) (VInt 2) (VInt 0) (VInt 1) (VInt 100) in
  let retrieval :=
    [mkBatch [EvConnectAck; EvNextValidId 1] 5; mkBatch [] 0; mkBatch [] 0;
     mkBatch [EvHistoricalData 1 bar; EvHistoricalDataEnd 1 "" ""] 10;
     mkBatch [] 0; mkBatch [] 0] in
  let run :=
    get_ib_ticks_multiple pd.stable_argsort
      (mkConfig "127.0.0.1" 4001 123) (mkEnviron None None None)
      ["SPY"] [("1 M", "3 hours"); ("1 Y", "1 day")] 0 false None None None
      (mkWorld 0 (retrieval ++ retrieval) []) in
  requested run
  = [Connect "127.0.0.1" 4001 123; ReqHistoricalData 1 "SPY" "1 M" "3 hours"; Disconnect;
     Connect "127.0.0.1" 4001 123; ReqHistoricalData 1 "SPY" "1 Y" "1 day"; Disconnect]
  /\ connections (requested run) = 2%nat
  /\ List.length ["SPY"] = 1%nat.
Proof. vm_compute. repeat split; reflexivity. Qed.

(** * Further properties *)

(** ** Timestamp parser, continued *)

Lemma split_no_sep (sep : ascii) (s : string) :
  Py.contains sep s = false -> Py.split sep s = [s].
Proof.
  induction s as [|c s IH]; [reflexivity|].
  cbn [Py.contains Py.split]. intros H. apply orb_false_iff in H.
  destruct H as [Hc Hs]. rewrite Hc, (IH Hs). reflexivity.
Qed.

Lemma int_raises_ValueError (s : string) (e : Py.exn) :
  Py.int s = Py.Raise e -> e = Py.ValueError.
Proof.
  unfold Py.int. destruct (Py.int_digits 0 false _); [discriminate|].
  intros H. now injection H.
Qed.

Lemma substring_beyond (n m : nat) (s : string) :
  (String.length s <= n)%nat -> String.substring n m s = EmptyString.
Proof.
  revert s. induction n as [|n IH]; intros s H.
  - destruct s; [|simpl in H; lia]. now destruct m.
  - destruct s as [|c s]; [reflexivity|]. simpl. apply IH. simpl in H. lia.
Qed.

(** X4. A date-only token of fewer than seven characters has no day to read:
    the call raises [ValueError], whatever the characters are. *)
Theorem parse_ib_datetime_short_token (s : string) :
  Py.contains " " (Py.strip s) = false ->
  (String.length (Py.strip s) <= 6)%nat ->
  parse_ib_datetime s = Py.Raise Py.ValueError.
Proof.
  intros Hsp Hlen. unfold parse_ib_datetime.
  rewrite (split_no_sep " " _ Hsp).
  change ((List.length [Py.strip s] =? 1)%nat) with true. cbv iota.
  change (Py.index ([Py.strip s] ++ [""; "00:00:00"])%list 0) with (Py.Ok (Py.strip s)).
  change (Py.index ([Py.strip s] ++ [""; "00:00:00"])%list 2) with (Py.Ok "00:00:00").
  unfold mbind, result_bind. cbn [Py.bind].
  assert (Hday : Py.int (Py.slice 6 8 (Py.strip s)) = Py.Raise Py.ValueError).
  { unfold Py.slice. now rewrite substring_beyond. }
  rewrite Hday.
  destruct (Py.int (Py.slice 0 4 (Py.strip s))) as [y|e] eqn:Ey;
    [|now rewrite (int_raises_ValueError _ _ Ey)].
  cbn [Py.bind].
  destruct (Py.int (Py.slice 4 6 (Py.strip s))) as [m|e] eqn:Em;
    [|now rewrite (int_raises_ValueError _ _ Em)].
  reflexivity.
Qed.

Lemma parse_ib_datetime_short_token_witness :
  parse_ib_datetime "202410" = Py.Raise Py.ValueError.
Proof.
  apply parse_ib_datetime_short_token.
  - reflexivity.
  - simpl. lia.
Defined.

Lemma parse_ib_datetime_date_only_witness :
  parse_ib_datetime "20231124" = Py.Ok (mkTimestamp 2023 11 24 0 0 0).
Proof.
  exact (parse_ib_datetime_date_only "2" "0" "2" "3" "1" "1" "2" "4"
           2 0 2 3 1 1 2 4
           eq_refl eq_refl eq_refl eq_refl eq_refl eq_refl eq_refl eq_refl).
Defined.

Lemma parse_ib_datetime_two_fields_witness :
  parse_ib_datetime "2024-10-24 15:30:00" = Py.Raise Py.IndexError.
Proof. apply parse_ib_datetime_two_fields. reflexivity. Defined.

Lemma rstrip_keep (c : ascii) (r : string) :
  r <> EmptyString -> Py.rstrip r = r -> Py.rstrip (String c r) = String c r.
Proof.
  intros Hne Hr. cbn [Py.rstrip]. rewrite Hr. destruct r; [congruence | reflexivity].
Qed.

Section Intraday.

Variables c1 c2 c3 c4 c5 c6 c7 c8 : ascii.
Variables d1 d2 d3 d4 d5 d6 d7 d8 : Z.
Variables h1 h2 m1 m2 s1 s2 x y : ascii.
Variables eh1 eh2 em1 em2 es1 es2 : Z.
Hypothesis D1 : Py.digit_val c1 = Some d1.
Hypothesis D2 : Py.digit_val c2 = Some d2.
Hypothesis D3 : Py.digit_val c3 = Some d3.
Hypothesis D4 : Py.digit_val c4 = Some d4.
Hypothesis D5 : Py.digit_val c5 = Some d5.
Hypothesis D6 : Py.digit_val c6 = Some d6.
Hypothesis D7 : Py.digit_val c7 = Some d7.
Hypothesis D8 : Py.digit_val c8 = Some d8.
Hypothesis T1 : Py.digit_val h1 = Some eh1.
Hypothesis T2 : Py.digit_val h2 = Some eh2.
Hypothesis T3 : Py.digit_val m1 = Some em1.
Hypothesis T4 : Py.digit_val m2 = Some em2.
Hypothesis T5 : Py.digit_val s1 = Some es1.
Hypothesis T6 : Py.digit_val s2 = Some es2.
Hypothesis Sx : Ascii.eqb x " " = false.
Hypothesis Sy : Ascii.eqb y " " = false.

(** X2. The intraday shape that the code serves: eight digits, two spaces,
    and a time of two digits, any separator, two digits, any separator,
    two digits. The fields are read off the fixed positions; the two
    separators are never looked at. *)
Theorem parse_ib_datetime_intraday :
  parse_ib_datetime
    (String.append (date8 c1 c2 c3 c4 c5 c6 c7 c8)
       (String " " (String " " (time8 h1 h2 x m1 m2 y s1 s2))))
  = pd_Timestamp (1000 * d1 + 100 * d2 + 10 * d3 + d4)
      (10 * d5 + d6) (10 * d7 + d8)
      (10 * eh1 + eh2) (10 * em1 + em2) (10 * es1 + es2).
Proof.
  set (date := date8 c1 c2 c3 c4 c5 c6 c7 c8).
  set (time := time8 h1 h2 x m1 m2 y s1 s2).
  set (whole := String.append date (String " " (String " " time))).
  unfold parse_ib_datetime.
  destruct (digit_val_char c1 d1 D1) as (Hs1 & Hb1 & _).
  destruct (digit_val_char c2 d2 D2) as (_ & Hb2 & _).
  destruct (digit_val_char c3 d3 D3) as (_ & Hb3 & _).
  destruct (digit_val_char c4 d4 D4) as (_ & Hb4 & _).
  destruct (digit_val_char c5 d5 D5) as (_ & Hb5 & _).
  destruct (digit_val_char c6 d6 D6) as (_ & Hb6 & _).
  destruct (digit_val_char c7 d7 D7) as (_ & Hb7 & _).
  destruct (digit_val_char c8 d8 D8) as (_ & Hb8 & _).
  destruct (digit_val_char h1 eh1 T1) as (_ & Hh1 & _).
  destruct (digit_val_char h2 eh2 T2) as (_ & Hh2 & _).
  destruct (digit_val_char m1 em1 T3) as (_ & Hm1 & _).
  destruct (digit_val_char m2 em2 T4) as (_ & Hm2 & _).
  destruct (digit_val_char s1 es1 T5) as (_ & Hz1 & _).
  destruct (digit_val_char s2 es2 T6) as (_ & Hz2 & _).
  assert (Hstrip : Py.strip whole = whole).
  { unfold Py.strip. subst whole date time. unfold date8, time8.
    simpl String.append. simpl Py.lstrip. rewrite Hs1.
    do 17 (apply rstrip_keep; [discriminate|]).
    now apply (rstrip_digit s2 es2). }
  rewrite Hstrip.
  assert (Hsplit : Py.split " " whole = [date; EmptyString; time]).
  { subst whole date time. unfold date8, time8.
    simpl.
    now rewrite Hb1, Hb2, Hb3, Hb4, Hb5, Hb6, Hb7, Hb8,
      Hh1, Hh2, Sx, Hm1, Hm2, Sy, Hz1, Hz2. }
  rewrite Hsplit.
  change ((List.length [date; EmptyString; time] =? 1)%nat) with false. cbv iota.
  change (Py.index [date; EmptyString; time] 0) with (Py.Ok date).
  change (Py.index [date; EmptyString; time] 2) with (Py.Ok time).
  unfold mbind, result_bind, Py.bind at 1 2.
  change (Py.slice 0 4 date) with (String c1 (String c2 (String c3 (String c4 "")))).
  change (Py.slice 4 6 date) with (String c5 (String c6 "")).
  change (Py.slice 6 8 date) with (String c7 (String c8 "")).
  change (Py.slice 0 2 time) with (String h1 (String h2 "")).
  change (Py.slice 3 5 time) with (String m1 (String m2 "")).
  change (Py.slice 6 8 time) with (String s1 (String s2 "")).
  rewrite (int_four_digits c1 c2 c3 c4 d1 d2 d3 d4 D1 D2 D3 D4).
  rewrite (int_two_digits c5 c6 d5 d6 D5 D6).
  rewrite (int_two_digits c7 c8 d7 d8 D7 D8).
  rewrite (int_two_digits h1 h2 eh1 eh2 T1 T2).
  rewrite (int_two_digits m1 m2 em1 em2 T3 T4).
  rewrite (int_two_digits s1 s2 es1 es2 T5 T6).
  reflexivity.
Qed.

End Intraday.

Lemma parse_ib_datetime_intraday_witness :
  parse_ib_datetime "20241024  15h30m00" = Py.Ok (mkTimestamp 2024 10 24 15 30 0).
Proof.
  exact (parse_ib_datetime_intraday "2" "0" "2" "4" "1" "0" "2" "4"
           2 0 2 4 1 0 2 4 "1" "5" "3" "0" "0" "0" "h" "m" 1 5 3 0 0 0
           eq_refl eq_refl eq_refl eq_refl eq_refl eq_refl eq_refl eq_refl
           eq_refl eq_refl eq_refl eq_refl eq_refl eq_refl eq_refl eq_refl).
Defined.

(** ** Session client, continued *)

(** X5. From a fresh session, whatever the callbacks and their interleaving
    across request IDs: the bar store holds under each ID exactly the
    bars that [historicalData] received for that ID, in arrival order,
    and no entry at all for an ID that received none. *)
Theorem bar_store_after_callbacks (verbose : Z) (show_bars : bool) (evs : list Event) (id : Z) :
  MarketDataApp.data (deliver evs (MarketDataApp.init verbose show_bars)) !! id
  = match bars_for id evs with
    | [] => None
    | bars => Some (map MarketDataApp.record_of_bar bars)
    end.
Proof.
  exact (reflects_deliver evs _ [] (reflects_init verbose show_bars) id).
Qed.

(** X6. A completion flag is up after a sequence of callbacks exactly when it
    was up before or [historicalDataEnd] ran for that ID: callbacks for
    other IDs, bars and errors never touch it, and nothing lowers it. *)
Theorem completion_flag_after_callbacks (id : Z) (evs : list Event) (app : MarketDataApp.t)
    (verbose : Z) (show_bars : bool) :
  (MarketDataApp.done_get id (deliver evs app) = true
   <-> MarketDataApp.done_get id app = true \/ ends id evs = true)
  /\ MarketDataApp.done_get id (deliver evs (MarketDataApp.init verbose show_bars))
     = ends id evs.
Proof.
  split.
  - rewrite done_get_deliver. apply orb_true_iff.
  - now rewrite done_get_deliver.
Qed.

Lemma connected_dispatch (app : MarketDataApp.t) (ev : Event) :
  MarketDataApp.connected (dispatch app ev) = true ->
  MarketDataApp.connected app = true \/ validates [ev] = true.
Proof.
  destruct ev as [r c m | | o | r bar | r s e]; cbn [dispatch]; intros H;
    try (now left); try (now right).
  - left. revert H. unfold MarketDataApp.error.
    repeat match goal with |- context [if ?b then _ else _] => destruct b end;
      cbn; auto; discriminate.
  - left. revert H. unfold MarketDataApp.historicalData.
    destruct (MarketDataApp.data app !! r); cbn.
    + destruct (MarketDataApp.data app !! r); cbn; auto.
    + rewrite lookup_insert_eq. cbn. auto.
Qed.

Lemma validates_app (l1 l2 : list Event) :
  validates (l1 ++ l2) = validates l1 || validates l2.
Proof. unfold validates. apply existsb_app. Qed.

Lemma connected_stays_down (evs : list Event) (app : MarketDataApp.t) :
  MarketDataApp.connected app = false ->
  validates evs = false ->
  MarketDataApp.connected (deliver evs app) = false.
Proof.
  revert app. induction evs as [|ev evs IH]; intros app Hc Hv; [exact Hc|].
  change (ev :: evs) with ([ev] ++ evs)%list in Hv |- *.
  rewrite validates_app in Hv. apply orb_false_iff in Hv. destruct Hv as [Hev Hevs].
  rewrite deliver_app. apply IH; [|exact Hevs].
  change (deliver [ev] app) with (dispatch app ev).
  destruct (MarketDataApp.connected (dispatch app ev)) eqn:E; [|reflexivity].
  destruct (connected_dispatch app ev E) as [H | H]; congruence.
Qed.

(** X7. Only [nextValidId] raises the connected flag: a session that is
    not connected stays so through any callbacks among which there is no
    [nextValidId], the connection acknowledgement included. *)
Theorem connected_needs_nextValidId (evs : list Event) (app : MarketDataApp.t) :
  MarketDataApp.connected app = false ->
  validates evs = false ->
  MarketDataApp.connected (deliver evs app) = false.
Proof. exact (connected_stays_down evs app). Qed.

Lemma connected_needs_nextValidId_witness :
  MarketDataApp.connected
    (deliver [EvConnectAck; EvError (-1) 2104 "Market data farm connection is OK"]
       (MarketDataApp.init 1 false)) = false.
Proof. apply connected_needs_nextValidId; reflexivity. Defined.

(** X8. Whatever the verbosity level, an error code other than 504, 1100,
    1101 and 1102 leaves the whole session state as it was: the callback
    only prints, or stays silent. *)
Theorem error_only_prints (app : MarketDataApp.t) (reqId code : Z) (msg : string) :
  ~ In code [504; 1100; 1101; 1102] ->
  MarketDataApp.error app reqId code msg = app.
Proof.
  intros Hout. unfold MarketDataApp.error.
  assert (Hd : MarketDataApp.code_in code MarketDataApp.disconnect_errors = false).
  { unfold MarketDataApp.code_in, MarketDataApp.disconnect_errors. cbn [existsb].
    repeat match goal with
           | |- context [code =? ?n] =>
               destruct (Z.eqb_spec code n) as [-> | _];
               [exfalso; apply Hout; simpl; tauto|]
           end.
    reflexivity. }
  rewrite Hd.
  repeat match goal with |- context [if ?b then _ else _] => destruct b end;
    reflexivity.
Qed.

Lemma error_only_prints_witness :
  MarketDataApp.error (MarketDataApp.mk ∅ ∅ true 2 false true) 7 2176 "Warning"
  = MarketDataApp.mk ∅ ∅ true 2 false true.
Proof.
  apply error_only_prints. simpl. intros H.
  repeat (destruct H as [H | H]; [discriminate H|]). exact H.
Defined.

(** ** Formatter, continued *)

Lemma format_loop_skips (symbol : string) (items : dict (option pd.DataFrame))
    (formatted_dfs : list pd.DataFrame) :
  format_loop symbol items formatted_dfs
  = format_loop symbol (List.filter (fun item => negb (skipped item)) items) formatted_dfs.
Proof.
  revert formatted_dfs. induction items as [|[tf [df|]] items IH]; intros acc;
    [reflexivity | |].
  - cbn [List.filter skipped snd format_loop].
    destruct (pd.empty df) eqn:E; cbn [negb].
    + apply IH.
    + cbn [format_loop]. rewrite E. cbn [negb].
      destruct (format_frame symbol tf df) as [d|e]; [|reflexivity].
      unfold mbind, result_bind. cbn [Py.bind]. apply IH.
  - cbn [List.filter skipped snd format_loop negb]. apply IH.
Qed.

(** X13. Entries that are [None] or empty tables do not count: the formatter
    returns what it returns on the mapping without them, whatever the
    other tables are. *)
Theorem format_ignores_skipped
    (dfs : dict (option pd.DataFrame)) (symbol selected_timeframe : string) (verbose : Z) :
  format_historical_data dfs symbol selected_timeframe verbose
  = format_historical_data (List.filter (fun item => negb (skipped item)) dfs)
      symbol selected_timeframe verbose.
Proof.
  unfold format_historical_data, format_body. now rewrite format_loop_skips.
Qed.

(** X14. On an empty mapping, and on a mapping whose entries are all [None] or
    empty tables, the formatter returns the empty table. *)
Theorem format_of_nothing
    (dfs : dict (option pd.DataFrame)) (symbol selected_timeframe : string) (verbose : Z) :
  forallb skipped dfs = true ->
  format_historical_data dfs symbol selected_timeframe verbose = pd.empty_frame.
Proof.
  intros Hall. unfold format_historical_data, format_body.
  rewrite format_loop_skips.
  assert (Hnone : List.filter (fun item => negb (skipped item)) dfs = []).
  { induction dfs as [|item dfs IH]; [reflexivity|].
    cbn [forallb] in Hall. apply andb_true_iff in Hall. destruct Hall as [Hi Hr].
    cbn [List.filter]. rewrite Hi. cbn [negb]. now apply IH. }
  rewrite Hnone. reflexivity.
Qed.

Lemma format_of_nothing_witness :
  format_historical_data
    [("1 day", None); ("1 week", Some pd.empty_frame);
     ("3 hours", Some (pd.mkDataFrame (Some "Date") [] [("Open", [])]))]
    "SPY" "1 day" 2
  = pd.empty_frame.
Proof. apply format_of_nothing. reflexivity. Defined.

(** The formatted table of one or more raw tables, column by column. *)
Lemma format_raw_tables (tables : dict pd.DataFrame)
    (symbol selected_timeframe : string) (verbose : Z) :
  tables <> [] ->
  Forall (fun kv => raw_table (snd kv) = true) tables ->
  format_historical_data (as_items tables) symbol selected_timeframe verbose
  = pd.mkDataFrame None
      (pd.RangeIndex (list_sum (map (fun kv => pd.len (snd kv)) tables)))
      [("Ticker", flat_map (fun kv => repeat (VStr symbol) (pd.len (snd kv))) tables);
       ("Timeframe", flat_map (fun kv => repeat (VStr (fst kv)) (pd.len (snd kv))) tables);
       ("Timestamp", flat_map (fun kv => map epoch_ms (pd.index (snd kv))) tables);
       ("Date", flat_map (fun kv => pd.index (snd kv)) tables);
       ("Timezone", flat_map (fun kv => column "Timezone" (snd kv)) tables);
       ("Open", flat_map (fun kv => column "Open" (snd kv)) tables);
       ("High", flat_map (fun kv => column "High" (snd kv)) tables);
       ("Low", flat_map (fun kv => column "Low" (snd kv)) tables);
       ("Close", flat_map (fun kv => column "Close" (snd kv)) tables);
       ("Volume", flat_map (fun kv => column "Volume" (snd kv)) tables)].
Proof.
  intros Hne Hraw. unfold format_historical_data, format_body.
  rewrite (format_loop_raw symbol tables [] Hraw). cbn [List.app].
  unfold mbind, result_bind. cbn [Py.bind].
  pose proof (concat_formatted symbol tables Hne) as Hc.
  destruct tables as [|kv tables']; [congruence|].
  cbn [map] in Hc |- *. rewrite Hc. reflexivity.
Qed.

Lemma map_flat_map {A B C} (g : B -> C) (f : A -> list B) (l : list A) :
  map g (flat_map f l) = flat_map (fun x => map g (f x)) l.
Proof.
  induction l as [|x l IH]; [reflexivity|]. simpl. now rewrite map_app, IH.
Qed.

Lemma raw_table_stamps (df : pd.DataFrame) :
  raw_table df = true -> pd.datetime64_column (pd.index df) = true.
Proof.
  unfold raw_table. rewrite !andb_true_iff. tauto.
Qed.

(** X15. For one or more raw tables, whose dates are by definition ones
    that [datetime64[ns]] can hold, the [Timestamp] cell of every row of
    the formatted table is the epoch time of its [Date] cell in
    milliseconds, and every [Date] cell is a timestamp in that range. *)
Theorem format_timestamps_from_dates
    (tables : dict pd.DataFrame) (symbol selected_timeframe : string) (verbose : Z) :
  tables <> [] ->
  Forall (fun kv => raw_table (snd kv) = true) tables ->
  let out := format_historical_data (as_items tables) symbol selected_timeframe verbose in
  exists dates,
    pd.getitem "Date" out = Py.Ok dates
    /\ pd.datetime64_column dates = true
    /\ pd.getitem "Timestamp" out = Py.Ok (map epoch_ms dates)
    /\ List.length dates = pd.len out.
Proof.
  intros Hne Hraw out. unfold out.
  rewrite (format_raw_tables tables symbol selected_timeframe verbose Hne Hraw).
  exists (flat_map (fun kv => pd.index (snd kv)) tables).
  unfold pd.getitem, pd.len. cbn [pd.columns pd.index dict_get String.eqb Ascii.eqb Bool.eqb].
  split; [reflexivity|]. split.
  - clear Hne. induction Hraw as [|kv tables Hkv _ IH]; [reflexivity|].
    pose proof (raw_table_stamps _ Hkv) as Hs.
    simpl flat_map. unfold pd.datetime64_column in *. rewrite forallb_app.
    now rewrite Hs, IH.
  - split; [now rewrite map_flat_map|].
    now rewrite length_RangeIndex, length_flat_map_sum.
Qed.

Lemma format_timestamps_from_dates_witness :
  let day := pd.mkDataFrame (Some "Date")
               [VTs (mkTimestamp 2024 10 24 15 30 0)]
               [("Open", [VInt 1]); ("High", [VInt 3]); ("Low", [VInt 0]);
                ("Close", [VInt 2]); ("Volume", [VInt 10]);
                ("Timezone", [VStr "US/Eastern"])] in
  let out := format_historical_data (as_items [("1 day", day)]) "SPY" "1 day" 0 in
  exists dates,
    pd.getitem "Date" out = Py.Ok dates
    /\ pd.getitem "Timestamp" out = Py.Ok (map epoch_ms dates)
    /\ map epoch_ms dates = [VInt 1729783800000].
Proof.
  intros day out.
  destruct (format_timestamps_from_dates [("1 day", day)] "SPY" "1 day" 0)
    as (dates & Hd & _ & Ht & _).
  - discriminate.
  - repeat constructor.
  - exists dates. split; [exact Hd|]. split; [exact Ht|].
    assert (E : Py.Ok dates = Py.Ok [VTs (mkTimestamp 2024 10 24 15 30 0)])
      by (rewrite <- Hd; reflexivity).
    injection E as ->. reflexivity.
Defined.

(** X12. [add_index] numbers the rows from 1 in a column [Index], and leaves
    the row count and every other column as they were; a column [Index]
    that was there is replaced. *)
Theorem add_index_numbers_rows (df : pd.DataFrame) :
  pd.getitem "Index" (add_index df)
  = Py.Ok (map (fun i => VInt (Z.of_nat i)) (seq 1 (pd.len df)))
  /\ pd.len (add_index df) = pd.len df
  /\ pd.index (add_index df) = pd.index df
  /\ (forall name, name <> "Index" ->
        pd.getitem name (add_index df) = pd.getitem name df).
Proof.
  unfold add_index, pd.setitem, pd.getitem, pd.len. cbn [pd.columns pd.index].
  split; [now rewrite dict_get_set_eq|]. split; [reflexivity|]. split; [reflexivity|].
  intros name Hne. rewrite dict_get_set_ne; [reflexivity|].
  apply String.eqb_neq. congruence.
Qed.

(** ** Orchestrator, continued *)

Lemma tracked_init (verbose : Z) (show_bars : bool) :
  tracked (MarketDataApp.init verbose show_bars).
Proof. exists []. apply reflects_init. Qed.

Lemma tracked_deliver (evs : list Event) (app : MarketDataApp.t) :
  tracked app -> tracked (deliver evs app).
Proof. intros [hist H]. exists (hist ++ evs)%list. now apply reflects_deliver. Qed.

Lemma tracked_set_done (d : gmap Z bool) (app : MarketDataApp.t) :
  tracked app -> tracked (MarketDataApp.set_done d app).
Proof. intros [hist H]. exists hist. now apply reflects_set_done. Qed.

Lemma await_request_tracked (symbol : string) (reqId : Z) (duration bar_size : string)
    (app app' : MarketDataApp.t) (w w' : World) :
  tracked app ->
  await_request symbol reqId duration bar_size app w = Done (app', w') ->
  tracked app'.
Proof.
  intros Ht Hrun.
  destruct (schedule w) as [|sent sched] eqn:Hsched.
  { unfold await_request, run_bind, emit, pause in Hrun.
    cbn [schedule] in Hrun. rewrite Hsched in Hrun. discriminate Hrun. }
  pose proof (await_request_unfold symbol reqId duration bar_size app w sent _ Hsched)
    as Hun. cbv zeta in Hun. rewrite Hrun in Hun.
  destruct (wait_loop _ 30000 _ sched _ _) as [[[app2 t2] [|settle rest]]|] eqn:Hw;
    try discriminate Hun.
  injection Hun as -> _.
  apply wait_loop_inv in Hw. destruct Hw as (polls & _ & -> & _).
  now repeat apply tracked_deliver; apply tracked_set_done.
Qed.

(** What a retrieval does, phase by phase. *)
Lemma get_ib_ticks_unfold (cfg : Config) (symbol duration barsize : string)
    (verbose : Z) (show_bars : bool) (host : option string) (port client_id : option Z)
    (w : World) (sent : Batch) (sched : list Batch) :
  schedule w = sent :: sched ->
  let opened := (actions w ++ [Connect (Py.or_str host (IB_HOST cfg))
                                 (Py.or_int port (IB_PORT cfg))
                                 (Py.or_int client_id (IB_CLIENT_ID cfg))])%list in
  let app1 := deliver (arrivals sent) (MarketDataApp.init verbose show_bars) in
  let t0 := now w + lasting sent in
  get_ib_ticks cfg symbol duration barsize verbose show_bars host port client_id w =
  match wait_loop (fun a => negb (MarketDataApp.connected a)) 10000 t0 sched app1 t0 with
  | Done (app2, t2, settle :: rest) =>
      let app3 := deliver (arrivals settle) app2 in
      let w3 := mkWorld (t2 + lasting settle) rest opened in
      if negb (MarketDataApp.connected app3)
      then Done (None, mkWorld (now w3) rest (opened ++ [Disconnect])%list)
      else
        match get_historical_data symbol [(duration, barsize)] app3 w3 with
        | Done ((_, dfs), w4) =>
            Done (tabulate dfs symbol barsize verbose,
                  mkWorld (now w4) (schedule w4) (actions w4 ++ [Disconnect])%list)
        | OutOfSchedule => OutOfSchedule
        end
  | Done (_, _, []) => OutOfSchedule
  | OutOfSchedule => OutOfSchedule
  end.
Proof.
  intros Hs opened app1 t0.
  unfold get_ib_ticks, run_bind, emit, pause, clock, wait_while, ret.
  cbn [schedule now actions]. rewrite Hs.
  fold opened. fold app1. unfold lasting in t0. fold t0. cbn [schedule now actions].
  destruct (wait_loop _ 10000 t0 sched app1 t0) as [[[app2 t2] [|settle rest]]|];
    try reflexivity.
  cbn [schedule now actions].
  destruct (negb (MarketDataApp.connected (deliver (arrivals settle) app2)));
    [reflexivity|].
  destruct (get_historical_data symbol [(duration, barsize)] _ _) as [[[a4 dfs] w4]|];
    reflexivity.
Qed.

(** X9. If the handshake never completes, the retrieval waits the full ten
    seconds for it, returns [None] without sending any request, and closes
    the connection it opened. *)
Theorem get_ib_ticks_without_handshake
    (cfg : Config) (symbol duration barsize : string)
    (verbose : Z) (show_bars : bool) (host : option string) (port client_id : option Z)
    (w : World) :
  validates (arrived (schedule w)) = false ->
  (102 <= List.length (schedule w))%nat ->
  exists w',
    get_ib_ticks cfg symbol duration barsize verbose show_bars host port client_id w
    = Done (None, w')
    /\ actions w' = (actions w ++ [Connect (Py.or_str host (IB_HOST cfg))
                                    (Py.or_int port (IB_PORT cfg))
                                    (Py.or_int client_id (IB_CLIENT_ID cfg));
                                  Disconnect])%list
    /\ 10000 <= now w' - now w.
Proof.
  intros Hnone Hlen.
  destruct (schedule w) as [|sent sched] eqn:Hsched; [simpl in Hlen; lia|].
  rewrite (get_ib_ticks_unfold cfg symbol duration barsize verbose show_bars
             host port client_id w sent sched Hsched). cbv zeta.
  set (app1 := deliver (arrivals sent) (MarketDataApp.init verbose show_bars)).
  set (t0 := now w + lasting sent).
  set (pending := fun a => negb (MarketDataApp.connected a)).
  destruct (wait_loop_bounded pending 10000 t0 100 sched app1 t0)
    as (app2 & t2 & sched2 & Hw & Hcost); [lia | simpl in Hlen; lia|].
  rewrite Hw.
  destruct (wait_loop_inv pending 10000 t0 sched app1 t0 app2 t2 sched2 Hw)
    as (polls & Hsplit & Happ2 & Ht2 & _ & Hstop).
  unfold arrived in Hnone. simpl flat_map in Hnone. fold (arrived sched) in Hnone.
  rewrite Hsplit, arrived_app, !validates_app in Hnone.
  apply orb_false_iff in Hnone. destruct Hnone as [Hsent Hnone].
  apply orb_false_iff in Hnone. destruct Hnone as [Hpolls Hrest].
  assert (Hc2 : MarketDataApp.connected app2 = false).
  { rewrite Happ2. unfold app1. rewrite <- deliver_app.
    apply connected_stays_down; [reflexivity|].
    now rewrite validates_app, Hsent, Hpolls. }
  destruct sched2 as [|settle rest]; [simpl in Hlen, Hcost; lia|].
  unfold arrived in Hrest. simpl flat_map in Hrest. rewrite validates_app in Hrest.
  apply orb_false_iff in Hrest. destruct Hrest as [Hsettle _].
  rewrite (connected_stays_down (arrivals settle) app2 Hc2 Hsettle).
  cbn [negb]. eexists. split; [reflexivity|]. cbn [actions now].
  split; [now rewrite <- app_assoc|].
  destruct Hstop as [Hstop | Hstop].
  - unfold pending in Hstop. rewrite Hc2 in Hstop. discriminate Hstop.
  - unfold t0, lasting in *. lia.
Qed.

Lemma get_ib_ticks_without_handshake_witness :
  exists w',
    get_ib_ticks (mkConfig "127.0.0.1" 4001 123) "SPY" "1 M" "1 day" 1 false
      None None None
      (mkWorld 0 (repeat (mkBatch [EvConnectAck; EvError (-1) 502 "Couldn't connect"] 0) 102) [])
    = Done (None, w')
    /\ actions w' = [Connect "127.0.0.1" 4001 123; Disconnect]
    /\ 10000 <= now w' - 0.
Proof.
  apply (get_ib_ticks_without_handshake (mkConfig "127.0.0.1" 4001 123)
           "SPY" "1 M" "1 day" 1 false None None None
           (mkWorld 0 (repeat (mkBatch [EvConnectAck; EvError (-1) 502 "Couldn't connect"] 0) 102) [])).
  - vm_compute. reflexivity.
  - apply Nat.leb_le. vm_compute. reflexivity.
Defined.

(** X10. An explicit empty host, port 0 or client ID 0 counts as not given:
    the retrieval connects with the module constant instead, exactly as
    when the parameter is left out. *)
Theorem get_ib_ticks_falsy_parameters
    (cfg : Config) (symbol duration barsize : string) (verbose : Z) (show_bars : bool)
    (host : option string) (port client_id : option Z) (w : World) :
  get_ib_ticks cfg symbol duration barsize verbose show_bars (Some EmptyString) port client_id w
  = get_ib_ticks cfg symbol duration barsize verbose show_bars None port client_id w
  /\ get_ib_ticks cfg symbol duration barsize verbose show_bars host (Some 0) client_id w
     = get_ib_ticks cfg symbol duration barsize verbose show_bars host None client_id w
  /\ get_ib_ticks cfg symbol duration barsize verbose show_bars host port (Some 0) w
     = get_ib_ticks cfg symbol duration barsize verbose show_bars host port None w.
Proof. repeat split; reflexivity. Qed.

Lemma requests_single_result (symbol duration bar_size : string)
    (app app' : MarketDataApp.t) (dfs : option (dict pd.DataFrame)) (w w' : World) :
  tracked app ->
  requests symbol 0 [(duration, bar_size)] app [] w = Done ((app', dfs), w') ->
  dfs = None \/ dfs = Some []
  \/ exists bars raw,
       bars <> [] /\ frame_of_bars bars = Py.Ok raw /\ dfs = Some [(bar_size, raw)].
Proof.
  intros Ht Hrun. rewrite requests_unfold in Hrun.
  destruct (await_request symbol (Z.of_nat 0 + 1) duration bar_size app w)
    as [[a1 w1]|] eqn:Ha; [|discriminate Hrun].
  destruct (await_request_tracked _ _ _ _ _ _ _ _ Ht Ha) as [hist Hrefl].
  rewrite (collect_reflects _ _ _ Hrefl) in Hrun.
  unfold table_of_bars in Hrun.
  destruct (bars_for (Z.of_nat 0 + 1) hist) as [|b bars] eqn:Eb.
  - unfold run_bind in Hrun.
    destruct (pause 1000 a1 w1) as [[a2 w2]|]; [|discriminate Hrun].
    cbn in Hrun. injection Hrun as _ <- _. right. now left.
  - destruct (frame_of_bars (b :: bars)) as [raw|e] eqn:Ef.
    + unfold mbind, result_bind in Hrun. cbn [Py.bind] in Hrun.
      unfold run_bind in Hrun.
      destruct (pause 1000 a1 w1) as [[a2 w2]|]; [|discriminate Hrun].
      cbn in Hrun. injection Hrun as _ <- _. right. right.
      exists (b :: bars), raw. repeat split; [discriminate | exact Ef].
    + unfold mbind, result_bind in Hrun. cbn [Py.bind] in Hrun.
      injection Hrun as _ <- _. now left.
Qed.

(** X11. Every table that a retrieval returns has at least one row, the ten
    output columns followed by [Index], the symbol in every [Ticker] cell,
    the bar size in every [Timeframe] cell, row labels 0, 1, 2, ... and
    [Index] cells 1, 2, 3, ... *)
Theorem get_ib_ticks_table_shape
    (cfg : Config) (symbol duration barsize : string)
    (verbose : Z) (show_bars : bool) (host : option string) (port client_id : option Z)
    (w w' : World) (df : pd.DataFrame) :
  get_ib_ticks cfg symbol duration barsize verbose show_bars host port client_id w
  = Done (Some df, w') ->
  (0 < pd.len df)%nat
  /\ map fst (pd.columns df) = (output_columns ++ ["Index"])%list
  /\ pd.index df = pd.RangeIndex (pd.len df)
  /\ pd.getitem "Ticker" df = Py.Ok (repeat (VStr symbol) (pd.len df))
  /\ pd.getitem "Timeframe" df = Py.Ok (repeat (VStr barsize) (pd.len df))
  /\ pd.getitem "Index" df
     = Py.Ok (map (fun i => VInt (Z.of_nat i)) (seq 1 (pd.len df))).
Proof.
  intros Hrun.
  destruct (schedule w) as [|sent sched] eqn:Hsched.
  { unfold get_ib_ticks, run_bind, emit, pause in Hrun.
    cbn [schedule] in Hrun. rewrite Hsched in Hrun. discriminate Hrun. }
  rewrite (get_ib_ticks_unfold cfg symbol duration barsize verbose show_bars
             host port client_id w sent sched Hsched) in Hrun. cbv zeta in Hrun.
  destruct (wait_loop _ 10000 _ sched _ _) as [[[app2 t2] [|settle rest]]|] eqn:Hw;
    try discriminate Hrun.
  destruct (negb (MarketDataApp.connected (deliver (arrivals settle) app2)));
    [discriminate Hrun|].
  unfold get_historical_data in Hrun.
  destruct (requests symbol 0 [(duration, barsize)] _ [] _) as [[[a4 dfs] w4]|] eqn:Hreq;
    [|discriminate Hrun].
  injection Hrun as Htab _.
  apply wait_loop_inv in Hw. destruct Hw as (polls & _ & -> & _).
  apply requests_single_result in Hreq;
    [|now repeat apply tracked_deliver; apply tracked_init].
  destruct Hreq as [-> | [-> | (bars & raw & Hne & Hraw & ->)]];
    try discriminate Htab.
  unfold tabulate in Htab.
  change (map (fun kv : string * pd.DataFrame => (fst kv, Some (snd kv))) [(barsize, raw)])
    with (as_items [(barsize, raw)]) in Htab.
  destruct (pd.datetime64_column (pd.index raw)) eqn:Hcol.
  2:{ destruct (frame_of_bars_object symbol barsize bars raw Hne Hraw Hcol)
        as [Hfull Hraise].
      unfold format_historical_data, format_body, as_items in Htab.
      cbn [map fst snd format_loop] in Htab.
      rewrite Hfull, Hraise in Htab. discriminate Htab. }
  pose proof (frame_of_bars_raw bars raw Hne Hraw Hcol) as Hr.
  rewrite (format_raw_tables [(barsize, raw)] symbol barsize verbose) in Htab;
    [|discriminate | repeat constructor; exact Hr].
  cbn [flat_map map list_sum fold_right fst snd] in Htab.
  rewrite !app_nil_r, Nat.add_0_r in Htab.
  assert (Hpos : (0 < pd.len raw)%nat).
  { apply raw_table_not_empty in Hr. unfold pd.empty in Hr.
    apply orb_false_iff in Hr. destruct Hr as [Hr _].
    apply Nat.eqb_neq in Hr. lia. }
  match type of Htab with
  | (if negb (pd.empty ?d) then _ else _) = _ =>
      assert (Hlen : pd.len d = pd.len raw)
        by (unfold pd.len, add_index, pd.setitem; cbn [pd.index];
            apply length_RangeIndex);
      assert (Hfull : pd.empty d = false)
        by (unfold pd.empty; rewrite Hlen;
            destruct (pd.len raw); [lia | reflexivity])
  end.
  rewrite Hfull in Htab. cbn [negb] in Htab. injection Htab as <-.
  rewrite Hlen. repeat split; try reflexivity; try exact Hpos.
  unfold add_index at 1, pd.setitem, pd.len. cbn [pd.index].
  now rewrite length_RangeIndex.
Qed.

Lemma get_ib_ticks_table_shape_witness :
  let bar := Bar.mk "20241024" (VInt 1) (VInt 2) (VInt 0) (VInt 1) (VInt 100) in
  let w := mkWorld 0
             [mkBatch [EvConnectAck; EvNextValidId 1] 5; mkBatch [] 0; mkBatch [] 0;
              mkBatch [EvHistoricalData 1 bar; EvHistoricalData 1 bar;
                       EvHistoricalDataEnd 1 "" ""] 10;
              mkBatch [] 0; mkBatch [] 0] [] in
  exists df w',
    get_ib_ticks (mkConfig "127.0.0.1" 4001 123) "SPY" "1 M" "1 day" 0 false
      None None None w = Done (Some df, w')
    /\ pd.getitem "Ticker" df = Py.Ok (repeat (VStr "SPY") (pd.len df))
    /\ pd.getitem "Index" df = Py.Ok (map (fun i => VInt (Z.of_nat i)) (seq 1 (pd.len df))).
Proof.
  intros bar w.
  destruct (get_ib_ticks (mkConfig "127.0.0.1" 4001 123) "SPY" "1 M" "1 day" 0 false
              None None None w) as [[[df|] w']|] eqn:E.
  - exists df, w'. split; [reflexivity|].
    destruct (get_ib_ticks_table_shape _ _ _ _ _ _ _ _ _ _ _ _ E)
      as (_ & _ & _ & Ht & _ & Hi).
    split; [exact Ht | exact Hi].
  - vm_compute in E. discriminate E.
  - vm_compute in E. discriminate E.
Defined.

(** X17. Without symbols, or without timeframe configs, nothing is asked of the
    gateway and the result is [None]. *)
Theorem get_ib_ticks_multiple_of_nothing
    (argsort : list Z -> list nat) (cfg : Config) (environ : Environ)
    (symbols : list string) (timeframes : list (string * string))
    (verbose : Z) (show_bars : bool)
    (host h : option string) (port client_id p c : option Z) (w : World) :
  resolve_defaults environ verbose host port client_id = Py.Ok (h, p, c) ->
  symbols = [] \/ timeframes = [] ->
  get_ib_ticks_multiple argsort cfg environ symbols timeframes verbose show_bars
    host port client_id w = Done (Py.Ok None, w).
Proof.
  intros Hres Hempty. unfold get_ib_ticks_multiple. rewrite Hres.
  assert (Hloop : ticks_for_symbols cfg symbols timeframes verbose show_bars h p c [] w
                  = Done ([], w)).
  { destruct Hempty as [-> | ->]; [reflexivity|].
    induction symbols as [|s rest IH]; [reflexivity|].
    cbn [ticks_for_symbols ticks_for_symbol]. unfold run_bind, ret. exact IH. }
  unfold run_bind. rewrite Hloop. reflexivity.
Qed.

Lemma get_ib_ticks_multiple_of_nothing_witness :
  get_ib_ticks_multiple pd.stable_argsort
    (mkConfig "127.0.0.1" 4001 123) (mkEnviron None None None)
    ["SPY"; "QQQ"] [] 1 true None None None (mkWorld 0 [] [])
  = Done (Py.Ok None, mkWorld 0 [] []).
Proof.
  apply (get_ib_ticks_multiple_of_nothing _ _ _ _ _ _ _ _
           (Some "127.0.0.1") _ _ (Some 4001) (Some 123)).
  - reflexivity.
  - right. reflexivity.
Defined.

(** X18. The defaults are resolved before the [try]. At verbosity 0 nothing is
    read from the environment and no exception leaves the function. At
    verbosity 1 or more, with the port left out and an [IB_PORT] that is
    not an integer, the [ValueError] of the conversion reaches the caller
    and nothing is asked of the gateway. *)
Theorem get_ib_ticks_multiple_bad_port
    (argsort : list Z -> list nat) (cfg : Config) (environ : Environ)
    (symbols : list string) (timeframes : list (string * string))
    (verbose : Z) (show_bars : bool)
    (host : option string) (port client_id : option Z) (w : World) :
  (verbose < 1 ->
   forall r w',
     get_ib_ticks_multiple argsort cfg environ symbols timeframes verbose show_bars
       host port client_id w = Done (r, w') ->
     exists table, r = Py.Ok table)
  /\ (1 <= verbose -> port = None ->
      Py.int (getenv (env_IB_PORT environ) DEFAULT_IB_PORT) = Py.Raise Py.ValueError ->
      get_ib_ticks_multiple argsort cfg environ symbols timeframes verbose show_bars
        host port client_id w = Done (Py.Raise Py.ValueError, w)).
Proof.
  split.
  - intros Hv r w' Hrun. unfold get_ib_ticks_multiple, resolve_defaults in Hrun.
    assert (E : (1 <=? verbose) = false) by (apply Z.leb_gt; lia).
    rewrite E in Hrun.
    destruct host, port, client_id; cbn in Hrun;
      unfold run_bind in Hrun;
      destruct (ticks_for_symbols _ _ _ _ _ _ _ _ _ _) as [[dfs w1]|];
      try discriminate Hrun; injection Hrun as <- _; eauto.
  - intros Hv -> Hbad. unfold get_ib_ticks_multiple, resolve_defaults.
    assert (E : (1 <=? verbose) = true) by (apply Z.leb_le; lia).
    rewrite E, Hbad. destruct host; reflexivity.
Qed.

Lemma get_ib_ticks_multiple_bad_port_witness :
  get_ib_ticks_multiple pd.stable_argsort (mkConfig "127.0.0.1" 4001 123)
    (mkEnviron None (Some "four thousand") None)
    ["SPY"] [("1 M", "1 day")] 1 false None None None (mkWorld 0 [] [])
  = Done (Py.Raise Py.ValueError, mkWorld 0 [] []).
Proof.
  apply (proj2 (get_ib_ticks_multiple_bad_port _ _ _ _ _ 1 _ _ _ _ _)).
  - lia.
  - reflexivity.
  - reflexivity.
Defined.

Lemma frame_of_bars_raises (bars : list Bar.t) (bar : Bar.t) (e : Py.exn) :
  In bar bars -> parse_ib_datetime (Bar.date bar) = Py.Raise e ->
  exists e', frame_of_bars bars = Py.Raise e'.
Proof.
  intros Hin Hbad. unfold frame_of_bars, mbind, result_bind.
  assert (Hm : exists e', Py.mapM (fun b => parse_ib_datetime (Bar.date b)) bars
                          = Py.Raise e').
  { induction bars as [|b bars IH]; [contradiction|].
    cbn [Py.mapM]. destruct Hin as [-> | Hin].
    - rewrite Hbad. eexists. reflexivity.
    - destruct (parse_ib_datetime (Bar.date b)); [|eexists; reflexivity].
      cbn [Py.bind]. destruct (IH Hin) as [e' ->]. eexists. reflexivity. }
  destruct Hm as [e' ->]. eexists. reflexivity.
Qed.

(** X19. One bar whose date does not parse costs the whole retrieval: when the
    wait of a request ends with such a bar stored for its ID, the
    retriever returns [None], whatever tables it had gathered for earlier
    requests, and the remaining requests are not sent. *)
Theorem unparsable_date_loses_everything
    (symbol : string) (idx : nat) (duration bar_size : string)
    (more : list (string * string)) (dataframes : dict pd.DataFrame)
    (app app' : MarketDataApp.t) (hist : list Event) (w w' : World)
    (bar : Bar.t) (e : Py.exn) :
  await_request symbol (Z.of_nat idx + 1) duration bar_size app w = Done (app', w') ->
  reflects app' hist ->
  In bar (bars_for (Z.of_nat idx + 1) hist) ->
  parse_ib_datetime (Bar.date bar) = Py.Raise e ->
  requests symbol idx ((duration, bar_size) :: more) app dataframes w
  = Done ((app', None), w').
Proof.
  intros Hrun Hrefl Hin Hbad.
  rewrite requests_unfold, Hrun, (collect_reflects _ _ _ Hrefl).
  unfold table_of_bars.
  destruct (bars_for (Z.of_nat idx + 1) hist) as [|b bars] eqn:Eb; [contradiction|].
  destruct (frame_of_bars_raises (b :: bars) bar e Hin Hbad) as [e' ->].
  reflexivity.
Qed.

Lemma unparsable_date_loses_everything_witness :
  let bad := Bar.mk "20241024 15:30:00" (VInt 1) (VInt 2) (VInt 0) (VInt 1) (VInt 100) in
  let evs := [EvHistoricalData 1 bad; EvHistoricalDataEnd 1 "" ""] in
  let app' := deliver evs (MarketDataApp.set_done (<[1 := false]> ∅)
                             (MarketDataApp.init 0 false)) in
  let w := mkWorld 0 [mkBatch [] 0; mkBatch evs 10; mkBatch [] 0] [] in
  requests "SPY" 0 [("1 M", "3 hours"); ("1 Y", "1 day")] (MarketDataApp.init 0 false)
    [("1 week", pd.empty_frame)] w
  = Done ((app', None),
          mkWorld 100 [] [ReqHistoricalData 1 "SPY" "1 M" "3 hours"]).
Proof.
  intros bad evs app' w.
  apply (unparsable_date_loses_everything "SPY" 0 "1 M" "3 hours" _ _ _ app' evs w _
           bad Py.IndexError).
  - reflexivity.
  - apply (reflects_deliver evs _ []). apply reflects_set_done. apply reflects_init.
  - left. reflexivity.
  - reflexivity.
Defined.

(** ** Sorting the combined table *)

Lemma insert_key_perm (x : Z * nat) (l : list (Z * nat)) :
  Permutation (x :: l) (pd.insert_key x l).
Proof.
  induction l as [|y l IH]; [reflexivity|].
  cbn [pd.insert_key]. destruct (fst x <=? fst y); [reflexivity|].
  etransitivity; [apply perm_swap|]. now apply perm_skip.
Qed.

Lemma sorted_pairs_perm (l : list (Z * nat)) :
  Permutation l (fold_right pd.insert_key [] l).
Proof.
  induction l as [|x l IH]; [reflexivity|]. cbn [fold_right].
  etransitivity; [apply perm_skip, IH | apply insert_key_perm].
Qed.

Lemma insert_key_ascending (x : Z * nat) (l : list (Z * nat)) :
  ascending (map fst l) = true -> ascending (map fst (pd.insert_key x l)) = true.
Proof.
  induction l as [|y l IH]; intros H; [reflexivity|].
  cbn [pd.insert_key]. destruct (fst x <=? fst y) eqn:E.
  - cbn [map ascending] in *. now rewrite E, H.
  - assert (Hyx : (fst y <=? fst x) = true).
    { apply Z.leb_le. apply Z.leb_gt in E. lia. }
    assert (Hl : ascending (map fst l) = true).
    { cbn [map ascending] in H. destruct (map fst l); [reflexivity|].
      apply andb_true_iff in H. tauto. }
    specialize (IH Hl).
    destruct l as [|z l'].
    + cbn [pd.insert_key map ascending]. now rewrite Hyx.
    + cbn [pd.insert_key] in *. destruct (fst x <=? fst z) eqn:Ez.
      * cbn [map ascending] in *. now rewrite Hyx, IH.
      * cbn [map ascending] in H. apply andb_true_iff in H. destruct H as [Hyz _].
        change (ascending (fst y :: map fst (z :: pd.insert_key x l')) = true).
        cbn [map ascending] in *. now rewrite Hyz, IH.
Qed.

Lemma sorted_pairs_ascending (l : list (Z * nat)) :
  ascending (map fst (fold_right pd.insert_key [] l)) = true.
Proof.
  induction l as [|x l IH]; [reflexivity|]. cbn [fold_right].
  now apply insert_key_ascending.
Qed.

Lemma combine_seq_nth (keys : list Z) (s : nat) (k : Z) (i : nat) :
  In (k, i) (combine keys (seq s (List.length keys))) ->
  (s <= i)%nat /\ nth_error keys (i - s) = Some k.
Proof.
  revert s. induction keys as [|k0 keys IH]; intros s H; [contradiction|].
  cbn [List.length seq combine] in H. destruct H as [H | H].
  - injection H as -> ->. rewrite Nat.sub_diag. split; [lia | reflexivity].
  - apply IH in H. destruct H as [Hle Hn]. split; [lia|].
    replace (i - s)%nat with (S (i - S s)) by lia. exact Hn.
Qed.

Lemma combine_seq_fst (keys : list Z) (s : nat) :
  map fst (combine keys (seq s (List.length keys))) = keys.
Proof.
  revert s. induction keys as [|k keys IH]; intros s; [reflexivity|].
  cbn [List.length seq combine map fst]. now rewrite IH.
Qed.

Lemma take_pairs (keys : list Z) (pairs : list (Z * nat)) :
  (forall k i, In (k, i) pairs -> nth_error keys i = Some k) ->
  pd.take (map snd pairs) keys = map fst pairs.
Proof.
  induction pairs as [|[k i] pairs IH]; intros H; [reflexivity|].
  unfold pd.take in *. cbn [map flat_map fst snd].
  rewrite (H k i) by (left; reflexivity).
  cbn [List.app]. f_equal. apply IH. intros k' i' Hin. apply H. now right.
Qed.

Lemma take_map {A B} (f : A -> B) (rows : list nat) (l : list A) :
  pd.take rows (map f l) = map f (pd.take rows l).
Proof.
  unfold pd.take. induction rows as [|i rows IH]; [reflexivity|].
  cbn [flat_map]. rewrite map_app, IH, nth_error_map.
  now destruct (nth_error l i).
Qed.

Lemma combine_seq_snd (keys : list Z) (s : nat) :
  map snd (combine keys (seq s (List.length keys))) = seq s (List.length keys).
Proof.
  revert s. induction keys as [|k keys IH]; intros s; [reflexivity|].
  cbn [List.length seq combine map snd]. now rewrite IH.
Qed.

(** The stable sort is a sort: it picks every row once, and the rows it
    picks carry the keys in ascending order. *)
Lemma stable_argsort_sorting : pd.sorting pd.stable_argsort.
Proof.
  intros keys. unfold pd.stable_argsort.
  set (pairs := combine keys (seq 0 (List.length keys))).
  split.
  - rewrite <- (combine_seq_snd keys 0). fold pairs.
    apply Permutation_map, sorted_pairs_perm.
  - rewrite take_pairs; [apply sorted_pairs_ascending|].
    intros k i Hin.
    apply (Permutation_in _ (Permutation_sym (sorted_pairs_perm pairs))) in Hin.
    apply combine_seq_nth in Hin. destruct Hin as [_ Hn].
    now rewrite Nat.sub_0_r in Hn.
Qed.

Lemma take_seq_from {A} (l1 l2 : list A) :
  pd.take (seq (List.length l1) (List.length l2)) (l1 ++ l2) = l2.
Proof.
  revert l1. induction l2 as [|x l2 IH]; intros l1; [reflexivity|].
  unfold pd.take in *. cbn [List.length seq flat_map].
  rewrite nth_error_app2 by lia. rewrite Nat.sub_diag. cbn [nth_error List.app].
  f_equal. specialize (IH (l1 ++ [x])%list).
  rewrite length_app, <- app_assoc in IH. cbn [List.length List.app] in IH.
  rewrite Nat.add_1_r in IH. exact IH.
Qed.

Lemma take_seq {A} (l : list A) : pd.take (seq 0 (List.length l)) l = l.
Proof. exact (take_seq_from [] l). Qed.

(** Picking every row once gives the cells of the column, each as often
    as it is there. *)
Lemma take_perm {A} (rows : list nat) (l : list A) :
  Permutation (seq 0 (List.length l)) rows -> Permutation l (pd.take rows l).
Proof.
  intros H. rewrite <- (take_seq l) at 1. unfold pd.take.
  now apply Permutation_flat_map.
Qed.

Lemma int_keys (col : list Value) (keys : list Z) :
  Py.mapM (fun v => match v with
                    | VInt z => Py.Ok z
                    | _ => Py.Raise Py.TypeError
                    end) col = Py.Ok keys ->
  col = map VInt keys.
Proof.
  revert keys. induction col as [|v col IH]; intros keys H.
  - injection H as <-. reflexivity.
  - cbn [Py.mapM] in H. destruct v; try discriminate H. cbn [Py.bind] in H.
    destruct (Py.mapM _ col) as [ks|e]; [|discriminate H].
    cbn [Py.bind] in H. injection H as <-. cbn [map]. f_equal. now apply IH.
Qed.

Lemma dict_get_map_values {V W} (f : V -> W) (k : string) (d : dict V) :
  dict_get k (map (fun kv => (fst kv, f (snd kv))) d)
  = match dict_get k d with Some v => Some (f v) | None => None end.
Proof.
  induction d as [|[k' v] d IH]; [reflexivity|].
  cbn [map dict_get fst snd]. now destruct (String.eqb k' k).
Qed.

Lemma getitem_take (name : string) (rows : list nat) (df : pd.DataFrame)
    (col : list Value) :
  pd.getitem name df = Py.Ok col ->
  pd.getitem name
    (pd.mkDataFrame (pd.index_name df) (pd.take rows (pd.index df))
       (map (fun kv => (fst kv, pd.take rows (snd kv))) (pd.columns df)))
  = Py.Ok (pd.take rows col).
Proof.
  unfold pd.getitem. cbn [pd.columns]. rewrite dict_get_map_values.
  destruct (dict_get name (pd.columns df)); [|discriminate].
  intros H. injection H as ->. reflexivity.
Qed.

(** What [sort_values] returns: the rows of the table, picked in the
    order that the sort gives for the keys. *)
Lemma sort_values_rows (argsort : list Z -> list nat) (name : string)
    (df out : pd.DataFrame) :
  pd.sort_values argsort name df = Py.Ok out ->
  exists keys0,
    pd.getitem name df = Py.Ok (map VInt keys0)
    /\ out = pd.mkDataFrame (pd.index_name df)
               (pd.take (argsort keys0) (pd.index df))
               (map (fun kv => (fst kv, pd.take (argsort keys0) (snd kv)))
                  (pd.columns df)).
Proof.
  unfold pd.sort_values, mbind, result_bind.
  destruct (pd.getitem name df) as [col|e] eqn:Eg; [|discriminate].
  cbn [Py.bind].
  destruct (Py.mapM _ col) as [keys0|e] eqn:Ek; [|discriminate].
  cbn [Py.bind]. intros H. injection H as <-.
  apply int_keys in Ek. subst col.
  exists keys0. split; reflexivity.
Qed.

(** X16. Under any sort, whenever [get_ib_ticks_multiple] returns a table,
    the defaults were read without an exception, the loops over the
    symbols and the timeframe configs have collected tables, and the
    returned table is their concatenation, in the order of the loops, with
    its rows picked by one permutation of the row numbers of its
    [Timestamp] column: the row labels and every column are picked by it,
    and the [Timestamp] cells are the integers of the concatenation, each
    as often as there, in ascending order. *)
Theorem get_ib_ticks_multiple_sorted
    (argsort : list Z -> list nat) (cfg : Config) (environ : Environ)
    (symbols : list string) (timeframes : list (string * string))
    (verbose : Z) (show_bars : bool)
    (host : option string) (port client_id : option Z) (w w' : World)
    (out : pd.DataFrame) :
  pd.sorting argsort ->
  get_ib_ticks_multiple argsort cfg environ symbols timeframes verbose show_bars
    host port client_id w = Done (Py.Ok (Some out), w') ->
  exists h p c all_dfs unsorted keys0 rows,
    resolve_defaults environ verbose host port client_id = Py.Ok (h, p, c)
    /\ ticks_for_symbols cfg symbols timeframes verbose show_bars h p c [] w
       = Done (all_dfs, w')
    /\ pd.concat all_dfs = Py.Ok unsorted
    /\ pd.getitem "Timestamp" unsorted = Py.Ok (map VInt keys0)
    /\ rows = argsort keys0
    /\ Permutation (seq 0 (List.length keys0)) rows
    /\ pd.index out = pd.take rows (pd.index unsorted)
    /\ map fst (pd.columns out) = map fst (pd.columns unsorted)
    /\ (forall name col,
          pd.getitem name unsorted = Py.Ok col ->
          pd.getitem name out = Py.Ok (pd.take rows col))
    /\ pd.getitem "Timestamp" out = Py.Ok (map VInt (pd.take rows keys0))
    /\ ascending (pd.take rows keys0) = true
    /\ Permutation keys0 (pd.take rows keys0).
Proof.
  intros Hsort. unfold get_ib_ticks_multiple.
  destruct (resolve_defaults environ verbose host port client_id) as [[[h p] c]|e].
  - unfold run_bind, ret.
    destruct (ticks_for_symbols cfg symbols timeframes verbose show_bars h p c [] w)
      as [[all_dfs w1]|] eqn:Et; [|discriminate].
    intros H. injection H as Hc <-. unfold combine_all in Hc.
    destruct all_dfs as [|d l]; [discriminate Hc|].
    unfold mbind, result_bind in Hc.
    destruct (pd.concat (d :: l)) as [unsorted|e] eqn:Econ; [|discriminate Hc].
    cbn [Py.bind] in Hc.
    destruct (pd.sort_values argsort "Timestamp" unsorted) as [sorted|e] eqn:Es;
      [|discriminate Hc].
    injection Hc as ->.
    destruct (sort_values_rows argsort "Timestamp" unsorted out Es)
      as (keys0 & H0 & ->).
    destruct (Hsort keys0) as [Hperm Hasc].
    exists h, p, c, (d :: l), unsorted, keys0, (argsort keys0).
    split; [reflexivity|]. split; [exact Et|]. split; [exact Econ|].
    split; [exact H0|]. split; [reflexivity|]. split; [exact Hperm|].
    split; [reflexivity|].
    split; [cbn [pd.columns]; rewrite map_map; reflexivity|].
    split; [intros name col Hcol; now apply getitem_take|].
    split; [rewrite (getitem_take _ _ _ _ H0); now rewrite take_map|].
    split; [exact Hasc | now apply take_perm].
  - intros H. discriminate H.
Qed.

Lemma get_ib_ticks_multiple_sorted_witness :
  let early := Bar.mk "20241023" (VInt 1) (VInt 2) (VInt 0) (VInt 1) (VInt 100) in
  let late := Bar.mk "20241024" (VInt 1) (VInt 2) (VInt 0) (VInt 1) (VInt 100) in
  let retrieval :=
    [mkBatch [EvConnectAck; EvNextValidId 1] 5; mkBatch [] 0; mkBatch [] 0;
     mkBatch [EvHistoricalData 1 early; EvHistoricalData 1 late;
              EvHistoricalDataEnd 1 "" ""] 10;
     mkBatch [] 0; mkBatch [] 0] in
  let run :=
    get_ib_ticks_multiple pd.stable_argsort
      (mkConfig "127.0.0.1" 4001 123) (mkEnviron None None None)
      ["SPY"; "QQQ"] [("1 M", "1 day")] 0 false None None None
      (mkWorld 0 (retrieval ++ retrieval) []) in
  exists out w' keys0 rows,
    run = Done (Py.Ok (Some out), w')
    /\ Permutation (seq 0 (List.length keys0)) rows
    /\ pd.getitem "Timestamp" out = Py.Ok (map VInt (pd.take rows keys0))
    /\ ascending (pd.take rows keys0) = true.
Proof.
  intros early late retrieval run.
  destruct run as [[[[out|]|e] w']|] eqn:E.
  - destruct (get_ib_ticks_multiple_sorted _ _ _ _ _ _ _ _ _ _ _ _ _
                stable_argsort_sorting E)
      as (_ & _ & _ & _ & _ & keys0 & rows & _ & _ & _ & _ & _ & Hperm
          & _ & _ & _ & Hout & Hasc & _).
    exists out, w', keys0, rows.
    split; [reflexivity|]. split; [exact Hperm|]. split; assumption.
  - vm_compute in E. discriminate E.
  - vm_compute in E. discriminate E.
  - vm_compute in E. discriminate E.
Defined.

(** ** Retriever, continued *)

Lemma within_requests (symbol : string) (timeframe_configs : list (string * string))
    (idx : nat) (app : MarketDataApp.t) (dataframes : dict pd.DataFrame) :
  within (303 * List.length timeframe_configs)
    (requests symbol idx timeframe_configs app dataframes)
    (fun r acts =>
       exists k,
         acts = firstn k (request_actions symbol idx timeframe_configs)
         /\ (k <= List.length timeframe_configs)%nat
         /\ (snd r <> None -> k = List.length timeframe_configs)
         /\ (snd r = None -> (1 <= k)%nat)).
Proof.
  revert idx app dataframes.
  induction timeframe_configs as [|[duration bar_size] rest IH];
    intros idx app dataframes.
  - cbn [requests]. eapply within_weaken; [| | apply within_ret]; [simpl; lia|].
    intros a acts [-> ->]. exists 0%nat. cbn. repeat split; try lia. congruence.
  - cbn [requests].
    apply (within_seq 302 (1 + 303 * List.length rest) _ _ _
             (fun _ acts =>
                acts = [ReqHistoricalData (Z.of_nat idx + 1) symbol duration bar_size])
             (fun r acts =>
                (snd r = None /\ acts = [])
                \/ exists k,
                     acts = firstn k (request_actions symbol (S idx) rest)
                     /\ (k <= List.length rest)%nat
                     /\ (snd r <> None -> k = List.length rest)));
      [simpl List.length; lia | apply within_await_request | |].
    + intros app1 _ _.
      destruct (collect (Z.of_nat idx + 1) app1) as [found|e].
      * apply (within_seq 1 (303 * List.length rest) _ _ _ silent
                 (fun r acts =>
                    exists k,
                      acts = firstn k (request_actions symbol (S idx) rest)
                      /\ (k <= List.length rest)%nat
                      /\ (snd r <> None -> k = List.length rest)
                      /\ (snd r = None -> (1 <= k)%nat)));
          [lia | apply within_pause | intros app2 _ _; apply IH |].
        intros a acts1 r acts2 Hs (k & -> & Hk & Hfull & _).
        unfold silent in Hs. subst acts1.
        right. exists k. split; [reflexivity|]. split; assumption.
      * eapply within_weaken; [| | apply within_ret]; [lia|].
        intros a acts [-> ->]. left. split; reflexivity.
    + intros a acts1 r acts2 -> [[Hnone ->] | (k & -> & Hk & Hfull)].
      * exists 1%nat. cbn. repeat split; try lia. congruence.
      * exists (S k). cbn [request_actions firstn List.app List.length].
        repeat split; try lia. intros Hr. now rewrite (Hfull Hr).
Qed.

(** X20. On enough of the schedule, [get_historical_data] finishes, whatever
    the gateway does, and what it has sent are the requests of the first
    configs of the list, in order and once each, the request of the config at
    position [i] under the ID [i + 1]: all of them when it returns a
    mapping, and those up to the failing one when it returns [None]. *)
Theorem get_historical_data_requests
    (symbol : string) (timeframe_configs : list (string * string))
    (app : MarketDataApp.t) (w : World) :
  (303 * List.length timeframe_configs <= List.length (schedule w))%nat ->
  exists app' dfs w' k,
    get_historical_data symbol timeframe_configs app w = Done ((app', dfs), w')
    /\ actions w' = (actions w ++ firstn k (request_actions symbol 0 timeframe_configs))%list
    /\ (k <= List.length timeframe_configs)%nat
    /\ (dfs <> None -> k = List.length timeframe_configs)
    /\ (dfs = None -> (1 <= k)%nat).
Proof.
  intros Hlen. unfold get_historical_data.
  destruct (within_requests symbol timeframe_configs 0 app [] w Hlen)
    as ([app' dfs] & w' & acts & Hrun & Hacts & _ & k & -> & Hk & Hfull & Hnone).
  exists app', dfs, w', k. cbn [snd] in *. auto.
Qed.

Lemma get_historical_data_requests_witness :
  exists app' dfs w' k,
    get_historical_data "SPY" [("1 M", "3 hours"); ("1 Y", "1 day")]
      (MarketDataApp.init 0 false) (mkWorld 0 (repeat (mkBatch [] 0) 606) [])
    = Done ((app', dfs), w')
    /\ actions w'
       = firstn k [ReqHistoricalData 1 "SPY" "1 M" "3 hours";
                   ReqHistoricalData 2 "SPY" "1 Y" "1 day"]
    /\ (k <= 2)%nat.
Proof.
  destruct (get_historical_data_requests "SPY" [("1 M", "3 hours"); ("1 Y", "1 day")]
              (MarketDataApp.init 0 false) (mkWorld 0 (repeat (mkBatch [] 0) 606) []))
    as (app' & dfs & w' & k & Hrun & Hacts & Hk & _).
  - apply Nat.leb_le. vm_compute. reflexivity.
  - exists app', dfs, w', k. split; [exact Hrun|]. split; [exact Hacts | exact Hk].
Defined.
